(** * aw-watcher-superproductivity: the incremental diff pass

    A shallow embedding of [aw_superproductivity_watcher.py] and the
    properties of its snapshot reader and of [parse_backup_and_send].

    Conventions of the embedding.
    - A parsed document is a [json] value.  JSON numbers are the integers
      of the backup format (epoch milliseconds, seconds counters); JSON
      reals are outside the model.  A Python [dict] keeps insertion order,
      so an object is an association list; [json.loads] never yields a
      repeated key.
    - Python raises where an operation meets a value of the wrong type;
      the embedding returns [Err] there, with the exception's class.
    - The module-level globals, the cache file, the sink's bucket and the
      standard output form the [world] that every statement threads.
    - What the interpreter and the libraries decide ([json.loads], the
      [repr] of a container, the ActivityWatch client, writing the cache
      file, whether the standard output can encode the text of a
      snapshot) is a field of the [Platform] class. *)

From Stdlib Require Import ZArith QArith List String Bool Lia.
From Stdlib Require Import DecimalString.
Import ListNotations.

Set Warnings "-register-all".

Open Scope string_scope.
Open Scope list_scope.
Open Scope Z_scope.

(** ** Parsed documents *)

Inductive json : Type :=
| JNull
| JBool (b : bool)
| JInt (z : Z)
| JStr (s : string)
| JArr (l : list json)
| JObj (kvs : list (string * json)).

(** The exception classes the pass can meet. *)
Inductive exn : Type :=
| AttributeError
| TypeError
| KeyError
| ValueError
| OverflowError
| SinkError
| UnicodeEncodeError.

(** The result of an expression: a value, or an exception. *)
Inductive res (A : Type) : Type :=
| Ok (a : A)
| Err (e : exn).
Arguments Ok {A} a.
Arguments Err {A} e.

Definition res_bind {A B} (r : res A) (k : A -> res B) : res B :=
  match r with
  | Ok a => k a
  | Err e => Err e
  end.

Module PyNotations.
Notation "'let?' x ':=' r 'in' k" := (res_bind r (fun x => k))
  (at level 10, x name, r at level 100, k at level 200).
End PyNotations.
Import PyNotations.

(** ** The Python operations the pass applies to parsed values *)

Module Py.

(** [d[k]] on the items of a dict, [None] when the key is absent. *)
Fixpoint lookup (kvs : list (string * json)) (k : string) : option json :=
  match kvs with
  | [] => None
  | (k', v) :: rest => if String.eqb k' k then Some v else lookup rest k
  end.

(** [d[k] = v]: the value is replaced where the key stands, a new key
    goes to the end. *)
Fixpoint assign (kvs : list (string * json)) (k : string) (v : json)
  : list (string * json) :=
  match kvs with
  | [] => [(k, v)]
  | (k', v') :: rest =>
      if String.eqb k' k then (k', v) :: rest
      else (k', v') :: assign rest k v
  end.

(** [x.get(k, default)]: only a dict has the method. *)
Definition get (x : json) (k : string) (default : json) : res json :=
  match x with
  | JObj kvs =>
      match lookup kvs k with
      | Some v => Ok v
      | None => Ok default
      end
  | _ => Err AttributeError
  end.

(** [x[k]] for a string [k]. *)
Definition getitem (x : json) (k : string) : res json :=
  match x with
  | JObj kvs =>
      match lookup kvs k with
      | Some v => Ok v
      | None => Err KeyError
      end
  | _ => Err TypeError
  end.

(** [x[k] = v] for a string [k]: the object after the assignment. *)
Definition setitem (x : json) (k : string) (v : json) : res json :=
  match x with
  | JObj kvs => Ok (JObj (assign kvs k v))
  | _ => Err TypeError
  end.

(** [x.items()]. *)
Definition items (x : json) : res (list (string * json)) :=
  match x with
  | JObj kvs => Ok kvs
  | _ => Err AttributeError
  end.

(** [x.values()]. *)
Definition values (x : json) : res (list json) :=
  match x with
  | JObj kvs => Ok (map snd kvs)
  | _ => Err AttributeError
  end.

(** Truth value of an object, as [and] and [if] test it. *)
Definition truthy (x : json) : bool :=
  match x with
  | JNull => false
  | JBool b => b
  | JInt z => negb (z =? 0)
  | JStr s => negb (String.eqb s EmptyString)
  | JArr l => match l with [] => false | _ => true end
  | JObj kvs => match kvs with [] => false | _ => true end
  end.

(** The number behind a value in arithmetic and ordering: an int, or a
    bool ([True] is 1).  Every other JSON value makes the operators of
    the pass ([<=], [>], [-], [/]) raise [TypeError]. *)
Definition num (x : json) : res Z :=
  match x with
  | JInt z => Ok z
  | JBool b => Ok (if b then 1 else 0)
  | _ => Err TypeError
  end.

(** [x == s] for a string [s]. *)
Definition eq_str (x : json) (s : string) : bool :=
  match x with
  | JStr s' => String.eqb s' s
  | _ => false
  end.

(** [s in x] for a string [s]: key of a dict, element of a list,
    substring of a string; nothing else is a container. *)
Definition contains (s : string) (x : json) : res bool :=
  match x with
  | JObj kvs => Ok (match lookup kvs s with Some _ => true | None => false end)
  | JArr l => Ok (existsb (fun y => eq_str y s) l)
  | JStr t => Ok (match String.index 0 s t with Some _ => true | None => false end)
  | _ => Err TypeError
  end.

(** [str(z)] for an int. *)
Definition str_of_int (z : Z) : string :=
  NilZero.string_of_int (Z.to_int z).

(** The largest magnitude true division can round to a float: the
    quotient overflows from [2^1024 - 2^970] on. *)
Definition float_overflow_bound : Z := 2 ^ 1024 - 2 ^ 970.

(** [z / 1000] (true division).  The quotient is kept as the exact
    rational; Python rounds it to the nearest float. *)
Definition div1000 (z : Z) : res Q :=
  if Z.abs z <? 1000 * float_overflow_bound
  then Ok (z # 1000)
  else Err OverflowError.

(** First instant of [datetime], in milliseconds from the epoch:
    0001-01-01T00:00:00 UTC. *)
Definition datetime_min_ms : Z := -62135596800000.

(** Last millisecond of [datetime]: 9999-12-31T23:59:59.999 UTC. *)
Definition datetime_max_ms : Z := 253402300799999.

(** [datetime.fromtimestamp(ms / 1000, timezone.utc)]: the instant is
    represented by its offset from the epoch in milliseconds.  Outside
    the years 1 to 9999 the call raises; [ValueError] stands for the
    class the platform picks there. *)
Definition fromtimestamp_utc (ms : Z) : res Z :=
  let? _ := div1000 ms in
  if (datetime_min_ms <=? ms) && (ms <=? datetime_max_ms)
  then Ok ms
  else Err ValueError.

(** [line.startswith(p)]. *)
Definition startswith (line p : string) : bool := String.prefix p line.

(** [line.find(c)]. *)
Definition find (line c : string) : option nat := String.index 0 c line.

(** [line[i:]]. *)
Definition slice_from (line : string) (i : nat) : string :=
  String.substring i (String.length line - i) line.

End Py.

(** ** Events, log lines and the world *)

(** The [data] dict of an event. *)
Record event_data : Type := mk_event_data {
  source : string;
  project_or_tag_id : json;
  title : json
}.

(** [Event(timestamp=..., duration=..., data=...)]: the timestamp is a UTC
    instant (milliseconds from the epoch), the duration is in seconds. *)
Record Event : Type := mk_Event {
  timestamp : Z;
  duration : Q;
  data : event_data
}.

(** What the program prints, one constructor per [print] of the source;
    [InfoSent] keeps the values its f-string formats. *)
Inductive log_line : Type :=
| WarnLoadCacheFailed
| WarnSaveCacheFailed
| ErrorNoValidJson
| ErrorReadFailed
| InfoNoNewUpdates
| InfoSent (source_name : string) (project_name title : json) (day : string)
           (time_diff : Z) (timestamp_start : Z) (duration_sec : Q).

(** The cache file [previous_time_spent_cache.json]. *)
Inductive cache_file_state : Type :=
| NoFile
| Unreadable
| Stored (content : json).

(** Module-level state of the process and the two stores it writes to. *)
Record world : Type := mk_world {
  last_session_end_ms : Z;
  last_update_timestamp : Z;
  previous_time_spent_cache : json;
  cache_file : cache_file_state;
  bucket : list Event;
  stdout : list log_line
}.

Definition with_last_session_end_ms (v : Z) (w : world) : world :=
  mk_world v (last_update_timestamp w) (previous_time_spent_cache w)
           (cache_file w) (bucket w) (stdout w).

Definition with_last_update_timestamp (v : Z) (w : world) : world :=
  mk_world (last_session_end_ms w) v (previous_time_spent_cache w)
           (cache_file w) (bucket w) (stdout w).

Definition with_cache (c : json) (w : world) : world :=
  mk_world (last_session_end_ms w) (last_update_timestamp w) c
           (cache_file w) (bucket w) (stdout w).

Definition with_cache_file (f : cache_file_state) (w : world) : world :=
  mk_world (last_session_end_ms w) (last_update_timestamp w)
           (previous_time_spent_cache w) f (bucket w) (stdout w).

Definition with_bucket (b : list Event) (w : world) : world :=
  mk_world (last_session_end_ms w) (last_update_timestamp w)
           (previous_time_spent_cache w) (cache_file w) b (stdout w).

Definition with_stdout (o : list log_line) (w : world) : world :=
  mk_world (last_session_end_ms w) (last_update_timestamp w)
           (previous_time_spent_cache w) (cache_file w) (bucket w) o.

(** ** Statements: a state monad over the world, with exceptions *)

Definition M (A : Type) : Type := world -> res A * world.

Definition ret {A} (a : A) : M A := fun w => (Ok a, w).

Definition bind {A B} (m : M A) (k : A -> M B) : M B :=
  fun w =>
    match m w with
    | (Ok a, w') => k a w'
    | (Err e, w') => (Err e, w')
    end.

(** An expression evaluated inside a statement. *)
Definition lift {A} (r : res A) : M A := fun w => (r, w).

Definition gets {A} (f : world -> A) : M A := fun w => (Ok (f w), w).

Definition modify (f : world -> world) : M unit := fun w => (Ok tt, f w).

(** [print] of a line whose text is the program's own, the configured
    path or the message of an exception (lines 38, 48, 96, 99, 104): the
    line is written.  The line of line 153 formats text of the snapshot
    and has a statement of its own, [print_sent]. *)
Definition print (l : log_line) : M unit :=
  modify (fun w => with_stdout (stdout w ++ [l]) w).

Module MNotations.
Notation "x <- m ;; k" := (bind m (fun x => k))
  (at level 61, m at next level, right associativity).
Notation "m ;;; k" := (bind m (fun _ => k))
  (at level 61, right associativity).
End MNotations.
Import MNotations.

(** [for x in l: body]. *)
Fixpoint for_each {A} (l : list A) (body : A -> M unit) : M unit :=
  match l with
  | [] => ret tt
  | x :: rest => body x ;;; for_each rest body
  end.

(** A comprehension whose element expression can raise. *)
Fixpoint map_res {A B} (f : A -> res B) (l : list A) : res (list B) :=
  match l with
  | [] => Ok []
  | x :: rest =>
      let? y := f x in
      let? ys := map_res f rest in
      Ok (y :: ys)
  end.

(** A comprehension with an [if] clause that can raise. *)
Fixpoint filter_res {A} (p : A -> res bool) (l : list A) : res (list A) :=
  match l with
  | [] => Ok []
  | x :: rest =>
      let? b := p x in
      let? ys := filter_res p rest in
      Ok (if b then x :: ys else ys)
  end.

(** ** What the interpreter and the libraries decide *)

Class Platform : Type := {
  (** [json.loads]: [None] when it raises. *)
  json_loads : string -> option json;
  (** [str] of a list or a dict. *)
  repr_container : json -> string;
  (** Whether building the [Event] and [client.insert_event] return,
      given the events the bucket holds, or raise. *)
  sink_accepts : list Event -> Event -> bool;
  (** [open(CACHE_FILE, "w")] and [json.dump]: the file afterwards, and
      whether they returned without an exception. *)
  dump_cache : cache_file_state -> json -> cache_file_state * bool;
  (** Whether the standard output can encode the text of the snapshot
      that line 153 formats: the dimension, the name, the title of the
      task and the day.  Where it cannot, [print] raises
      [UnicodeEncodeError]. *)
  stdout_encodes : string -> json -> json -> string -> bool
}.

(** ** The program *)

Section Program.

Context {platform : Platform}.

(** [str(x)]. *)
Definition str (x : json) : string :=
  match x with
  | JNull => "None"
  | JBool true => "True"
  | JBool false => "False"
  | JInt z => Py.str_of_int z
  | JStr s => s
  | JArr _ | JObj _ => repr_container x
  end.

(** [load_cache()]. *)
Definition load_cache : M unit :=
  f <- gets cache_file ;;
  match f with
  | Stored content => modify (with_cache content)
  | Unreadable =>
      print WarnLoadCacheFailed ;;;
      modify (with_cache (JObj []))
  | NoFile => modify (with_cache (JObj []))
  end.

(** [save_cache()]. *)
Definition save_cache : M unit :=
  f <- gets cache_file ;;
  cache <- gets previous_time_spent_cache ;;
  let (f', ok) := dump_cache f cache in
  modify (with_cache_file f') ;;;
  if ok then ret tt else print WarnSaveCacheFailed.

(** The globals as the module sets them, before [load_cache()]. *)
Definition module_state (f : cache_file_state) (b : list Event) : world :=
  mk_world 0 0 (JObj []) f b [].

(** ** The snapshot reader (lines 87-100)

    A backup file is what reading it line by line gives: [Some line],
    or [None] where [open] or the read raises. *)
Definition backup_file : Type := list (option string).

Inductive read_result : Type :=
| Found (json_data : json)
| NotFound
| ReadError.

Fixpoint read_backup (f : backup_file) : read_result :=
  match f with
  | [] => NotFound
  | None :: _ => ReadError
  | Some line :: rest =>
      if Py.startswith line "pf_" then
        match Py.find line "{" with
        | Some json_part_index =>
            match json_loads (Py.slice_from line json_part_index) with
            | Some json_data => Found json_data
            | None => ReadError
            end
        | None => read_backup rest
        end
      else read_backup rest
  end.

(** ** The diff pass (lines 102-158) *)

(** [project_names] (line 111). *)
Definition project_names (projects : json) : res (list (string * json)) :=
  let? ps := Py.items projects in
  map_res (fun '(p_id, p_data) =>
             let? t := Py.get p_data "title" (JStr "Unnamed Project") in
             Ok (p_id, t)) ps.

(** [project_names.get(project_id, project_id)] (line 122). *)
Definition project_name_of (names : list (string * json)) (project_id : string)
  : json :=
  match Py.lookup names project_id with
  | Some n => n
  | None => JStr project_id
  end.

(** [associated_tasks] (lines 130-133). *)
Definition associated_tasks (tasks : json) (project_id day : string)
  : res (list json) :=
  let? ts := Py.values tasks in
  filter_res (fun t =>
                let? p := Py.get t "projectId" JNull in
                if Py.eq_str p project_id then
                  let? spent := Py.get t "timeSpentOnDay" (JObj []) in
                  Py.contains day spent
                else Ok false) ts.

(** [previous_time_spent_cache.get(task_id, {}).get(day, 0)] (line 137). *)
Definition cached (cache : json) (task_id day : string) : res json :=
  let? entry := Py.get cache task_id (JObj []) in
  Py.get entry day (JInt 0).

(** Lines 140-142: the cache after the entry of the task and the day is
    set. *)
Definition cache_store (cache : json) (task_id day : string) (v : json)
  : res json :=
  let? known := Py.contains task_id cache in
  let? cache1 := if known then Ok cache
                 else Py.setitem cache task_id (JObj []) in
  let? entry := Py.getitem cache1 task_id in
  let? entry' := Py.setitem entry day v in
  Py.setitem cache1 task_id entry'.

(** [client.insert_event(BUCKET_ID, event)] (lines 150-151). *)
Definition insert_event (event : Event) : M unit :=
  fun w =>
    if sink_accepts (bucket w) event
    then (Ok tt, with_bucket (bucket w ++ [event]) w)
    else (Err SinkError, w).

(** The [print] of line 153: the line is written when the standard
    output can encode what it formats, and the statement raises
    otherwise. *)
Definition print_sent (source_name : string) (project_name title : json)
           (day : string) (time_diff : Z) (timestamp_start : Z)
           (duration_sec : Q) : M unit :=
  fun w =>
    if stdout_encodes source_name project_name title day
    then print (InfoSent source_name project_name title day time_diff
                         timestamp_start duration_sec) w
    else (Err UnicodeEncodeError, w).

(** The body of [for task in associated_tasks] (lines 135-153). *)
Definition send_task (source_name : string) (project_name : json)
           (day : string) (timestamp_start : Z) (duration_sec : Q)
           (task : json) : M unit :=
  id <- lift (Py.get task "id" JNull) ;;
  let task_id := str id in
  spent <- lift (Py.get task "timeSpentOnDay" (JObj [])) ;;
  time_spent_today <- lift (Py.get spent day (JInt 0)) ;;
  cache <- gets previous_time_spent_cache ;;
  prev_time_spent <- lift (cached cache task_id day) ;;
  time_diff <- lift (let? a := Py.num time_spent_today in
                     let? b := Py.num prev_time_spent in
                     Ok (a - b)) ;;
  cache' <- lift (cache_store cache task_id day time_spent_today) ;;
  modify (with_cache cache') ;;;
  title <- lift (Py.get task "title" (JStr "Unnamed Task")) ;;
  let event_data := mk_event_data source_name project_name title in
  insert_event (mk_Event timestamp_start duration_sec event_data) ;;;
  print_sent source_name project_name title day time_diff
             timestamp_start duration_sec.

(** The test of line 126. *)
Definition session_is_new (start_ms end_ms : json) (last : Z) : res bool :=
  if Py.truthy start_ms then
    if Py.truthy end_ms then
      let? e := Py.num end_ms in Ok (last <? e)
    else Ok false
  else Ok false.

(** The body of [for day, session in days.items()] (lines 124-156). *)
Definition handle_session (tasks : json) (source_name project_id : string)
           (project_name : json) (day : string) (session : json) : M unit :=
  start_ms <- lift (Py.get session "s" JNull) ;;
  end_ms <- lift (Py.get session "e" JNull) ;;
  last <- gets last_session_end_ms ;;
  new <- lift (session_is_new start_ms end_ms last) ;;
  if new then
    s <- lift (Py.num start_ms) ;;
    timestamp_start <- lift (Py.fromtimestamp_utc s) ;;
    e <- lift (Py.num end_ms) ;;
    duration_sec <- lift (Py.div1000 (e - s)) ;;
    associated <- lift (associated_tasks tasks project_id day) ;;
    for_each associated
             (send_task source_name project_name day timestamp_start
                        duration_sec) ;;;
    last' <- gets last_session_end_ms ;;
    if last' <? e then modify (with_last_session_end_ms e) else ret tt
  else ret tt.

(** The body of [for project_id, days in time_tracking.items()]
    (lines 122-156). *)
Definition handle_entity (tasks : json) (names : list (string * json))
           (source_name : string) (entry : string * json) : M unit :=
  let (project_id, days) := entry in
  let project_name := project_name_of names project_id in
  sessions <- lift (Py.items days) ;;
  for_each sessions
           (fun '(day, session) =>
              handle_session tasks source_name project_id project_name
                             day session).

(** The body of [for source_name, time_tracking in ...] (lines 121-156). *)
Definition handle_source (tasks : json) (names : list (string * json))
           (src : string * json) : M unit :=
  let (source_name, time_tracking) := src in
  entities <- lift (Py.items time_tracking) ;;
  for_each entities (handle_entity tasks names source_name).

(** Lines 108-158: what a pass does once it is past the freshness gate. *)
Definition walk (json_data : json) : M unit :=
  mainData <- lift (Py.get json_data "mainModelData" (JObj [])) ;;
  task <- lift (Py.get mainData "task" (JObj [])) ;;
  tasks <- lift (Py.get task "entities" (JObj [])) ;;
  project <- lift (Py.get json_data "project" (JObj [])) ;;
  projects <- lift (Py.get project "entities" (JObj [])) ;;
  names <- lift (project_names projects) ;;
  time_tracking_data <- lift (Py.get mainData "timeTracking" (JObj [])) ;;
  by_project <- lift (Py.get time_tracking_data "project" (JObj [])) ;;
  by_tag <- lift (Py.get time_tracking_data "tag" (JObj [])) ;;
  let time_tracking_sources := [("project", by_project); ("tag", by_tag)] in
  for_each time_tracking_sources (handle_source tasks names) ;;;
  save_cache.

(** Lines 102-158: the diff pass over a parsed snapshot. *)
Definition diff_pass (json_data : json) : M unit :=
  last_update <- lift (Py.get json_data "lastUpdate" (JInt 0)) ;;
  seen <- gets last_update_timestamp ;;
  lu <- lift (Py.num last_update) ;;
  if lu <=? seen then print InfoNoNewUpdates
  else
    modify (with_last_update_timestamp lu) ;;;
    walk json_data.

(** [parse_backup_and_send()] from line 87 on, over the file that
    [resolve_backup_file_path()] has named. *)
Definition parse_backup_and_send (f : backup_file) : M unit :=
  match read_backup f with
  | Found json_data => diff_pass json_data
  | NotFound => print ErrorNoValidJson
  | ReadError => print ErrorReadFailed
  end.

End Program.

(** ** Runs and observations *)

Section Observations.

Context {platform : Platform}.

(** The passes of one process run, in order; the loop of
    [watcher_loop] absorbs what a pass raises and goes on. *)
Definition run_passes (files : list backup_file) (w : world) : world :=
  fold_left (fun w f => snd (parse_backup_and_send f w)) files w.

(** The events a statement adds to the bucket. *)
Definition emitted {A} (m : M A) (w : world) : list Event :=
  skipn (List.length (bucket w)) (bucket (snd (m w))).

(** The end of the interval an event covers, in milliseconds from the
    epoch: its start plus its duration. *)
Definition event_end (ev : Event) : Q :=
  inject_Z (timestamp ev) + duration ev * 1000.

(** The end of a session as line 126 reads it: [None] when the record
    is passed over whatever the mark is. *)
Definition session_end (session : json) : option Z :=
  match Py.get session "s" JNull, Py.get session "e" JNull with
  | Ok start_ms, Ok end_ms =>
      if Py.truthy start_ms && Py.truthy end_ms then
        match Py.num end_ms with
        | Ok e => Some e
        | Err _ => None
        end
      else None
  | _, _ => None
  end.

(** The mark after a session record has been met. *)
Definition advance (last : Z) (session : json) : Z :=
  match session_end session with
  | Some e => Z.max last e
  | None => last
  end.

(** The ends of the session records that line 126 can accept. *)
Definition session_ends (sessions : list json) : list Z :=
  flat_map (fun session => match session_end session with
                           | Some e => [e]
                           | None => []
                           end) sessions.

(** The items of a dict, nothing for another value. *)
Definition items_of (x : json) : list (string * json) :=
  match x with
  | JObj kvs => kvs
  | _ => []
  end.

(** [x.get(k, {})] on a dict. *)
Definition field (x : json) (k : string) : json :=
  match Py.lookup (items_of x) k with
  | Some v => v
  | None => JObj []
  end.

(** The session records of a snapshot in the order the walk meets
    them: the "project" dimension, then the "tag" dimension. *)
Definition sessions_of (json_data : json) : list json :=
  let time_tracking_data := field (field json_data "mainModelData") "timeTracking" in
  flat_map (fun src =>
              flat_map (fun entity => map snd (items_of (snd entity)))
                       (items_of src))
           [field time_tracking_data "project"; field time_tracking_data "tag"].

End Observations.

(** ** A platform for the worked examples

    A decoder that knows the empty document, a sink that never refuses, a
    disk that never fails and a standard output that encodes every text. *)
Definition example_platform : Platform := {|
  json_loads := fun s => if String.eqb s "{}" then Some (JObj []) else None;
  repr_container := fun _ => "{...}";
  sink_accepts := fun _ _ => true;
  dump_cache := fun _ c => (Stored c, true);
  stdout_encodes := fun _ _ _ _ => true
|}.

(** The same platform with a sink that refuses every event. *)
Definition offline_platform : Platform := {|
  json_loads := fun s => if String.eqb s "{}" then Some (JObj []) else None;
  repr_container := fun _ => "{...}";
  sink_accepts := fun _ _ => false;
  dump_cache := fun _ c => (Stored c, true);
  stdout_encodes := fun _ _ _ _ => true
|}.

(** The text has no character above 127. *)
Fixpoint is_ascii (s : string) : bool :=
  match s with
  | EmptyString => true
  | String (Ascii.Ascii _ _ _ _ _ _ _ b7) rest => negb b7 && is_ascii rest
  end.

(** What [str] makes of the value has no character above 127, on a
    platform whose [repr_container] is that of [example_platform]. *)
Definition prints_ascii (x : json) : bool :=
  match x with
  | JStr s => is_ascii s
  | _ => true
  end.

(** The example platform with a standard output that encodes ASCII
    only. *)
Definition ascii_stdout_platform : Platform := {|
  json_loads := fun s => if String.eqb s "{}" then Some (JObj []) else None;
  repr_container := fun _ => "{...}";
  sink_accepts := fun _ _ => true;
  dump_cache := fun _ c => (Stored c, true);
  stdout_encodes := fun source_name project_name title day =>
                      is_ascii source_name && prints_ascii project_name
                      && prints_ascii title && is_ascii day
|}.


(** ** Lines of a backup file *)

(** The line the reader stops at: it starts with the marker and holds an
    opening brace. *)
Definition is_record_line (line : string) : bool :=
  Py.startswith line "pf_" &&
  match Py.find line "{" with
  | Some _ => true
  | None => false
  end.

(** What the scan reads and goes past: a line that is not a record line. *)
Definition passed_over (l : option string) : bool :=
  match l with
  | Some line => negb (is_record_line line)
  | None => false
  end.

(** ** Snapshots of the documented shape *)

Definition is_dict (x : json) : bool :=
  match x with
  | JObj _ => true
  | _ => false
  end.

Definition is_number (x : json) : bool :=
  match x with
  | JInt _ | JBool _ => true
  | _ => false
  end.

(** The counters of a task or of a cache entry: day-key to number. *)
Definition day_counters_ok (x : json) : bool :=
  match x with
  | JObj kvs => forallb (fun kv => is_number (snd kv)) kvs
  | _ => false
  end.

(** The cache of the documented shape: task id to day-key to number. *)
Definition cache_ok (cache : json) : bool :=
  match cache with
  | JObj kvs => forallb (fun kv => day_counters_ok (snd kv)) kvs
  | _ => false
  end.


(** The title a task entity shows: its [title], or the placeholder. *)
Definition task_title (task : json) : json :=
  match Py.lookup (items_of task) "title" with
  | Some t => t
  | None => JStr "Unnamed Task"
  end.

(** [task.get('id')]. *)
Definition task_id_field (task : json) : json :=
  match Py.lookup (items_of task) "id" with
  | Some v => v
  | None => JNull
  end.


(** The event of a session for one of its tasks (lines 144-150). *)
Definition session_event (source_name : string) (project_name : json)
           (timestamp_start : Z) (duration_sec : Q) (task : json) : Event :=
  mk_Event timestamp_start duration_sec
           (mk_event_data source_name project_name (task_title task)).

(** The title a project entity shows: its [title], or the placeholder. *)
Definition project_title (p_data : json) : json :=
  match Py.lookup (items_of p_data) "title" with
  | Some t => t
  | None => JStr "Unnamed Project"
  end.

(** ** The fields of a session record *)

(** [session.get(k)] on the items of a session record. *)
Definition session_field (record : list (string * json)) (k : string) : json :=
  match Py.lookup record k with
  | Some v => v
  | None => JNull
  end.

(** The field is missing from the record, or it is the number zero. *)
Definition absent_or_zero (record : list (string * json)) (k : string) : Prop :=
  Py.lookup record k = None \/ Py.lookup record k = Some (JInt 0).

(** ** Worked examples *)

(** A process that has just started: no cache file, an empty bucket. *)
Definition fresh : world := module_state NoFile [].

(** One project "Work", one session of a minute on day1, one task that
    spent sixty seconds on it; [task_title] is the task's title field,
    when it has one. *)
Definition scenario_snapshot (task_title : option json) : json :=
  JObj [("lastUpdate", JInt 1000);
        ("project",
         JObj [("entities", JObj [("p1", JObj [("title", JStr "Work")])])]);
        ("mainModelData",
         JObj [("task",
                JObj [("entities",
                       JObj [("t1",
                              JObj ([("id", JStr "t1"); ("projectId", JStr "p1");
                                     ("timeSpentOnDay", JObj [("day1", JInt 60)])]
                                    ++ match task_title with
                                       | Some t => [("title", t)]
                                       | None => []
                                       end))])]);
               ("timeTracking",
                JObj [("project",
                       JObj [("p1",
                              JObj [("day1",
                                     JObj [("s", JInt 1000);
                                           ("e", JInt 61000)])])])])])].

(** A snapshot of one task and the sessions of project p1, day by day. *)
Definition snapshot_with (last_update : Z) (days : list (string * json)) : json :=
  JObj [("lastUpdate", JInt last_update);
        ("project",
         JObj [("entities", JObj [("p1", JObj [("title", JStr "Work")])])]);
        ("mainModelData",
         JObj [("task",
                JObj [("entities",
                       JObj [("t1",
                              JObj [("id", JStr "t1"); ("projectId", JStr "p1");
                                    ("title", JStr "Report");
                                    ("timeSpentOnDay",
                                     JObj [("day1", JInt 60);
                                           ("day2", JInt 30)])])])]);
               ("timeTracking", JObj [("project", JObj [("p1", JObj days)])])])].

Definition session (s e : json) : json := JObj [("s", s); ("e", e)].

(** Two sessions, the later one discovered first. *)
Definition later_first : json :=
  snapshot_with 1000 [("day2", session (JInt 2000) (JInt 100000));
                      ("day1", session (JInt 1000) (JInt 50000))].

(** The same two sessions, the earlier one discovered first. *)
Definition earlier_first : json :=
  snapshot_with 1000 [("day1", session (JInt 1000) (JInt 50000));
                      ("day2", session (JInt 2000) (JInt 100000))].

(** A snapshot whose second session has a start that is not a number. *)
Definition broken_snapshot : json :=
  snapshot_with 1000 [("day1", session (JInt 1000) (JInt 50000));
                      ("day2", session (JStr "noon") (JInt 100000))].


(** A title with a character above 127. *)
Definition accented_title : json :=
  JStr (String.append "Caf" (String (Ascii.ascii_of_nat 233) EmptyString)).


(** ** Relations between the world before and after a statement *)

(** A statement keeps a relation when the world it leaves is related to
    the world it started from, whether it returns or raises. *)
Definition preserves (R : world -> world -> Prop) {A} (m : M A) : Prop :=
  forall w, R w (snd (m w)).

(** The walk of the time-tracking table keeps the freshness mark and the
    cache file, never lowers the session mark, and only appends events
    that end after the session mark it started from. *)
Definition walk_step (w w' : world) : Prop :=
  last_update_timestamp w' = last_update_timestamp w /\
  cache_file w' = cache_file w /\
  last_session_end_ms w <= last_session_end_ms w' /\
  exists evs, bucket w' = bucket w ++ evs /\
    Forall (fun ev => (inject_Z (last_session_end_ms w) < event_end ev)%Q) evs.

(** The tasks of one session: as [send_task], with every new event
    stamped with the start and the duration of the session. *)
Definition tasks_step (t : Z) (d : Q) (w w' : world) : Prop :=
  last_update_timestamp w' = last_update_timestamp w /\
  cache_file w' = cache_file w /\
  last_session_end_ms w' = last_session_end_ms w /\
  exists evs, bucket w' = bucket w ++ evs /\
    Forall (fun ev => timestamp ev = t /\ duration ev = d) evs.

(** A pass never lowers a mark and only appends events that end after
    the session mark it started from. *)
Definition pass_step (w w' : world) : Prop :=
  last_update_timestamp w <= last_update_timestamp w' /\
  last_session_end_ms w <= last_session_end_ms w' /\
  exists evs, bucket w' = bucket w ++ evs /\
    Forall (fun ev => (inject_Z (last_session_end_ms w) < event_end ev)%Q) evs.

(** ** The backup location and the loop driver

    What [os] tells the driver about [BACKUP_FILE].  The source reads the
    location at lines 72-76, 168, 85 and 88 of one iteration; the
    embedding takes these reads to see one state of the location, the one
    the iteration is given. *)

Module Os.

(** [name.endswith(suffix)]. *)
Definition endswith (name suffix : string) : bool :=
  (String.length suffix <=? String.length name)%nat &&
  String.eqb (String.substring (String.length name - String.length suffix)
                               (String.length suffix) name) suffix.

(** [os.path.join(a, b)] on a POSIX system. *)
Definition path_join (a b : string) : string :=
  if Py.startswith b "/" then b
  else if String.eqb a EmptyString || endswith a "/" then String.append a b
  else String.append a (String.append "/" b).

End Os.

(** The [OSError]s the driver tells apart: the one it warns about, and
    every other one. *)
Inductive os_error : Type :=
| FileNotFoundError
| OtherOSError.

(** [os.path.getmtime(path)]: the modification time, which the driver
    only compares, or the error it raises. *)
Inductive stat_result : Type :=
| Mtime (t : Z)
| StatError (e : os_error).

(** A path of the file system: what [os.path.getmtime] gives for it and
    what reading it line by line gives. *)
Record node : Type := mk_node {
  node_stat : stat_result;
  node_content : backup_file
}.

(** [BACKUP_FILE] as [os.path.isdir] and [os.listdir] find it: a
    directory with its names in the order [os.listdir] returns them, a
    directory that cannot be listed, or anything else (a file, or
    nothing at all). *)
Inductive location : Type :=
| Directory (listing : list (string * node))
| UnlistableDirectory (e : os_error)
| NotDirectory (n : node).

(** What escapes a statement of the driver: an [OSError] of its own, or
    what the pass raised. *)
Inductive raised : Type :=
| FromOs (e : os_error)
| FromPass (e : exn).

(** What the driver prints itself (lines 77, 163, 171, 175, 178, 180);
    the lines of the pass stay in the [stdout] of the world. *)
Inductive driver_line : Type :=
| InfoStarting
| InfoResolved (latest_file : string)
| InfoDetected
| InfoNoNewBackup
| Warn
| Error (r : raised).

(** The state of the loop: [last_mtime], the lines of the driver, and
    the globals of the pass. *)
Record loop_state : Type := mk_loop_state {
  last_mtime : Z;
  console : list driver_line;
  globals : world
}.

Definition say (l : driver_line) (st : loop_state) : loop_state :=
  mk_loop_state (last_mtime st) (console st ++ [l]) (globals st).

Definition with_globals (w : world) (st : loop_state) : loop_state :=
  mk_loop_state (last_mtime st) (console st) w.

Definition with_last_mtime (t : Z) (st : loop_state) : loop_state :=
  mk_loop_state t (console st) (globals st).

(** A statement of the driver. *)
Definition D (A : Type) : Type := loop_state -> (raised + A) * loop_state.

(** The test of line 73. *)
Definition is_candidate (f : string) : bool :=
  Os.endswith f ".json" || String.eqb f "__meta_".

(** [json_files] (line 73). *)
Definition json_files (BACKUP_FILE : string) (listing : list (string * node))
  : list (string * node) :=
  map (fun entry => (Os.path_join BACKUP_FILE (fst entry), snd entry))
      (filter (fun entry => is_candidate (fst entry)) listing).

(** The scan of [max(..., key=os.path.getmtime)] after its first item:
    an item replaces the best one when its key is greater. *)
Fixpoint max_scan (best : string * node) (best_mtime : Z)
         (rest : list (string * node)) : os_error + (string * node) :=
  match rest with
  | [] => inr best
  | item :: rest' =>
      match node_stat (snd item) with
      | StatError e => inl e
      | Mtime t =>
          if best_mtime <? t then max_scan item t rest'
          else max_scan best best_mtime rest'
      end
  end.

(** [max(json_files, key=os.path.getmtime)] on a list that is not empty. *)
Definition max_by_mtime (first : string * node) (rest : list (string * node))
  : os_error + (string * node) :=
  match node_stat (snd first) with
  | StatError e => inl e
  | Mtime t => max_scan first t rest
  end.

(** [resolve_backup_file_path()]: the path, with the node behind it. *)
Definition resolve_backup_file_path (BACKUP_FILE : string) (loc : location)
  : D (string * node) :=
  fun st =>
    match loc with
    | Directory listing =>
        match json_files BACKUP_FILE listing with
        | [] => (inl (FromOs FileNotFoundError), st)
        | first :: rest =>
            match max_by_mtime first rest with
            | inl e => (inl (FromOs e), st)
            | inr latest_file =>
                (inr latest_file, say (InfoResolved (fst latest_file)) st)
            end
        end
    | UnlistableDirectory e => (inl (FromOs e), st)
    | NotDirectory n => (inr (BACKUP_FILE, n), st)
    end.

Section Driver.

Context {platform : Platform}.

(** [parse_backup_and_send()] from line 85 on: the file is resolved,
    then read and processed. *)
Definition resolve_parse_and_send (BACKUP_FILE : string) (loc : location)
  : D unit :=
  fun st =>
    match resolve_backup_file_path BACKUP_FILE loc st with
    | (inl r, st1) => (inl r, st1)
    | (inr backup_file, st1) =>
        match parse_backup_and_send (node_content (snd backup_file))
                                    (globals st1) with
        | (Ok _, w) => (inr tt, with_globals w st1)
        | (Err e, w) => (inl (FromPass e), with_globals w st1)
        end
    end.

(** The [try] block of the loop (lines 167-175). *)
Definition watcher_try (BACKUP_FILE : string) (loc : location) : D unit :=
  fun st =>
    match resolve_backup_file_path BACKUP_FILE loc st with
    | (inl r, st1) => (inl r, st1)
    | (inr current_backup_file, st1) =>
        match node_stat (snd current_backup_file) with
        | StatError e => (inl (FromOs e), st1)
        | Mtime current_mtime =>
            if (last_mtime st1 =? 0)
               || negb (current_mtime =? last_mtime st1)
            then
              match resolve_parse_and_send BACKUP_FILE loc
                                           (say InfoDetected st1) with
              | (inl r, st2) => (inl r, st2)
              | (inr _, st2) => (inr tt, with_last_mtime current_mtime st2)
              end
            else (inr tt, say InfoNoNewBackup st1)
        end
    end.

(** One turn of [while True] (lines 166-180), [time.sleep] aside. *)
Definition watcher_iteration (BACKUP_FILE : string) (loc : location)
           (st : loop_state) : loop_state :=
  match watcher_try BACKUP_FILE loc st with
  | (inr _, st') => st'
  | (inl (FromOs FileNotFoundError), st') => say Warn st'
  | (inl r, st') => say (Error r) st'
  end.

(** [watcher_loop()] over the states of the location that its first
    turns find, one per turn. *)
Definition watcher_loop (BACKUP_FILE : string) (observations : list location)
           (st : loop_state) : loop_state :=
  fold_left (fun st loc => watcher_iteration BACKUP_FILE loc st)
            observations (say InfoStarting st).

(** The program from line 186: [load_cache()], then [watcher_loop()]. *)
Definition main (BACKUP_FILE : string) (disk : cache_file_state)
           (b : list Event) (observations : list location) : loop_state :=
  watcher_loop BACKUP_FILE observations
               (mk_loop_state 0 [] (snd (load_cache (module_state disk b)))).

End Driver.

(** A platform for examples that go through the reader: its decoder
    answers every text with the document it is given. *)
Definition replay_platform (json_data : json) : Platform := {|
  json_loads := fun _ => Some json_data;
  repr_container := fun _ => "{...}";
  sink_accepts := fun _ _ => true;
  dump_cache := fun _ c => (Stored c, true);
  stdout_encodes := fun _ _ _ _ => true
|}.

(** ** Observations on the driver *)

(** The modification time of an item is below [t]. *)
Definition older_than (t : Z) (item : string * node) : bool :=
  match node_stat (snd item) with
  | Mtime t' => t' <? t
  | StatError _ => false
  end.

(** The modification time of an item is at most [t]. *)
Definition not_newer_than (t : Z) (item : string * node) : bool :=
  match node_stat (snd item) with
  | Mtime t' => t' <=? t
  | StatError _ => false
  end.


(** ** Observations on the events of a pass *)

(** The bucket has grown by events that all satisfy [Q]. *)
Definition emits (Q : Event -> Prop) (w w' : world) : Prop :=
  exists evs, bucket w' = bucket w ++ evs /\ Forall Q evs.

(** [ev] is the event of the session record [session], found under the
    entity [project_id] and the day [day] of a dimension, for one of the
    tasks that lines 130-133 associate with it. *)
Definition event_of_session_task (tasks : json) (source_name project_id : string)
           (project_name : json) (day : string) (session : json)
           (ev : Event) : Prop :=
  exists start_ms end_ms s e all_tasks task p spent,
    Py.get session "s" JNull = Ok start_ms /\
    Py.get session "e" JNull = Ok end_ms /\
    Py.truthy start_ms = true /\ Py.truthy end_ms = true /\
    Py.num start_ms = Ok s /\ Py.num end_ms = Ok e /\
    Py.values tasks = Ok all_tasks /\ In task all_tasks /\
    Py.get task "projectId" JNull = Ok p /\ Py.eq_str p project_id = true /\
    Py.get task "timeSpentOnDay" (JObj []) = Ok spent /\
    Py.contains day spent = Ok true /\
    ev = mk_Event s ((e - s) # 1000)
                  (mk_event_data source_name project_name (task_title task)).

(** [ev] is backed by the snapshot: it is the event of a session record
    that the time-tracking table holds under one of its two dimensions,
    for a task of the snapshot associated with it, under the name that
    the project table resolves the entity to. *)
Definition backed_by (json_data : json) (ev : Event) : Prop :=
  let mainData := field json_data "mainModelData" in
  let tasks := field (field mainData "task") "entities" in
  let projects := field (field json_data "project") "entities" in
  let time_tracking_data := field mainData "timeTracking" in
  exists names source_name time_tracking project_id days day session,
    project_names projects = Ok names /\
    In (source_name, time_tracking)
       [("project", field time_tracking_data "project");
        ("tag", field time_tracking_data "tag")] /\
    In (project_id, days) (items_of time_tracking) /\
    In (day, session) (items_of days) /\
    event_of_session_task tasks source_name project_id
                          (project_name_of names project_id) day session ev.

(** ** Observations on the log and on the cache *)

(** The line is one of those that report a sent event. *)
Definition is_sent_line (l : log_line) : bool :=
  match l with
  | InfoSent _ _ _ _ _ _ _ => true
  | _ => false
  end.

(** The events that the [InfoSent] lines of a log report, in order. *)
Definition sent_events (lines : list log_line) : list Event :=
  flat_map (fun l =>
              match l with
              | InfoSent source_name project_name title day _ t d =>
                  [mk_Event t d (mk_event_data source_name project_name title)]
              | _ => []
              end) lines.

(** The log and the bucket have grown together: the new lines report
    the new events, one line for each, in the same order. *)
Definition logged_together (w w' : world) : Prop :=
  exists evs lines,
    bucket w' = bucket w ++ evs /\
    stdout w' = stdout w ++ lines /\
    sent_events lines = evs.

(** The bucket is one event ahead of the log: the new lines report the
    new events in order, all but the last one, which has no line. *)
Definition last_unlogged (w w' : world) : Prop :=
  exists lines ev,
    stdout w' = stdout w ++ lines /\
    bucket w' = bucket w ++ sent_events lines ++ [ev].

(** The expression does not raise [UnicodeEncodeError]. *)
Definition plain {A} (r : res A) : Prop := r <> Err UnicodeEncodeError.

(** The log follows the bucket through a statement: when the statement
    ends in [UnicodeEncodeError] the last event it has sent has no line,
    and in every other case each event it has sent has its line. *)
Definition log_follows {A} (m : M A) : Prop :=
  forall w,
    match fst (m w) with
    | Err UnicodeEncodeError => last_unlogged w (snd (m w))
    | _ => logged_together w (snd (m w))
    end.

(** The cache holds a value for the task and the day. *)
Definition has_entry (cache : json) (task_id day : string) : bool :=
  match cache with
  | JObj c =>
      match Py.lookup c task_id with
      | Some (JObj e) =>
          match Py.lookup e day with
          | Some _ => true
          | None => false
          end
      | _ => false
      end
  | _ => false
  end.

(** Every entry of the cache before is an entry of the cache after. *)
Definition keeps_entries (w w' : world) : Prop :=
  forall task_id day,
    has_entry (previous_time_spent_cache w) task_id day = true ->
    has_entry (previous_time_spent_cache w') task_id day = true.

(** A cache of the documented shape stays one. *)
Definition keeps_cache_shape (w w' : world) : Prop :=
  cache_ok (previous_time_spent_cache w) = true ->
  cache_ok (previous_time_spent_cache w') = true.

(** ** Two runs side by side *)

(** Two worlds that a statement cannot tell apart by what it emits: the
    same marks, a cache of the documented shape on both sides, and
    buckets that have grown from [b1] and from [b2] by the same events. *)
Definition alike (b1 b2 : list Event) (w1 w2 : world) : Prop :=
  last_session_end_ms w1 = last_session_end_ms w2 /\
  last_update_timestamp w1 = last_update_timestamp w2 /\
  cache_ok (previous_time_spent_cache w1) = true /\
  cache_ok (previous_time_spent_cache w2) = true /\
  exists evs, bucket w1 = b1 ++ evs /\ bucket w2 = b2 ++ evs.

(** A statement runs alike from worlds that are alike: it returns or
    raises the same on both sides and leaves worlds that are alike. *)
Definition runs_alike (b1 b2 : list Event) {A} (m : M A) : Prop :=
  forall w1 w2,
    alike b1 b2 w1 w2 ->
    fst (m w1) = fst (m w2) /\ alike b1 b2 (snd (m w1)) (snd (m w2)).

(** * Properties *)

(** ** Dictionaries *)

Lemma lookup_assign_same (kvs : list (string * json)) (k : string) (v : json) :
  Py.lookup (Py.assign kvs k v) k = Some v.
Proof.
  induction kvs as [|[k' v'] rest IH]; simpl.
  - now rewrite String.eqb_refl.
  - destruct (String.eqb k' k) eqn:E; simpl; rewrite E; auto.
Qed.

(** ** Statements that keep a relation between the worlds *)

Section Preservation.

Variable R : world -> world -> Prop.
Hypothesis R_refl : forall w, R w w.
Hypothesis R_trans : forall a b c, R a b -> R b c -> R a c.

Lemma preserves_ret {A} (a : A) : preserves R (ret a).
Proof. intros w; apply R_refl. Qed.

Lemma preserves_lift {A} (r : res A) : preserves R (lift r).
Proof. intros w; apply R_refl. Qed.

Lemma preserves_bind {A B} (m : M A) (k : A -> M B) :
  preserves R m -> (forall a, preserves R (k a)) -> preserves R (bind m k).
Proof.
  intros Hm Hk w. unfold bind.
  specialize (Hm w). destruct (m w) as [[a|e] w']; simpl in *.
  - eapply R_trans; [exact Hm | apply Hk].
  - exact Hm.
Qed.

Lemma preserves_for_each {A} (l : list A) (body : A -> M unit) :
  (forall x, In x l -> preserves R (body x)) -> preserves R (for_each l body).
Proof.
  induction l as [|x rest IH]; intros Hbody; simpl.
  - apply preserves_ret.
  - apply preserves_bind.
    + apply Hbody; now left.
    + intros _. apply IH. intros y Hy. apply Hbody; now right.
Qed.

End Preservation.

(** A loop that returns has run its body on every element in turn. *)
Lemma for_each_fold {A} (obs : world -> Z) (g : Z -> A -> Z)
      (l : list A) (body : A -> M unit) :
  (forall x w, In x l -> fst (body x w) = Ok tt ->
               obs (snd (body x w)) = g (obs w) x) ->
  forall w, fst (for_each l body w) = Ok tt ->
            obs (snd (for_each l body w)) = fold_left g l (obs w).
Proof.
  induction l as [|x rest IH]; intros Hbody w Hok; simpl in *.
  - reflexivity.
  - unfold bind in *.
    pose proof (Hbody x w (or_introl eq_refl)) as Hx.
    destruct (body x w) as [[[]|e] w']; simpl in *.
    + rewrite <- Hx by reflexivity.
      apply IH; auto.
    + discriminate.
Qed.

(** ** What a pass may change *)

Lemma event_end_of_session (s e : Z) (d : event_data) :
  (event_end (mk_Event s ((e - s) # 1000) d) == inject_Z e)%Q.
Proof.
  unfold event_end, Qeq, Qplus, Qmult, inject_Z; simpl. lia.
Qed.

Lemma div1000_value (z : Z) (q : Q) : Py.div1000 z = Ok q -> q = (z # 1000)%Q.
Proof.
  unfold Py.div1000. destruct (Z.abs z <? _); congruence.
Qed.

Lemma fromtimestamp_utc_value (ms t : Z) :
  Py.fromtimestamp_utc ms = Ok t -> t = ms.
Proof.
  unfold Py.fromtimestamp_utc, res_bind.
  destruct (Py.div1000 ms); [|discriminate].
  destruct (_ && _); congruence.
Qed.

Lemma walk_step_refl (w : world) : walk_step w w.
Proof.
  repeat split; try lia. exists []. split; [now rewrite app_nil_r | constructor].
Qed.

Lemma walk_step_trans (a b c : world) :
  walk_step a b -> walk_step b c -> walk_step a c.
Proof.
  intros (Hu1 & Hf1 & Hm1 & evs1 & Hb1 & He1) (Hu2 & Hf2 & Hm2 & evs2 & Hb2 & He2).
  repeat split; try congruence; try lia.
  exists (evs1 ++ evs2). split.
  - rewrite Hb2, Hb1. now rewrite app_assoc.
  - apply Forall_app; split; [exact He1|].
    eapply Forall_impl; [|exact He2].
    intros ev Hev. eapply Qle_lt_trans; [|exact Hev].
    rewrite <- Zle_Qle. exact Hm1.
Qed.

(** Case analysis on the innermost scrutinee of the goal. *)
Ltac break_match :=
  match goal with
  | |- context [match ?x with _ => _ end] =>
      lazymatch x with
      | context [match _ with _ => _ end] => fail
      | _ => destruct x eqn:?
      end
  end.

Section Effects.

Context {platform : Platform}.

(** One task of a session: the marks and the cache file stay, the
    bucket gains at most the event of the session. *)
Lemma send_task_effect (source_name : string) (project_name : json)
      (day : string) (timestamp_start : Z) (duration_sec : Q)
      (task : json) (w : world) :
  let w' := snd (send_task source_name project_name day timestamp_start
                           duration_sec task w) in
  last_update_timestamp w' = last_update_timestamp w /\
  cache_file w' = cache_file w /\
  last_session_end_ms w' = last_session_end_ms w /\
  (bucket w' = bucket w \/
   exists t, bucket w' = bucket w ++
     [mk_Event timestamp_start duration_sec
               (mk_event_data source_name project_name t)]).
Proof.
  unfold send_task, bind, lift, gets, modify, insert_event, print_sent, print.
  repeat break_match; simpl; eauto 10.
Qed.

Lemma tasks_step_refl (t : Z) (d : Q) (w : world) : tasks_step t d w w.
Proof.
  split; [|split; [|split]]; try reflexivity.
  exists []. split; [now rewrite app_nil_r | constructor].
Qed.

Lemma tasks_step_trans (t : Z) (d : Q) (a b c : world) :
  tasks_step t d a b -> tasks_step t d b c -> tasks_step t d a c.
Proof.
  intros (Hu1 & Hf1 & Hm1 & evs1 & Hb1 & He1) (Hu2 & Hf2 & Hm2 & evs2 & Hb2 & He2).
  split; [|split; [|split]]; try congruence.
  exists (evs1 ++ evs2). split.
  - rewrite Hb2, Hb1. now rewrite app_assoc.
  - apply Forall_app; split; assumption.
Qed.

Lemma send_task_step (source_name : string) (project_name : json)
      (day : string) (t : Z) (d : Q) (task : json) :
  preserves (tasks_step t d)
            (send_task source_name project_name day t d task).
Proof.
  intros w.
  destruct (send_task_effect source_name project_name day t d task w)
    as (Hu & Hf & Hm & Hb).
  split; [|split; [|split]]; try assumption.
  destruct Hb as [Hb | [ttl Hb]].
  - exists []. split; [now rewrite app_nil_r | constructor].
  - eexists. split; [exact Hb|]. repeat constructor.
Qed.

Lemma session_is_new_true (start_ms end_ms : json) (last : Z) :
  session_is_new start_ms end_ms last = Ok true ->
  Py.truthy start_ms = true /\ Py.truthy end_ms = true /\
  exists e, Py.num end_ms = Ok e /\ last < e.
Proof.
  unfold session_is_new, res_bind.
  destruct (Py.truthy start_ms); [|discriminate].
  destruct (Py.truthy end_ms); [|discriminate].
  destruct (Py.num end_ms) as [e|]; [|discriminate].
  intros H. injection H as H. apply Z.ltb_lt in H. eauto.
Qed.

(** One session record of the table. *)
Lemma handle_session_step (tasks : json) (source_name project_id : string)
      (project_name : json) (day : string) (session : json) :
  preserves walk_step
            (handle_session tasks source_name project_id project_name day
                            session).
Proof.
  intros w. unfold handle_session.
  unfold bind at 1, lift at 1.
  destruct (Py.get session "s" JNull) as [start_ms|]; [|apply walk_step_refl].
  unfold bind at 1, lift at 1.
  destruct (Py.get session "e" JNull) as [end_ms|]; [|apply walk_step_refl].
  unfold bind at 1, gets at 1.
  unfold bind at 1, lift at 1.
  destruct (session_is_new start_ms end_ms (last_session_end_ms w))
    as [[|]|] eqn:Hnew; try apply walk_step_refl.
  apply session_is_new_true in Hnew as (_ & _ & e & He & Hlt).
  unfold bind at 1, lift at 1.
  destruct (Py.num start_ms) as [s|]; [|apply walk_step_refl].
  unfold bind at 1, lift at 1.
  destruct (Py.fromtimestamp_utc s) as [t|] eqn:Ht; [|apply walk_step_refl].
  apply fromtimestamp_utc_value in Ht; subst t.
  unfold bind at 1, lift at 1. rewrite He.
  unfold bind at 1, lift at 1.
  destruct (Py.div1000 (e - s)) as [d|] eqn:Hd; [|apply walk_step_refl].
  apply div1000_value in Hd; subst d.
  unfold bind at 1, lift at 1.
  destruct (associated_tasks tasks project_id day) as [associated|];
    [|apply walk_step_refl].
  unfold bind at 1.
  pose proof (preserves_for_each (tasks_step s ((e - s) # 1000))
                (tasks_step_refl _ _) (tasks_step_trans _ _) associated
                (send_task source_name project_name day s ((e - s) # 1000))
                (fun x _ => send_task_step _ _ _ _ _ x) w)
    as (Hu & Hf & Hm & evs & Hb & Hev).
  assert (Hends : Forall (fun ev => (inject_Z (last_session_end_ms w)
                                     < event_end ev)%Q) evs).
  { eapply Forall_impl; [|exact Hev].
    intros [t d dat] [Ht Hd]; simpl in *; subst.
    rewrite event_end_of_session. now rewrite <- Zlt_Qlt. }
  destruct (for_each associated _ w) as [[[]|ex] w1]; simpl in *.
  - unfold bind, gets, modify, ret.
    destruct (last_session_end_ms w1 <? e);
      unfold walk_step, with_last_session_end_ms; simpl;
      (split; [|split; [|split]]; [assumption | assumption | lia | eauto]).
  - split; [|split; [|split]]; [assumption | assumption | lia | eauto].
Qed.

Lemma handle_entity_step (tasks : json) (names : list (string * json))
      (source_name : string) (entry : string * json) :
  preserves walk_step (handle_entity tasks names source_name entry).
Proof.
  destruct entry as [project_id days]. unfold handle_entity.
  apply (preserves_bind walk_step walk_step_trans).
  - apply preserves_lift, walk_step_refl.
  - intros sessions.
    apply (preserves_for_each walk_step walk_step_refl walk_step_trans).
    intros [day session] _. apply handle_session_step.
Qed.

Lemma handle_source_step (tasks : json) (names : list (string * json))
      (src : string * json) :
  preserves walk_step (handle_source tasks names src).
Proof.
  destruct src as [source_name time_tracking]. unfold handle_source.
  apply (preserves_bind walk_step walk_step_trans).
  - apply preserves_lift, walk_step_refl.
  - intros entities.
    apply (preserves_for_each walk_step walk_step_refl walk_step_trans).
    intros entry _. apply handle_entity_step.
Qed.

(** [save_cache()] returns, and writes nothing but the cache file and
    a warning. *)
Lemma save_cache_effect (w : world) :
  fst (save_cache w) = Ok tt /\
  last_update_timestamp (snd (save_cache w)) = last_update_timestamp w /\
  last_session_end_ms (snd (save_cache w)) = last_session_end_ms w /\
  previous_time_spent_cache (snd (save_cache w)) = previous_time_spent_cache w /\
  bucket (snd (save_cache w)) = bucket w.
Proof.
  unfold save_cache, bind, gets, modify, print, ret.
  destruct (dump_cache (cache_file w) (previous_time_spent_cache w)) as [f' []];
    simpl; auto.
Qed.

(** The walk up to [save_cache()]: either it raises, or the walk ends
    with [save_cache()]. *)
Lemma walk_cases (json_data : json) (w : world) :
  exists w1, walk_step w w1 /\
    ((exists e, walk json_data w = (Err e, w1)) \/
     walk json_data w = save_cache w1).
Proof.
  remember (walk json_data w) as result eqn:H.
  unfold walk in H.
  repeat (unfold bind at 1, lift at 1 in H;
          match type of H with
          | context [match ?r with Ok _ => _ | Err _ => _ end] =>
              destruct r;
              [| exists w; split; [apply walk_step_refl | left; eauto]]
          end).
  unfold bind at 1 in H.
  match type of H with
  | context [for_each ?l ?b w] =>
      pose proof (preserves_for_each walk_step walk_step_refl walk_step_trans
                    l b (fun x _ => handle_source_step _ _ x) w) as Hstep;
      destruct (for_each l b w) as [[[]|e] w1]
  end; simpl in Hstep; exists w1; split; eauto.
Qed.

(** The freshness gate, case by case. *)
Lemma diff_pass_unfold (json_data : json) (w : world) :
  diff_pass json_data w =
  match Py.get json_data "lastUpdate" (JInt 0) with
  | Err e => (Err e, w)
  | Ok last_update =>
      match Py.num last_update with
      | Err e => (Err e, w)
      | Ok lu =>
          if lu <=? last_update_timestamp w
          then (Ok tt, with_stdout (stdout w ++ [InfoNoNewUpdates]) w)
          else walk json_data (with_last_update_timestamp lu w)
      end
  end.
Proof.
  unfold diff_pass, bind, lift, gets, modify, print.
  destruct (Py.get json_data "lastUpdate" (JInt 0)) as [v|]; [|reflexivity].
  destruct (Py.num v) as [lu|]; [|reflexivity].
  destruct (lu <=? last_update_timestamp w); reflexivity.
Qed.

(** The walk as a whole: [walk_step] up to the cache file, which only
    a walk that returns has written. *)
Lemma walk_effect (json_data : json) (w : world) :
  let r := walk json_data w in
  last_update_timestamp (snd r) = last_update_timestamp w /\
  last_session_end_ms w <= last_session_end_ms (snd r) /\
  (exists evs, bucket (snd r) = bucket w ++ evs /\
     Forall (fun ev => (inject_Z (last_session_end_ms w) < event_end ev)%Q) evs) /\
  (forall e, fst r = Err e -> cache_file (snd r) = cache_file w).
Proof.
  destruct (walk_cases json_data w)
    as (w1 & (Hu & Hf & Hm & evs & Hb & Hev) & [[e He] | Hs]); simpl.
  - rewrite He; simpl. repeat split; eauto.
  - rewrite Hs.
    destruct (save_cache_effect w1) as (Hok & Hu' & Hm' & _ & Hb').
    rewrite Hu', Hm', Hb', Hok. repeat split; eauto; try lia.
    intros e He'; discriminate.
Qed.

Lemma pass_step_refl (w : world) : pass_step w w.
Proof.
  split; [|split]; try lia.
  exists []. split; [now rewrite app_nil_r | constructor].
Qed.

Lemma pass_step_trans (a b c : world) :
  pass_step a b -> pass_step b c -> pass_step a c.
Proof.
  intros (Hu1 & Hm1 & evs1 & Hb1 & He1) (Hu2 & Hm2 & evs2 & Hb2 & He2).
  split; [|split]; try lia.
  exists (evs1 ++ evs2). split.
  - rewrite Hb2, Hb1. now rewrite app_assoc.
  - apply Forall_app; split; [exact He1|].
    eapply Forall_impl; [|exact He2].
    intros ev Hev. eapply Qle_lt_trans; [|exact Hev].
    rewrite <- Zle_Qle. exact Hm1.
Qed.

Lemma diff_pass_step (json_data : json) (w : world) :
  pass_step w (snd (diff_pass json_data w)).
Proof.
  rewrite diff_pass_unfold.
  destruct (Py.get json_data "lastUpdate" (JInt 0)) as [v|];
    [|apply pass_step_refl].
  destruct (Py.num v) as [lu|]; [|apply pass_step_refl].
  destruct (Z.leb_spec lu (last_update_timestamp w)) as [Hle|Hlt].
  - apply (pass_step_refl w).
  - destruct (walk_effect json_data (with_last_update_timestamp lu w))
      as (Hu & Hm & Hev & _).
    simpl in *. split; [|split]; [lia | exact Hm | exact Hev].
Qed.

Lemma parse_backup_and_send_step (f : backup_file) (w : world) :
  pass_step w (snd (parse_backup_and_send f w)).
Proof.
  unfold parse_backup_and_send.
  destruct (read_backup f); [apply diff_pass_step | |]; apply (pass_step_refl w).
Qed.

Lemma run_passes_step (files : list backup_file) (w : world) :
  pass_step w (run_passes files w).
Proof.
  unfold run_passes. revert w.
  induction files as [|f rest IH]; intros w; simpl.
  - apply pass_step_refl.
  - eapply pass_step_trans; [apply parse_backup_and_send_step | apply IH].
Qed.

Lemma emitted_of_append {A} (m : M A) (w : world) (evs : list Event) :
  bucket (snd (m w)) = bucket w ++ evs -> emitted m w = evs.
Proof.
  unfold emitted. intros ->.
  rewrite skipn_app, skipn_all, Nat.sub_diag. reflexivity.
Qed.

End Effects.

(** The test of line 126 decides alone whether a session record is
    handled: when it is false the record is passed over, when it raises
    the pass raises there, and in both cases the world is untouched. *)
Lemma handle_session_not_new {platform : Platform}
      (tasks : json) (source_name project_id : string) (project_name : json)
      (day : string) (record : list (string * json)) (w : world) :
  handle_session tasks source_name project_id project_name day (JObj record) w
  = match session_is_new (session_field record "s") (session_field record "e")
                         (last_session_end_ms w) with
    | Ok true =>
        handle_session tasks source_name project_id project_name day
                       (JObj record) w
    | Ok false => (Ok tt, w)
    | Err e => (Err e, w)
    end.
Proof.
  destruct (session_is_new _ _ _) as [[|]|e] eqn:Hnew; [reflexivity | |];
    unfold handle_session, bind, lift, gets, Py.get;
    fold (session_field record "s"); fold (session_field record "e");
    unfold session_field in *;
    destruct (Py.lookup record "s"), (Py.lookup record "e");
    rewrite Hnew; reflexivity.
Qed.

Lemma session_end_record (record : list (string * json)) :
  session_end (JObj record)
  = if Py.truthy (session_field record "s")
       && Py.truthy (session_field record "e")
    then match Py.num (session_field record "e") with
         | Ok e => Some e
         | Err _ => None
         end
    else None.
Proof.
  unfold session_end, session_field, Py.get.
  destruct (Py.lookup record "s"), (Py.lookup record "e"); reflexivity.
Qed.

(** A record whose end is not above the mark is passed over. *)
Lemma handle_session_passed_over {platform : Platform}
      (tasks : json) (source_name project_id : string) (project_name : json)
      (day : string) (record : list (string * json)) (e : Z) (w : world) :
  session_end (JObj record) = Some e ->
  e <= last_session_end_ms w ->
  handle_session tasks source_name project_id project_name day (JObj record) w
  = (Ok tt, w).
Proof.
  intros He Hle.
  rewrite handle_session_not_new.
  rewrite session_end_record in He.
  unfold session_is_new.
  destruct (Py.truthy (session_field record "s")); [|discriminate].
  destruct (Py.truthy (session_field record "e")); [|discriminate].
  simpl in He.
  destruct (Py.num (session_field record "e")) as [e'|]; [|discriminate].
  injection He as ->. simpl.
  apply Z.ltb_ge in Hle. now rewrite Hle.
Qed.

(** * The claims *)

(** C9.  Both components of the high-water mark start at zero, and no
    pass lowers either of them: not the handling of one session record,
    which is where the session mark is assigned, not a whole pass, and
    not any number of passes of a run. *)
Theorem marks_never_decrease {platform : Platform} :
  forall (disk : cache_file_state) (b : list Event)
         (f : backup_file) (files : list backup_file) (w : world),
    (last_update_timestamp (snd (load_cache (module_state disk b))) = 0 /\
     last_session_end_ms (snd (load_cache (module_state disk b))) = 0) /\
    (forall (tasks : json) (source_name project_id : string)
            (project_name : json) (day : string) (session : json),
        let w' := snd (handle_session tasks source_name project_id
                                      project_name day session w) in
        last_update_timestamp w' = last_update_timestamp w /\
        last_session_end_ms w <= last_session_end_ms w') /\
    (last_update_timestamp w
       <= last_update_timestamp (snd (parse_backup_and_send f w)) /\
     last_session_end_ms w
       <= last_session_end_ms (snd (parse_backup_and_send f w))) /\
    (last_update_timestamp w <= last_update_timestamp (run_passes files w) /\
     last_session_end_ms w <= last_session_end_ms (run_passes files w)).
Proof.
  intros disk b f files w. split; [|split; [|split]].
  - destruct disk; split; reflexivity.
  - intros tasks source_name project_id project_name day session w'.
    destruct (handle_session_step tasks source_name project_id project_name
                                  day session w) as (Hu & _ & Hm & _).
    now split.
  - destruct (parse_backup_and_send_step f w) as (Hu & Hm & _). now split.
  - destruct (run_passes_step files w) as (Hu & Hm & _). now split.
Qed.

(** C3.  Once a pass of the run has ended, a session record whose end is
    at or below the session mark of that moment is passed over by every
    later pass, and every event a later pass emits covers an interval that
    ends (start plus duration) after that mark: no event whose session
    end lies at or below the mark appears again. *)
Theorem no_event_at_or_below_mark {platform : Platform} :
  forall (earlier : backup_file) (between : list backup_file)
         (later : backup_file) (w : world),
    let w1 := snd (parse_backup_and_send earlier w) in
    let w2 := run_passes between w1 in
    Forall (fun ev => (inject_Z (last_session_end_ms w1) < event_end ev)%Q)
           (emitted (parse_backup_and_send later) w2) /\
    (forall (tasks : json) (source_name project_id : string)
            (project_name : json) (day : string)
            (record : list (string * json)) (e : Z),
        session_end (JObj record) = Some e ->
        e <= last_session_end_ms w1 ->
        handle_session tasks source_name project_id project_name day
                       (JObj record) w2 = (Ok tt, w2)).
Proof.
  intros earlier between later w w1 w2.
  destruct (run_passes_step between w1) as (_ & Hm & _).
  split.
  - destruct (parse_backup_and_send_step later w2) as (_ & _ & evs & Hb & Hev).
    rewrite (emitted_of_append _ _ _ Hb).
    eapply Forall_impl; [|exact Hev].
    intros ev H. eapply Qle_lt_trans; [|exact H].
    rewrite <- Zle_Qle. exact Hm.
  - intros tasks source_name project_id project_name day record e He Hle.
    apply (handle_session_passed_over _ _ _ _ _ _ e); [exact He|].
    fold w2 in Hm. lia.
Qed.

Lemma no_event_at_or_below_mark_witness :
  let first := snapshot_with 1000 [("day1", session (JInt 1000) (JInt 50000))] in
  let w := snd (@diff_pass example_platform first fresh) in
  let w1 := snd (@parse_backup_and_send example_platform [Some "pf_backup {}"] w) in
  let w2 := @run_passes example_platform [[Some "header"]; []] w1 in
  last_session_end_ms w1 = 50000 /\
  @handle_session example_platform (JObj []) "project" "p1" (JStr "Work") "day1"
                  (session (JInt 1000) (JInt 50000)) w2
  = (Ok tt, w2).
Proof.
  intros first w w1 w2. split; [reflexivity|].
  apply (proj2 (@no_event_at_or_below_mark example_platform
                  [Some "pf_backup {}"] [[Some "header"]; []] [] w)
               (JObj []) "project" "p1" (JStr "Work") "day1"
               [("s", JInt 1000); ("e", JInt 50000)] 50000).
  - reflexivity.
  - simpl. lia.
Defined.

(** A pass repeated on the snapshot it has just processed is stopped at
    the freshness gate or raises where the first one did: either way it
    emits nothing and leaves the cache, the cache file and the session
    mark as they are. *)
Lemma diff_pass_again {platform : Platform} (json_data : json) (w : world) :
  let w1 := snd (diff_pass json_data w) in
  let w2 := snd (diff_pass json_data w1) in
  bucket w2 = bucket w1 /\
  previous_time_spent_cache w2 = previous_time_spent_cache w1 /\
  cache_file w2 = cache_file w1 /\
  last_session_end_ms w2 = last_session_end_ms w1 /\
  last_update_timestamp w2 = last_update_timestamp w1.
Proof.
  simpl. rewrite (diff_pass_unfold json_data w).
  destruct (Py.get json_data "lastUpdate" (JInt 0)) as [v|] eqn:Hv.
  2:{ simpl. rewrite diff_pass_unfold, Hv. simpl. auto. }
  destruct (Py.num v) as [lu|] eqn:Hlu.
  2:{ simpl. rewrite diff_pass_unfold, Hv, Hlu. simpl. auto. }
  destruct (Z.leb_spec lu (last_update_timestamp w)) as [Hle|Hlt].
  - simpl. rewrite diff_pass_unfold, Hv, Hlu. simpl.
    apply Z.leb_le in Hle. rewrite Hle. simpl. auto.
  - destruct (walk_effect json_data (with_last_update_timestamp lu w))
      as (Hu & _). simpl in Hu.
    rewrite diff_pass_unfold, Hv, Hlu, Hu, Z.leb_refl. simpl. auto.
Qed.

(** Past the gate the snapshot's [lastUpdate] is the last one processed,
    however the walk ends. *)
Lemma diff_pass_gate_open {platform : Platform}
      (json_data last_update : json) (lu : Z) (w : world) :
  Py.get json_data "lastUpdate" (JInt 0) = Ok last_update ->
  Py.num last_update = Ok lu ->
  last_update_timestamp w < lu ->
  last_update_timestamp (snd (diff_pass json_data w)) = lu.
Proof.
  intros Hv Hlu Hlt. rewrite diff_pass_unfold, Hv, Hlu.
  apply Z.leb_gt in Hlt. rewrite Hlt.
  destruct (walk_effect json_data (with_last_update_timestamp lu w))
    as (Hu & _). exact Hu.
Qed.

(** The same for a pass over a file that has not changed. *)
Lemma parse_backup_and_send_again {platform : Platform}
      (f : backup_file) (w : world) :
  let w1 := snd (parse_backup_and_send f w) in
  emitted (parse_backup_and_send f) w1 = [] /\
  previous_time_spent_cache (snd (parse_backup_and_send f w1))
  = previous_time_spent_cache w1 /\
  cache_file (snd (parse_backup_and_send f w1)) = cache_file w1 /\
  last_session_end_ms (snd (parse_backup_and_send f w1))
  = last_session_end_ms w1.
Proof.
  unfold parse_backup_and_send.
  destruct (read_backup f) as [json_data| |].
  - destruct (diff_pass_again json_data w) as (Hb & Hc & Hf & Hm & _).
    simpl. repeat split; try assumption.
    apply emitted_of_append. rewrite Hb. now rewrite app_nil_r.
  - simpl. repeat split. apply emitted_of_append. simpl. now rewrite app_nil_r.
  - simpl. repeat split. apply emitted_of_append. simpl. now rewrite app_nil_r.
Qed.

(** C2.  A snapshot whose [lastUpdate] is not above the last one
    processed makes the pass a no-op: it prints its notice and changes
    nothing else, so no event, the same cache, the same marks.  A
    greater [lastUpdate] becomes the last one processed.  A second pass
    over the same snapshot emits nothing and keeps cache and mark. *)
Theorem freshness_gate {platform : Platform} :
  forall (json_data last_update : json) (lu : Z) (w : world),
    Py.get json_data "lastUpdate" (JInt 0) = Ok last_update ->
    Py.num last_update = Ok lu ->
    (lu <= last_update_timestamp w ->
     diff_pass json_data w
     = (Ok tt, with_stdout (stdout w ++ [InfoNoNewUpdates]) w) /\
     emitted (diff_pass json_data) w = []) /\
    (last_update_timestamp w < lu ->
     last_update_timestamp (snd (diff_pass json_data w)) = lu) /\
    (let w1 := snd (diff_pass json_data w) in
     emitted (diff_pass json_data) w1 = [] /\
     previous_time_spent_cache (snd (diff_pass json_data w1))
     = previous_time_spent_cache w1 /\
     last_session_end_ms (snd (diff_pass json_data w1))
     = last_session_end_ms w1).
Proof.
  intros json_data last_update lu w Hv Hlu. split; [|split].
  - intros Hle.
    assert (E : diff_pass json_data w
                = (Ok tt, with_stdout (stdout w ++ [InfoNoNewUpdates]) w)).
    { rewrite diff_pass_unfold, Hv, Hlu.
      apply Z.leb_le in Hle. now rewrite Hle. }
    split; [exact E|].
    apply emitted_of_append. rewrite E. simpl. now rewrite app_nil_r.
  - intros Hlt. now apply (diff_pass_gate_open json_data last_update).
  - destruct (diff_pass_again json_data w) as (Hb & Hc & _ & Hm & _).
    simpl. split; [|split]; try assumption.
    apply emitted_of_append. rewrite Hb. now rewrite app_nil_r.
Qed.

Lemma freshness_gate_witness :
  (@diff_pass example_platform (scenario_snapshot None)
              (with_last_update_timestamp 1000 fresh)
   = (Ok tt, with_stdout [InfoNoNewUpdates]
                         (with_last_update_timestamp 1000 fresh)) /\
   emitted (@diff_pass example_platform (scenario_snapshot None))
           (with_last_update_timestamp 1000 fresh) = []) /\
  last_update_timestamp
    (snd (@diff_pass example_platform (scenario_snapshot None) fresh)) = 1000.
Proof.
  split.
  - apply (@freshness_gate example_platform (scenario_snapshot None)
                           (JInt 1000) 1000
                           (with_last_update_timestamp 1000 fresh)).
    + reflexivity.
    + reflexivity.
    + simpl. lia.
  - apply (@freshness_gate example_platform (scenario_snapshot None)
                           (JInt 1000) 1000 fresh).
    + reflexivity.
    + reflexivity.
    + simpl. lia.
Defined.

(** C10.  A pass that raises leaves the cache file as it was; where it
    had passed the freshness gate, the last processed [lastUpdate] is
    already the snapshot's.  The pass retried on the same snapshot emits
    nothing and does not write the cache file either. *)
Theorem failed_pass_is_not_retried {platform : Platform} :
  forall (json_data : json) (w w1 : world) (e : exn),
    diff_pass json_data w = (Err e, w1) ->
    cache_file w1 = cache_file w /\
    (forall last_update lu,
        Py.get json_data "lastUpdate" (JInt 0) = Ok last_update ->
        Py.num last_update = Ok lu ->
        last_update_timestamp w < lu ->
        last_update_timestamp w1 = lu) /\
    emitted (diff_pass json_data) w1 = [] /\
    cache_file (snd (diff_pass json_data w1)) = cache_file w.
Proof.
  intros json_data w w1 e H.
  assert (Hdisk : cache_file w1 = cache_file w).
  { rewrite diff_pass_unfold in H.
    destruct (Py.get json_data "lastUpdate" (JInt 0)) as [v|]; [|congruence].
    destruct (Py.num v) as [lu|]; [|congruence].
    destruct (lu <=? last_update_timestamp w); [congruence|].
    destruct (walk_effect json_data (with_last_update_timestamp lu w))
      as (_ & _ & _ & Hf).
    rewrite H in Hf. simpl in Hf. apply (Hf e eq_refl). }
  split; [exact Hdisk|]. split; [|split].
  - intros v lu Hv Hlu Hlt.
    pose proof (diff_pass_gate_open json_data v lu w Hv Hlu Hlt) as Hup.
    now rewrite H in Hup.
  - destruct (diff_pass_again json_data w) as (Hb & _).
    rewrite H in Hb. simpl in Hb.
    apply emitted_of_append. rewrite Hb. now rewrite app_nil_r.
  - destruct (diff_pass_again json_data w) as (_ & _ & Hf & _).
    rewrite H in Hf. simpl in Hf. congruence.
Qed.


Lemma failed_pass_is_not_retried_witness :
  let w1 := snd (@diff_pass offline_platform (scenario_snapshot None) fresh) in
  cache_file w1 = NoFile /\
  last_update_timestamp w1 = 1000 /\
  emitted (@diff_pass offline_platform (scenario_snapshot None)) w1 = [] /\
  cache_file (snd (@diff_pass offline_platform (scenario_snapshot None) w1))
  = NoFile.
Proof.
  intros w1.
  destruct (@failed_pass_is_not_retried offline_platform
              (scenario_snapshot None) fresh w1 SinkError eq_refl)
    as (Hdisk & Hmark & Hnone & Hdisk').
  split; [exact Hdisk|]. split; [|split; [exact Hnone | exact Hdisk']].
  apply (Hmark (JInt 1000) 1000); [reflexivity | reflexivity | simpl; lia].
Defined.

Lemma absent_or_zero_falsy (record : list (string * json)) (k : string) :
  absent_or_zero record k -> Py.truthy (session_field record k) = false.
Proof.
  unfold session_field. intros [-> | ->]; reflexivity.
Qed.

(** C6.  A session record whose start or end is absent or zero, or whose
    end is not above the session mark, is passed over: the statement
    returns and the world is unchanged (no event, no error, no state
    change).  A record that changes the world has passed both checks:
    start and end are set, and the end is above the mark. *)
Theorem session_gate {platform : Platform} :
  forall (tasks : json) (source_name project_id : string)
         (project_name : json) (day : string)
         (record : list (string * json)) (w : world),
    (absent_or_zero record "s" \/ absent_or_zero record "e" \/
     (exists e, Py.lookup record "e" = Some (JInt e) /\
                e <= last_session_end_ms w) ->
     handle_session tasks source_name project_id project_name day
                    (JObj record) w = (Ok tt, w)) /\
    (snd (handle_session tasks source_name project_id project_name day
                         (JObj record) w) <> w ->
     Py.truthy (session_field record "s") = true /\
     Py.truthy (session_field record "e") = true /\
     exists e, Py.num (session_field record "e") = Ok e /\
               last_session_end_ms w < e).
Proof.
  intros tasks source_name project_id project_name day record w.
  rewrite handle_session_not_new. split.
  - intros Hskip.
    assert (Hnew : session_is_new (session_field record "s")
                                  (session_field record "e")
                                  (last_session_end_ms w) = Ok false).
    { unfold session_is_new.
      destruct Hskip as [Hs | [He | (e & He & Hle)]].
      - now rewrite (absent_or_zero_falsy _ _ Hs).
      - rewrite (absent_or_zero_falsy _ _ He).
        now destruct (Py.truthy (session_field record "s")).
      - unfold session_field at 2 3. rewrite He. simpl.
        apply Z.ltb_ge in Hle. rewrite Hle.
        destruct (Py.truthy (session_field record "s")), (e =? 0); reflexivity. }
    now rewrite Hnew.
  - destruct (session_is_new _ _ _) as [[|]|e] eqn:Hnew.
    + intros _. now apply session_is_new_true in Hnew.
    + simpl. congruence.
    + simpl. congruence.
Qed.

Lemma session_gate_witness :
  @handle_session example_platform (JObj []) "project" "p1" (JStr "Work") "day1"
                  (JObj [("s", JInt 0); ("e", JInt 61000)]) fresh
  = (Ok tt, fresh) /\
  (Py.truthy (session_field [("s", JInt 1000); ("e", JInt 61000)] "s") = true /\
   Py.truthy (session_field [("s", JInt 1000); ("e", JInt 61000)] "e") = true /\
   exists e, Py.num (session_field [("s", JInt 1000); ("e", JInt 61000)] "e")
             = Ok e /\ last_session_end_ms fresh < e).
Proof.
  split.
  - apply (proj1 (@session_gate example_platform (JObj []) "project" "p1"
                                (JStr "Work") "day1"
                                [("s", JInt 0); ("e", JInt 61000)] fresh)).
    left. right. reflexivity.
  - apply (proj2 (@session_gate example_platform (JObj []) "project" "p1"
                                (JStr "Work") "day1"
                                [("s", JInt 1000); ("e", JInt 61000)] fresh)).
    simpl. discriminate.
Defined.

(** ** The session mark along the walk *)

Lemma fold_left_map_snd {A B} (g : Z -> B -> Z) (l : list (A * B)) (m : Z) :
  fold_left (fun m (x : A * B) => g m (snd x)) l m = fold_left g (map snd l) m.
Proof.
  revert m. induction l as [|x rest IH]; intros m; simpl; auto.
Qed.

Lemma fold_left_flat_map {A B} (g : Z -> B -> Z) (h : A -> list B)
      (l : list A) (m : Z) :
  fold_left (fun m x => fold_left g (h x) m) l m = fold_left g (flat_map h l) m.
Proof.
  revert m. induction l as [|x rest IH]; intros m; simpl; auto.
  rewrite fold_left_app. apply IH.
Qed.

(** Meeting the records one by one leaves the largest end they hold, or
    the mark the walk started from. *)
Lemma fold_left_advance_max (sessions : list json) (m : Z) :
  fold_left advance sessions m = fold_left Z.max (session_ends sessions) m.
Proof.
  revert m. induction sessions as [|x rest IH]; intros m; simpl; auto.
  unfold session_ends in *. simpl. rewrite fold_left_app, IH.
  unfold advance. destruct (session_end x); reflexivity.
Qed.

Lemma get_field (x : json) (k : string) (v : json) :
  Py.get x k (JObj []) = Ok v -> v = field x k.
Proof.
  unfold Py.get, field. destruct x; try discriminate. simpl.
  destruct (Py.lookup kvs k); congruence.
Qed.

Lemma items_items_of (x : json) (kvs : list (string * json)) :
  Py.items x = Ok kvs -> kvs = items_of x.
Proof.
  destruct x; simpl; congruence.
Qed.

Section Mark.

Context {platform : Platform}.

Lemma handle_session_mark (tasks : json) (source_name project_id : string)
      (project_name : json) (day : string) (session : json) (w : world) :
  fst (handle_session tasks source_name project_id project_name day session w)
  = Ok tt ->
  last_session_end_ms
    (snd (handle_session tasks source_name project_id project_name day
                         session w))
  = advance (last_session_end_ms w) session.
Proof.
  destruct (handle_session _ _ _ _ _ _ w) as [r w'] eqn:H.
  simpl. intros ->.
  unfold handle_session in H. unfold advance, session_end.
  unfold bind at 1, lift at 1 in H.
  destruct (Py.get session "s" JNull) as [start_ms|]; [|discriminate].
  unfold bind at 1, lift at 1 in H.
  destruct (Py.get session "e" JNull) as [end_ms|]; [|discriminate].
  unfold bind at 1, gets at 1 in H. unfold bind at 1, lift at 1 in H.
  destruct (session_is_new start_ms end_ms (last_session_end_ms w))
    as [[|]|] eqn:Hnew; [| |discriminate].
  - apply session_is_new_true in Hnew as (Hs & He & e & Hnum & Hlt).
    rewrite Hs, He, Hnum. simpl.
    unfold bind at 1, lift at 1 in H.
    destruct (Py.num start_ms) as [s|]; [|discriminate].
    unfold bind at 1, lift at 1 in H.
    destruct (Py.fromtimestamp_utc s) as [t|]; [|discriminate].
    unfold bind at 1, lift at 1 in H. rewrite Hnum in H.
    unfold bind at 1, lift at 1 in H.
    destruct (Py.div1000 (e - s)) as [d|]; [|discriminate].
    unfold bind at 1, lift at 1 in H.
    destruct (associated_tasks tasks project_id day) as [associated|];
      [|discriminate].
    unfold bind at 1 in H.
    pose proof (preserves_for_each (tasks_step t d)
                  (tasks_step_refl _ _) (tasks_step_trans _ _) associated
                  (send_task source_name project_name day t d)
                  (fun x _ => send_task_step _ _ _ _ _ x) w)
      as (_ & _ & Hm & _).
    destruct (for_each associated _ w) as [[[]|ex] w1]; [|discriminate].
    simpl in Hm. unfold bind, gets, modify, ret in H. rewrite Hm in H.
    apply Z.ltb_lt in Hlt as Hlt'. rewrite Hlt' in H.
    injection H as <-. simpl. lia.
  - injection H as <-. unfold session_is_new in Hnew.
    destruct (Py.truthy start_ms); [|reflexivity].
    destruct (Py.truthy end_ms); [|reflexivity]. simpl.
    destruct (Py.num end_ms) as [e|]; [|reflexivity].
    simpl in Hnew. injection Hnew as Hnew. apply Z.ltb_ge in Hnew. lia.
Qed.

Lemma handle_entity_mark (tasks : json) (names : list (string * json))
      (source_name : string) (entry : string * json) (w : world) :
  fst (handle_entity tasks names source_name entry w) = Ok tt ->
  last_session_end_ms (snd (handle_entity tasks names source_name entry w))
  = fold_left advance (map snd (items_of (snd entry))) (last_session_end_ms w).
Proof.
  destruct entry as [project_id days]. unfold handle_entity, bind, lift.
  destruct (Py.items days) as [sessions|] eqn:Hitems; [|discriminate].
  apply items_items_of in Hitems.
  change (snd (project_id, days)) with days.
  rewrite <- Hitems.
  intros Hok. rewrite <- fold_left_map_snd.
  apply (for_each_fold last_session_end_ms
                       (fun m (x : string * json) => advance m (snd x)));
    [|exact Hok].
  intros [day session] w' _. apply handle_session_mark.
Qed.

Lemma handle_source_mark (tasks : json) (names : list (string * json))
      (src : string * json) (w : world) :
  fst (handle_source tasks names src w) = Ok tt ->
  last_session_end_ms (snd (handle_source tasks names src w))
  = fold_left advance
              (flat_map (fun entity => map snd (items_of (snd entity)))
                        (items_of (snd src)))
              (last_session_end_ms w).
Proof.
  destruct src as [source_name time_tracking]. unfold handle_source, bind, lift.
  destruct (Py.items time_tracking) as [entities|] eqn:Hitems; [|discriminate].
  apply items_items_of in Hitems.
  change (snd (source_name, time_tracking)) with time_tracking.
  rewrite <- Hitems.
  intros Hok. rewrite <- fold_left_flat_map.
  apply (for_each_fold last_session_end_ms
           (fun m (entity : string * json) =>
              fold_left advance (map snd (items_of (snd entity))) m));
    [|exact Hok].
  intros entity w' _. apply handle_entity_mark.
Qed.

Lemma walk_mark (json_data : json) (w : world) :
  fst (walk json_data w) = Ok tt ->
  last_session_end_ms (snd (walk json_data w))
  = fold_left advance (sessions_of json_data) (last_session_end_ms w).
Proof.
  destruct (walk json_data w) as [r w'] eqn:H.
  simpl. intros ->.
  unfold walk in H. unfold sessions_of.
  unfold bind at 1, lift at 1 in H.
  destruct (Py.get json_data "mainModelData" (JObj [])) as [mainData|] eqn:H1;
    [|discriminate].
  apply get_field in H1; subst mainData.
  do 5 (unfold bind at 1, lift at 1 in H;
        match type of H with
        | context [match ?r with Ok _ => _ | Err _ => _ end] =>
            destruct r; [|discriminate]
        end).
  unfold bind at 1, lift at 1 in H.
  destruct (Py.get _ "timeTracking" (JObj [])) as [ttd|] eqn:H2; [|discriminate].
  apply get_field in H2; subst ttd.
  unfold bind at 1, lift at 1 in H.
  destruct (Py.get _ "project" (JObj [])) as [bp|] eqn:H3; [|discriminate].
  apply get_field in H3; subst bp.
  unfold bind at 1, lift at 1 in H.
  destruct (Py.get _ "tag" (JObj [])) as [bt|] eqn:H4; [|discriminate].
  apply get_field in H4; subst bt.
  unfold bind at 1 in H.
  match type of H with
  | context [for_each ?l ?b w] =>
      pose proof (for_each_fold last_session_end_ms
                    (fun m (src : string * json) =>
                       fold_left advance
                         (flat_map (fun entity => map snd (items_of (snd entity)))
                                   (items_of (snd src))) m)
                    l b (fun x w' _ => handle_source_mark _ _ x w') w) as Hfold;
      destruct (for_each l b w) as [[[]|e] w1]; [|discriminate]
  end.
  destruct (save_cache_effect w1) as (_ & _ & Hm & _).
  rewrite H in Hm. simpl in Hm, Hfold. rewrite Hm, (Hfold eq_refl).
  simpl. rewrite !fold_left_app. reflexivity.
Qed.

End Mark.

(** C1, as the code has it.  The session mark is not held back until the
    walk is over: a session that is handled raises the mark to its end at
    once, a record whose end is not above the mark of that moment is
    passed over, and when the walk of a pass past the gate completes the
    mark is the largest of the mark at the start and the ends of the
    session records of the snapshot. *)
Theorem mark_advances_session_by_session {platform : Platform} :
  (forall (tasks : json) (source_name project_id : string)
          (project_name : json) (day : string) (session : json) (w : world),
      fst (handle_session tasks source_name project_id project_name day
                          session w) = Ok tt ->
      last_session_end_ms
        (snd (handle_session tasks source_name project_id project_name day
                             session w))
      = match session_end session with
        | Some e => Z.max (last_session_end_ms w) e
        | None => last_session_end_ms w
        end) /\
  (forall (tasks : json) (source_name project_id : string)
          (project_name : json) (day : string)
          (record : list (string * json)) (e : Z) (w : world),
      session_end (JObj record) = Some e ->
      e <= last_session_end_ms w ->
      handle_session tasks source_name project_id project_name day
                     (JObj record) w = (Ok tt, w)) /\
  (forall (json_data last_update : json) (lu : Z) (w : world),
      Py.get json_data "lastUpdate" (JInt 0) = Ok last_update ->
      Py.num last_update = Ok lu ->
      last_update_timestamp w < lu ->
      fst (diff_pass json_data w) = Ok tt ->
      last_session_end_ms (snd (diff_pass json_data w))
      = fold_left Z.max (session_ends (sessions_of json_data))
                  (last_session_end_ms w)).
Proof.
  split; [|split].
  - intros. now apply handle_session_mark.
  - intros tasks source_name project_id project_name day record e w He Hle.
    now apply (handle_session_passed_over _ _ _ _ _ _ e).
  - intros json_data last_update lu w Hv Hlu Hlt.
    rewrite diff_pass_unfold, Hv, Hlu.
    apply Z.leb_gt in Hlt. rewrite Hlt.
    intros Hok. rewrite walk_mark by exact Hok.
    apply fold_left_advance_max.
Qed.

Lemma mark_advances_session_by_session_witness :
  last_session_end_ms
    (snd (@handle_session example_platform (JObj []) "project" "p1"
                          (JStr "Work") "day2"
                          (session (JInt 2000) (JInt 100000)) fresh))
  = Z.max 0 100000 /\
  @handle_session example_platform (JObj []) "project" "p1" (JStr "Work") "day1"
                  (session (JInt 1000) (JInt 50000))
                  (with_last_session_end_ms 100000 fresh)
  = (Ok tt, with_last_session_end_ms 100000 fresh) /\
  last_session_end_ms (snd (@diff_pass example_platform later_first fresh))
  = Z.max (Z.max 0 100000) 50000.
Proof.
  split; [|split].
  - apply (proj1 (@mark_advances_session_by_session example_platform)
                 (JObj []) "project" "p1" (JStr "Work") "day2"
                 (session (JInt 2000) (JInt 100000)) fresh).
    reflexivity.
  - apply (proj1 (proj2 (@mark_advances_session_by_session example_platform))
                 (JObj []) "project" "p1" (JStr "Work") "day1"
                 [("s", JInt 1000); ("e", JInt 50000)] 50000
                 (with_last_session_end_ms 100000 fresh)).
    + reflexivity.
    + simpl. lia.
  - apply (proj2 (proj2 (@mark_advances_session_by_session example_platform))
                 later_first (JInt 1000) 1000 fresh).
    + reflexivity.
    + reflexivity.
    + simpl. lia.
    + reflexivity.
Defined.

(** C1, as the spec has it, fails.  From a mark of zero, a snapshot holds
    a session that ends at 100000, discovered first, and one that ends at
    50000: both ends exceed the mark held at the start of the pass, yet
    the pass emits the first one only, because handling it has already
    raised the mark to 100000.  With the two sessions discovered in the
    other order, both are emitted. *)
Lemma mark_moves_within_pass :
  last_session_end_ms fresh = 0 /\
  session_ends (sessions_of later_first) = [100000; 50000] /\
  @diff_pass example_platform later_first fresh
  = (Ok tt,
     mk_world 100000 1000
              (JObj [("t1", JObj [("day2", JInt 30)])])
              (Stored (JObj [("t1", JObj [("day2", JInt 30)])]))
              [mk_Event 2000 (98000 # 1000)
                        (mk_event_data "project" (JStr "Work") (JStr "Report"))]
              [InfoSent "project" (JStr "Work") (JStr "Report") "day2" 30 2000
                        (98000 # 1000)]) /\
  bucket (snd (@diff_pass example_platform earlier_first fresh))
  = [mk_Event 1000 (49000 # 1000)
              (mk_event_data "project" (JStr "Work") (JStr "Report"));
     mk_Event 2000 (98000 # 1000)
              (mk_event_data "project" (JStr "Work") (JStr "Report"))] /\
  last_session_end_ms
    (snd (@handle_session example_platform (JObj []) "project" "p1"
                          (JStr "Work") "day2"
                          (session (JInt 2000) (JInt 100000)) fresh))
  = 100000.
Proof.
  repeat split; reflexivity.
Qed.

(** ** Project names *)

Lemma project_names_lookup (entities names : list (string * json))
      (project_id : string) :
  project_names (JObj entities) = Ok names ->
  Py.lookup names project_id
  = option_map project_title (Py.lookup entities project_id).
Proof.
  unfold project_names. simpl. revert names.
  induction entities as [|[p_id p_data] rest IH]; intros names H; simpl in *.
  - injection H as <-. reflexivity.
  - unfold res_bind in H at 1.
    destruct (Py.get p_data "title" (JStr "Unnamed Project")) as [t|] eqn:Ht;
      [|discriminate].
    unfold res_bind in H at 1.
    destruct (map_res _ rest) as [names'|]; [|discriminate].
    injection H as <-. simpl.
    destruct (String.eqb p_id project_id).
    + simpl. unfold project_title, Py.get in *.
      destruct p_data; try discriminate. simpl.
      destruct (Py.lookup kvs "title"); congruence.
    + now apply IH.
Qed.

Lemma project_names_total (entities : list (string * json)) :
  forallb (fun p => is_dict (snd p)) entities = true ->
  exists names, project_names (JObj entities) = Ok names.
Proof.
  unfold project_names. simpl.
  induction entities as [|[p_id p_data] rest IH]; intros H; simpl in *.
  - eauto.
  - apply andb_prop in H as [Hd Hrest].
    destruct (IH Hrest) as [names' ->].
    destruct p_data; try discriminate. simpl.
    destruct (Py.lookup kvs "title"); simpl; eauto.
Qed.

(** C7, as the code has it.  When every project entity is a dict the name
    table is built without an exception, and looking an entity id up in
    it never raises: a known project shows its title, a known project
    without a title shows the placeholder "Unnamed Project", and an id
    that is absent from the project entities shows the raw id. *)
Theorem project_name_resolution :
  forall (entities : list (string * json)),
    forallb (fun p => is_dict (snd p)) entities = true ->
    exists names,
      project_names (JObj entities) = Ok names /\
      forall project_id : string,
        (forall p_data t,
            Py.lookup entities project_id = Some p_data ->
            Py.lookup (items_of p_data) "title" = Some t ->
            project_name_of names project_id = t) /\
        (forall p_data,
            Py.lookup entities project_id = Some p_data ->
            Py.lookup (items_of p_data) "title" = None ->
            project_name_of names project_id = JStr "Unnamed Project") /\
        (Py.lookup entities project_id = None ->
         project_name_of names project_id = JStr project_id).
Proof.
  intros entities Hdicts.
  destruct (project_names_total entities Hdicts) as [names Hnames].
  exists names. split; [exact Hnames|].
  intros project_id. unfold project_name_of.
  rewrite (project_names_lookup entities names project_id Hnames).
  repeat split.
  - intros p_data t -> Ht. simpl. unfold project_title. now rewrite Ht.
  - intros p_data -> Ht. simpl. unfold project_title. now rewrite Ht.
  - intros ->. reflexivity.
Qed.

Lemma project_name_resolution_witness :
  exists names,
    project_names (JObj [("p1", JObj [("title", JStr "Work")]); ("p2", JObj [])])
    = Ok names /\
    project_name_of names "p1" = JStr "Work" /\
    project_name_of names "p2" = JStr "Unnamed Project" /\
    project_name_of names "p3" = JStr "p3".
Proof.
  destruct (project_name_resolution
              [("p1", JObj [("title", JStr "Work")]); ("p2", JObj [])]
              eq_refl) as (names & Hnames & Hres).
  exists names. split; [exact Hnames|]. split; [|split].
  - apply (proj1 (Hres "p1") (JObj [("title", JStr "Work")])); reflexivity.
  - apply (proj1 (proj2 (Hres "p2")) (JObj [])); reflexivity.
  - apply (proj2 (proj2 (Hres "p3"))); reflexivity.
Defined.

(** C7, as the spec has it, fails.  A project that is among the project
    entities but has no title is not shown under its raw id: the name is
    the placeholder. *)
Lemma untitled_project_shows_placeholder :
  project_names (JObj [("p1", JObj [])])
  = Ok [("p1", JStr "Unnamed Project")] /\
  project_name_of [("p1", JStr "Unnamed Project")] "p1"
  = JStr "Unnamed Project" /\
  project_name_of [("p1", JStr "Unnamed Project")] "p1" <> JStr "p1".
Proof.
  repeat split; try reflexivity. discriminate.
Qed.

(** ** The snapshot reader *)

Lemma read_backup_passed_over {platform : Platform}
      (before rest : backup_file) :
  forallb passed_over before = true ->
  read_backup (before ++ rest) = read_backup rest.
Proof.
  induction before as [|[line|] before' IH]; simpl; intros H.
  - reflexivity.
  - apply andb_prop in H as [Hline Hrest].
    unfold is_record_line in Hline.
    destruct (Py.startswith line "pf_"); simpl in Hline.
    + destruct (Py.find line "{"); [discriminate | auto].
    + auto.
  - discriminate.
Qed.

(** C8, as the code has it.  The reader goes past every line that does
    not both begin with the marker and hold an opening brace.  At the
    first line that does, it decodes the text from the first brace to
    the end of the line and reads no further: the result does not depend
    on the lines that follow.  When the file ends before such a line the
    result is [NotFound]; a read that fails and a text that does not
    decode give [ReadError], and the pass prints a different line for
    each of the two. *)
Theorem reader_stops_at_record_line {platform : Platform} :
  forall (before : backup_file),
    forallb passed_over before = true ->
    (forall (line : string) (i : nat) (rest : backup_file),
        Py.startswith line "pf_" = true ->
        Py.find line "{" = Some i ->
        read_backup (before ++ Some line :: rest)
        = match json_loads (Py.slice_from line i) with
          | Some json_data => Found json_data
          | None => ReadError
          end) /\
    (forall rest : backup_file,
        read_backup (before ++ None :: rest) = ReadError) /\
    read_backup before = NotFound /\
    (forall w : world,
        parse_backup_and_send before w
        = (Ok tt, with_stdout (stdout w ++ [ErrorNoValidJson]) w) /\
        forall rest : backup_file,
          parse_backup_and_send (before ++ None :: rest) w
          = (Ok tt, with_stdout (stdout w ++ [ErrorReadFailed]) w)) /\
    NotFound <> ReadError /\
    ErrorNoValidJson <> ErrorReadFailed.
Proof.
  intros before Hbefore.
  assert (Hnone : read_backup before = NotFound).
  { rewrite <- (app_nil_r before).
    now rewrite read_backup_passed_over. }
  assert (Herr : forall rest, read_backup (before ++ None :: rest) = ReadError).
  { intros rest. now rewrite read_backup_passed_over. }
  split; [|split; [|split; [|split; [|split]]]].
  - intros line i rest Hpf Hbrace.
    rewrite read_backup_passed_over by exact Hbefore.
    simpl. now rewrite Hpf, Hbrace.
  - exact Herr.
  - exact Hnone.
  - intros w. unfold parse_backup_and_send. rewrite Hnone. split.
    + reflexivity.
    + intros rest. now rewrite Herr.
  - discriminate.
  - discriminate.
Qed.

Lemma reader_stops_at_record_line_witness :
  @read_backup example_platform
               ([Some "header"; Some "pf_meta"]
                  ++ Some "pf_backup {}" :: [Some "pf_x{"; None])
  = Found (JObj []).
Proof.
  apply (proj1 (@reader_stops_at_record_line example_platform
                  [Some "header"; Some "pf_meta"] eq_refl)
               "pf_backup {}" 10%nat [Some "pf_x{"; None]);
    reflexivity.
Defined.

(** C8, as the spec has it, fails.  The first line that begins with the
    marker is not where the scan stops when that line holds no brace:
    the reader goes on, and what it returns depends on the lines after
    it. *)
Lemma reader_reads_past_marker_line :
  Py.startswith "pf_meta" "pf_" = true /\
  @read_backup example_platform [Some "pf_meta"] = NotFound /\
  @read_backup example_platform [Some "pf_meta"; Some "pf_backup {}"]
  = Found (JObj []) /\
  @read_backup example_platform [Some "pf_meta"; None] = ReadError.
Proof.
  repeat split; reflexivity.
Qed.

(** ** The cache of cumulative seconds *)

Lemma cached_dict (cache : json) (task_id day : string) (v : json) :
  cached cache task_id day = Ok v ->
  exists c, cache = JObj c /\
    match Py.lookup c task_id with
    | Some entry =>
        exists e, entry = JObj e /\
          v = match Py.lookup e day with Some x => x | None => JInt 0 end
    | None => v = JInt 0
    end.
Proof.
  unfold cached, Py.get, res_bind.
  destruct cache as [| | | | |c]; try discriminate.
  intros H. exists c. split; [reflexivity|].
  destruct (Py.lookup c task_id) as [entry|].
  - destruct entry as [| | | | |e]; try discriminate.
    exists e. split; [reflexivity|].
    destruct (Py.lookup e day); congruence.
  - simpl in H. congruence.
Qed.

(** Lines 140-142 never raise once line 137 has not, and leave the
    current value in the entry of the task and the day. *)
Lemma cache_store_cached (cache : json) (task_id day : string)
      (previous v : json) :
  cached cache task_id day = Ok previous ->
  exists cache',
    cache_store cache task_id day v = Ok cache' /\
    cached cache' task_id day = Ok v.
Proof.
  intros H. apply cached_dict in H as (c & -> & H).
  unfold cache_store, Py.contains, res_bind.
  destruct (Py.lookup c task_id) as [entry|] eqn:Hentry.
  - destruct H as (e & -> & _). simpl. rewrite Hentry. simpl.
    eexists. split; [reflexivity|].
    unfold cached, Py.get, res_bind.
    rewrite lookup_assign_same. now rewrite lookup_assign_same.
  - simpl. rewrite lookup_assign_same. simpl.
    eexists. split; [reflexivity|].
    unfold cached, Py.get, res_bind.
    rewrite lookup_assign_same. simpl. now rewrite String.eqb_refl.
Qed.

(** One task of a session, step by step, when lines 136-138 do not raise. *)
Lemma send_task_run {platform : Platform}
      (source_name : string) (project_name : json) (day : string)
      (t : Z) (d : Q) (task current previous : json) (cur prev : Z) (w : world) :
  (let? spent := Py.get task "timeSpentOnDay" (JObj []) in
   Py.get spent day (JInt 0)) = Ok current ->
  Py.num current = Ok cur ->
  cached (previous_time_spent_cache w) (str (task_id_field task)) day
  = Ok previous ->
  Py.num previous = Ok prev ->
  exists cache',
    cache_store (previous_time_spent_cache w) (str (task_id_field task)) day
                current = Ok cache' /\
    cached cache' (str (task_id_field task)) day = Ok current /\
    send_task source_name project_name day t d task w
    = let event := mk_Event t d (mk_event_data source_name project_name
                                               (task_title task)) in
      if sink_accepts (bucket w) event
      then
        if stdout_encodes source_name project_name (task_title task) day
        then (Ok tt,
              mk_world (last_session_end_ms w) (last_update_timestamp w) cache'
                       (cache_file w) (bucket w ++ [event])
                       (stdout w ++ [InfoSent source_name project_name
                                              (task_title task) day (cur - prev)
                                              t d]))
        else (Err UnicodeEncodeError,
              with_bucket (bucket w ++ [event]) (with_cache cache' w))
      else (Err SinkError, with_cache cache' w).
Proof.
  intros Hcur Hnum Hprev Hpnum.
  destruct (cache_store_cached _ _ _ _ current Hprev) as (cache' & Hstore & Hnew).
  exists cache'. split; [exact Hstore|]. split; [exact Hnew|].
  unfold res_bind in Hcur.
  destruct (Py.get task "timeSpentOnDay" (JObj [])) as [spent|] eqn:Hspent;
    [|discriminate].
  assert (Hfields : exists fields, task = JObj fields).
  { destruct task; try discriminate. eauto. }
  destruct Hfields as [fields ->].
  unfold send_task, bind, lift, gets, modify, insert_event, print_sent, print.
  unfold task_id_field, task_title in *. simpl items_of in *.
  unfold Py.get at 1.
  destruct (Py.lookup fields "id") as [id|];
    rewrite Hspent, Hcur, Hprev, Hnum, Hpnum; simpl res_bind;
    rewrite Hstore; unfold Py.get;
    destruct (Py.lookup fields "title") as [ttl|]; simpl;
    destruct (sink_accepts _ _); try reflexivity;
    destruct (stdout_encodes _ _ _ _); reflexivity.
Qed.

(** C4.  For a task whose cumulative seconds for the day and whose cached
    value are numbers, the reported difference is the current value minus
    the cached one, the cached one being 0 when the cache has no entry
    for the task or the day.  The cache entry is set to the current value
    before the event is handed to the sink, whatever the difference is,
    and the event is emitted whatever the difference is: only the sink
    decides whether the event is in the bucket, and then only the
    standard output whether the line with the difference is printed and
    the statement returns. *)
Theorem delta_reported_cache_overwritten {platform : Platform} :
  forall (source_name : string) (project_name : json) (day : string)
         (t : Z) (d : Q) (fields spent : list (string * json))
         (current previous : json) (cur prev : Z) (w : world),
    Py.lookup fields "timeSpentOnDay" = Some (JObj spent) ->
    Py.lookup spent day = Some current ->
    Py.num current = Ok cur ->
    cached (previous_time_spent_cache w) (str (task_id_field (JObj fields))) day
    = Ok previous ->
    Py.num previous = Ok prev ->
    let task_id := str (task_id_field (JObj fields)) in
    let event := mk_Event t d (mk_event_data source_name project_name
                                             (task_title (JObj fields))) in
    (exists cache',
        cached cache' task_id day = Ok current /\
        send_task source_name project_name day t d (JObj fields) w
        = if sink_accepts (bucket w) event
          then
            if stdout_encodes source_name project_name
                              (task_title (JObj fields)) day
            then (Ok tt,
                  mk_world (last_session_end_ms w) (last_update_timestamp w)
                           cache' (cache_file w) (bucket w ++ [event])
                           (stdout w ++ [InfoSent source_name project_name
                                                  (task_title (JObj fields)) day
                                                  (cur - prev) t d]))
            else (Err UnicodeEncodeError,
                  with_bucket (bucket w ++ [event]) (with_cache cache' w))
          else (Err SinkError, with_cache cache' w)) /\
    (forall c, previous_time_spent_cache w = JObj c ->
               Py.lookup c task_id = None -> prev = 0) /\
    (forall c e, previous_time_spent_cache w = JObj c ->
                 Py.lookup c task_id = Some (JObj e) ->
                 Py.lookup e day = None -> prev = 0).
Proof.
  intros source_name project_name day t d fields spent current previous
         cur prev w Hspent Hcur Hnum Hprev Hpnum task_id event.
  split; [|split].
  - destruct (send_task_run source_name project_name day t d (JObj fields)
                            current previous cur prev w)
      as (cache' & _ & Hnew & Hrun); try assumption.
    + unfold Py.get, res_bind. now rewrite Hspent, Hcur.
    + exists cache'. split; [exact Hnew | exact Hrun].
  - intros c Hc Hnone. fold task_id in Hprev.
    rewrite Hc in Hprev. unfold cached, Py.get, res_bind in Hprev.
    rewrite Hnone in Hprev. simpl in Hprev.
    injection Hprev as <-. simpl in Hpnum. congruence.
  - intros c e Hc Hentry Hnone. fold task_id in Hprev.
    rewrite Hc in Hprev. unfold cached, Py.get, res_bind in Hprev.
    rewrite Hentry, Hnone in Hprev.
    injection Hprev as <-. simpl in Hpnum. congruence.
Qed.

Lemma delta_reported_cache_overwritten_witness :
  let w := with_cache (JObj [("t1", JObj [("d1", JInt 100)])]) fresh in
  let task := [("id", JStr "t1"); ("projectId", JStr "p1");
               ("timeSpentOnDay", JObj [("d1", JInt 150)])] in
  exists cache',
    cached cache' "t1" "d1" = Ok (JInt 150) /\
    @send_task example_platform "project" (JStr "Work") "d1" 1000 (60 # 1)
               (JObj task) w
    = (Ok tt,
       mk_world 0 0 cache' NoFile
                [mk_Event 1000 (60 # 1)
                          (mk_event_data "project" (JStr "Work")
                                         (JStr "Unnamed Task"))]
                [InfoSent "project" (JStr "Work") (JStr "Unnamed Task") "d1"
                          (150 - 100) 1000 (60 # 1)]).
Proof.
  intros w task.
  exact (proj1 (@delta_reported_cache_overwritten example_platform
                  "project" (JStr "Work") "d1" 1000 (60 # 1) task
                  [("d1", JInt 150)] (JInt 150) (JInt 100) 150 100 w
                  eq_refl eq_refl eq_refl eq_refl eq_refl)).
Defined.

(** The difference does not filter: with a cached value above the current
    one the event is emitted all the same, and the entry goes down to the
    current value. *)
Example negative_delta_is_emitted :
  @send_task example_platform "project" (JStr "Work") "d1" 1000 (60 # 1)
             (JObj [("id", JStr "t1"); ("projectId", JStr "p1");
                    ("timeSpentOnDay", JObj [("d1", JInt 150)])])
             (with_cache (JObj [("t1", JObj [("d1", JInt 400)])]) fresh)
  = (Ok tt,
     mk_world 0 0 (JObj [("t1", JObj [("d1", JInt 150)])]) NoFile
              [mk_Event 1000 (60 # 1)
                        (mk_event_data "project" (JStr "Work")
                                       (JStr "Unnamed Task"))]
              [InfoSent "project" (JStr "Work") (JStr "Unnamed Task") "d1"
                        (-250) 1000 (60 # 1)]).
Proof. reflexivity. Qed.

(** ** Snapshots and caches of the documented shape *)

Lemma lookup_forallb (f : json -> bool) (kvs : list (string * json))
      (k : string) (v : json) :
  forallb (fun kv => f (snd kv)) kvs = true ->
  Py.lookup kvs k = Some v -> f v = true.
Proof.
  induction kvs as [|[k' v'] rest IH]; simpl; [discriminate|].
  intros H Hl. apply andb_prop in H as [Hv Hrest].
  destruct (String.eqb k' k); [congruence | auto].
Qed.

Lemma assign_forallb (f : json -> bool) (kvs : list (string * json))
      (k : string) (v : json) :
  forallb (fun kv => f (snd kv)) kvs = true -> f v = true ->
  forallb (fun kv => f (snd kv)) (Py.assign kvs k v) = true.
Proof.
  intros H Hv. induction kvs as [|[k' v'] rest IH]; simpl in *.
  - now rewrite Hv.
  - apply andb_prop in H as [Hv' Hrest].
    destruct (String.eqb k' k); simpl.
    + now rewrite Hv, Hrest.
    + now rewrite Hv', IH.
Qed.

Lemma is_number_num (v : json) : is_number v = true -> exists z, Py.num v = Ok z.
Proof.
  destruct v; try discriminate; simpl; eauto.
Qed.

(** Line 137 on a cache of the documented shape gives a number. *)
Lemma cached_ok (cache : json) (task_id day : string) :
  cache_ok cache = true ->
  exists previous, cached cache task_id day = Ok previous /\
                   is_number previous = true.
Proof.
  destruct cache as [| | | | |c]; try discriminate. simpl. intros Hc.
  unfold cached, Py.get, res_bind.
  destruct (Py.lookup c task_id) as [entry|] eqn:Hentry.
  - pose proof (lookup_forallb _ _ _ _ Hc Hentry) as He.
    destruct entry as [| | | | |e]; try discriminate. simpl in He.
    destruct (Py.lookup e day) as [v|] eqn:Hv.
    + exists v. split; [reflexivity|]. exact (lookup_forallb _ _ _ _ He Hv).
    + exists (JInt 0). split; reflexivity.
  - exists (JInt 0). split; reflexivity.
Qed.

(** Lines 140-142 keep the shape of the cache. *)
Lemma cache_store_ok (cache cache' : json) (task_id day : string) (v : json) :
  cache_ok cache = true -> is_number v = true ->
  cache_store cache task_id day v = Ok cache' ->
  cache_ok cache' = true.
Proof.
  destruct cache as [| | | | |c]; try discriminate. simpl. intros Hc Hv.
  unfold cache_store, Py.contains, res_bind.
  destruct (Py.lookup c task_id) as [entry|] eqn:Hentry.
  - simpl. rewrite Hentry.
    pose proof (lookup_forallb _ _ _ _ Hc Hentry) as He.
    destruct entry as [| | | | |e]; try discriminate. simpl in *.
    intros H. injection H as <-. simpl.
    apply assign_forallb; [exact Hc|]. simpl.
    now apply assign_forallb.
  - simpl. rewrite lookup_assign_same. simpl.
    intros H. injection H as <-. simpl.
    apply assign_forallb; [|simpl; now rewrite Hv].
    now apply assign_forallb.
Qed.


Lemma datetime_range_divides (s : Z) :
  Py.datetime_min_ms <= s <= Py.datetime_max_ms ->
  Py.fromtimestamp_utc s = Ok s.
Proof.
  intros [Hlo Hhi]. unfold Py.fromtimestamp_utc, Py.div1000, res_bind.
  assert (Hb : 253402300799999 < 1000 * Py.float_overflow_bound)
    by (vm_compute; reflexivity).
  unfold Py.datetime_min_ms, Py.datetime_max_ms in *.
  assert (Habs : (Z.abs s <? 1000 * Py.float_overflow_bound) = true)
    by (apply Z.ltb_lt; lia).
  rewrite Habs.
  apply Z.leb_le in Hlo, Hhi.
  unfold Py.datetime_min_ms, Py.datetime_max_ms. now rewrite Hlo, Hhi.
Qed.

Section WellFormed.

Context {platform : Platform}.
Hypothesis sink_up : forall b ev, sink_accepts b ev = true.
Hypothesis stdout_up :
  forall source_name project_name title day,
    stdout_encodes source_name project_name title day = true.


End WellFormed.








(** ** Further worked examples *)

(** A start that is not a number raises in the middle of the walk: the
    event of the session before it has been sent, the cache in memory
    holds its update, the cache file has not been written. *)
Example type_error_in_mid_walk :
  @diff_pass example_platform broken_snapshot fresh
  = (Err TypeError,
     mk_world 50000 1000 (JObj [("t1", JObj [("day1", JInt 60)])]) NoFile
              [mk_Event 1000 (49000 # 1000)
                        (mk_event_data "project" (JStr "Work") (JStr "Report"))]
              [InfoSent "project" (JStr "Work") (JStr "Report") "day1" 60 1000
                        (49000 # 1000)]).
Proof. reflexivity. Qed.

(** Two passes of a run: the second snapshot repeats the session of the
    first and adds one; only the added one is emitted. *)
Example second_pass_emits_new_session_only :
  let first := snapshot_with 1000 [("day1", session (JInt 1000) (JInt 50000))] in
  let second := snapshot_with 2000 [("day1", session (JInt 1000) (JInt 50000));
                                    ("day2", session (JInt 60000) (JInt 90000))] in
  let w1 := snd (@diff_pass example_platform first fresh) in
  last_session_end_ms w1 = 50000 /\
  emitted (@diff_pass example_platform second) w1
  = [mk_Event 60000 (30000 # 1000)
              (mk_event_data "project" (JStr "Work") (JStr "Report"))].
Proof. split; reflexivity. Qed.

(** * Beyond the claims: the loop driver *)

(** ** Resolving the backup file *)

Lemma max_scan_split (rest pre post : list (string * node))
      (best r : string * node) (bt : Z) :
  node_stat (snd best) = Mtime bt ->
  forallb (older_than bt) pre = true ->
  forallb (not_newer_than bt) post = true ->
  max_scan best bt rest = inr r ->
  exists before after t,
    pre ++ best :: post ++ rest = before ++ r :: after /\
    node_stat (snd r) = Mtime t /\
    forallb (older_than t) before = true /\
    forallb (not_newer_than t) after = true.
Proof.
  revert pre post best bt.
  induction rest as [|item rest' IH]; intros pre post best bt Hbest Hpre Hpost H;
    simpl in H.
  - injection H as <-. exists pre, post, bt.
    rewrite app_nil_r. auto.
  - destruct (node_stat (snd item)) as [t|e] eqn:Hitem; [|discriminate].
    destruct (Z.ltb_spec bt t) as [Hlt|Hge].
    + destruct (IH (pre ++ best :: post) [] item t Hitem) as
        (before & after & t' & Hsplit & Hr & Hb & Ha); [| reflexivity | exact H |].
      * rewrite forallb_app. simpl.
        assert (Hold : forall l, forallb (not_newer_than bt) l = true ->
                                 forallb (older_than t) l = true).
        { intros l Hl. apply forallb_forall. intros x Hx.
          apply (proj1 (forallb_forall _ _) Hl) in Hx.
          unfold not_newer_than, older_than in *.
          destruct (node_stat (snd x)); [|discriminate].
          apply Z.leb_le in Hx. apply Z.ltb_lt. lia. }
        assert (Hold' : forallb (older_than t) pre = true).
        { apply forallb_forall. intros x Hx.
          apply (proj1 (forallb_forall _ _) Hpre) in Hx.
          unfold older_than in *.
          destruct (node_stat (snd x)); [|discriminate].
          apply Z.ltb_lt in Hx. apply Z.ltb_lt. lia. }
        rewrite Hold', (Hold post Hpost). unfold older_than. rewrite Hbest.
        apply Z.ltb_lt in Hlt. now rewrite Hlt.
      * exists before, after, t'. split; [|auto].
        rewrite <- Hsplit. simpl. now rewrite <- !app_assoc.
    + destruct (IH pre (post ++ [item]) best bt Hbest Hpre) as
        (before & after & t' & Hsplit & Hr & Hb & Ha); [| exact H |].
      * rewrite forallb_app, Hpost. simpl.
        unfold not_newer_than. rewrite Hitem.
        apply Z.leb_le in Hge. now rewrite Hge.
      * exists before, after, t'. split; [|auto].
        rewrite <- Hsplit. now rewrite <- !app_assoc.
Qed.

(** X1.  When [resolve_backup_file_path()] returns for a directory, the
    path it returns is [os.path.join] of the directory and a listed name
    that ends in ".json" or is "__meta_"; among the candidates, in
    listing order, every one before it is strictly older and every one
    after it is not newer, so it is the first of the most recently
    modified ones; and the path is printed. *)
Theorem resolve_picks_first_latest :
  forall (BACKUP_FILE : string) (listing : list (string * node))
         (st st' : loop_state) (latest_file : string) (n : node),
    resolve_backup_file_path BACKUP_FILE (Directory listing) st
    = (inr (latest_file, n), st') ->
    exists before after f t,
      json_files BACKUP_FILE listing = before ++ (latest_file, n) :: after /\
      In (f, n) listing /\
      is_candidate f = true /\
      latest_file = Os.path_join BACKUP_FILE f /\
      node_stat n = Mtime t /\
      forallb (older_than t) before = true /\
      forallb (not_newer_than t) after = true /\
      st' = say (InfoResolved latest_file) st.
Proof.
  intros BACKUP_FILE listing st st' latest_file n H.
  unfold resolve_backup_file_path in H.
  destruct (json_files BACKUP_FILE listing) as [|first rest] eqn:Hfiles;
    [discriminate|].
  destruct (max_by_mtime first rest) as [e|r] eqn:Hmax; [discriminate|].
  injection H as -> <-.
  unfold max_by_mtime in Hmax.
  destruct (node_stat (snd first)) as [t0|e] eqn:Hfirst; [|discriminate].
  destruct (max_scan_split rest [] [] first (latest_file, n) t0 Hfirst
                           eq_refl eq_refl Hmax)
    as (before & after & t & Hsplit & Hr & Hb & Ha).
  simpl in Hsplit, Hr.
  assert (Hin : In (latest_file, n) (json_files BACKUP_FILE listing)).
  { rewrite Hfiles, Hsplit. apply in_or_app. right. now left. }
  unfold json_files in Hin. apply in_map_iff in Hin as ([f n'] & Heq & Hin).
  simpl in Heq. injection Heq as Hp ->.
  apply filter_In in Hin as [Hin Hcand]. simpl in Hcand.
  exists before, after, f, t. rewrite Hsplit. auto 10.
Qed.

Lemma resolve_picks_first_latest_witness :
  exists before after f t,
    json_files "/backups"
               [("notes.txt", mk_node (Mtime 900) []);
                ("a.json", mk_node (Mtime 100) []);
                ("__meta_", mk_node (Mtime 300) [Some "pf_backup {}"]);
                ("b.json", mk_node (Mtime 300) [])]
    = before ++ ("/backups/__meta_",
                 mk_node (Mtime 300) [Some "pf_backup {}"]) :: after /\
    In (f, mk_node (Mtime 300) [Some "pf_backup {}"])
       [("notes.txt", mk_node (Mtime 900) []);
        ("a.json", mk_node (Mtime 100) []);
        ("__meta_", mk_node (Mtime 300) [Some "pf_backup {}"]);
        ("b.json", mk_node (Mtime 300) [])] /\
    is_candidate f = true /\
    "/backups/__meta_" = Os.path_join "/backups" f /\
    node_stat (mk_node (Mtime 300) [Some "pf_backup {}"]) = Mtime t /\
    forallb (older_than t) before = true /\
    forallb (not_newer_than t) after = true /\
    say (InfoResolved "/backups/__meta_") (mk_loop_state 0 [] fresh)
    = say (InfoResolved "/backups/__meta_") (mk_loop_state 0 [] fresh).
Proof.
  apply (resolve_picks_first_latest
           "/backups"
           [("notes.txt", mk_node (Mtime 900) []);
            ("a.json", mk_node (Mtime 100) []);
            ("__meta_", mk_node (Mtime 300) [Some "pf_backup {}"]);
            ("b.json", mk_node (Mtime 300) [])]
           (mk_loop_state 0 [] fresh)).
  reflexivity.
Defined.




(** ** One turn of the loop *)

(** Resolving only prints: it gives the same result from every state
    and leaves [last_mtime] and the globals alone. *)
Lemma resolve_frame (BACKUP_FILE : string) (loc : location) (st : loop_state) :
  last_mtime (snd (resolve_backup_file_path BACKUP_FILE loc st)) = last_mtime st /\
  globals (snd (resolve_backup_file_path BACKUP_FILE loc st)) = globals st /\
  forall st2,
    fst (resolve_backup_file_path BACKUP_FILE loc st2)
    = fst (resolve_backup_file_path BACKUP_FILE loc st).
Proof.
  unfold resolve_backup_file_path.
  destruct loc as [listing|e|n]; simpl; auto.
  destruct (json_files BACKUP_FILE listing) as [|first rest]; simpl; auto.
  destruct (max_by_mtime first rest); simpl; auto.
Qed.

(** A turn that finds a file with a modification time: the pass is run
    when [last_mtime] is zero or differs from it, and [last_mtime] takes
    it when the pass has returned. *)
Lemma watcher_iteration_found {platform : Platform}
      (BACKUP_FILE : string) (loc : location) (st : loop_state)
      (path : string) (n : node) (t : Z) :
  fst (resolve_backup_file_path BACKUP_FILE loc st) = inr (path, n) ->
  node_stat n = Mtime t ->
  let st' := watcher_iteration BACKUP_FILE loc st in
  let out := parse_backup_and_send (node_content n) (globals st) in
  if (last_mtime st =? 0) || negb (t =? last_mtime st)
  then globals st' = snd out /\
       last_mtime st' = match fst out with
                        | Ok _ => t
                        | Err _ => last_mtime st
                        end
  else globals st' = globals st /\ last_mtime st' = last_mtime st.
Proof.
  intros Hres Hstat st' out. subst st' out.
  unfold watcher_iteration, watcher_try.
  destruct (resolve_frame BACKUP_FILE loc st) as (Hm & Hg & Hsame).
  destruct (resolve_backup_file_path BACKUP_FILE loc st) as [r st1] eqn:Hr.
  simpl in Hres, Hm, Hg. subst r. simpl snd. rewrite Hstat, Hm.
  destruct ((last_mtime st =? 0) || negb (t =? last_mtime st)).
  - unfold resolve_parse_and_send.
    destruct (resolve_frame BACKUP_FILE loc (say InfoDetected st1))
      as (Hm2 & Hg2 & _).
    pose proof (Hsame (say InfoDetected st1)) as Hfst. simpl in Hfst.
    destruct (resolve_backup_file_path BACKUP_FILE loc (say InfoDetected st1))
      as [r2 st2].
    simpl in Hfst, Hm2, Hg2. subst r2. simpl snd.
    rewrite Hg2, Hg.
    destruct (parse_backup_and_send (node_content n) (globals st)) as [[[]|e] w];
      simpl; split; try reflexivity.
    rewrite Hm2. exact Hm.
  - simpl. split; assumption.
Qed.

(** Whatever a turn finds, the globals after it are the globals before
    it, or what one pass over some file has made of them. *)
Lemma watcher_iteration_globals {platform : Platform}
      (BACKUP_FILE : string) (loc : location) (st : loop_state) :
  globals (watcher_iteration BACKUP_FILE loc st) = globals st \/
  exists f, globals (watcher_iteration BACKUP_FILE loc st)
            = snd (parse_backup_and_send f (globals st)).
Proof.
  destruct (resolve_frame BACKUP_FILE loc st) as (_ & Hg & _).
  destruct (fst (resolve_backup_file_path BACKUP_FILE loc st))
    as [r|[path n]] eqn:Hres.
  - left. unfold watcher_iteration, watcher_try.
    destruct (resolve_backup_file_path BACKUP_FILE loc st) as [r' st1].
    simpl in Hres, Hg. subst r'. destruct r as [[|]|e]; exact Hg.
  - destruct (node_stat n) as [t|e] eqn:Hstat.
    + pose proof (watcher_iteration_found BACKUP_FILE loc st path n t Hres Hstat)
        as H. simpl in H.
      destruct ((last_mtime st =? 0) || negb (t =? last_mtime st)).
      * right. exists (node_content n). apply H.
      * left. apply H.
    + left. unfold watcher_iteration, watcher_try.
      destruct (resolve_backup_file_path BACKUP_FILE loc st) as [r' st1].
      simpl in Hres, Hg. subst r'. simpl. rewrite Hstat.
      destruct e; exact Hg.
Qed.

(** A pass that raises has not written the cache file. *)
Lemma parse_backup_and_send_raised {platform : Platform}
      (f : backup_file) (w w1 : world) (e : exn) :
  parse_backup_and_send f w = (Err e, w1) -> cache_file w1 = cache_file w.
Proof.
  unfold parse_backup_and_send, print, modify.
  destruct (read_backup f) as [json_data| |]; try discriminate.
  rewrite diff_pass_unfold.
  destruct (Py.get json_data "lastUpdate" (JInt 0)) as [v|]; [|congruence].
  destruct (Py.num v) as [lu|]; [|congruence].
  destruct (lu <=? last_update_timestamp w); [congruence|].
  intros H.
  destruct (walk_effect json_data (with_last_update_timestamp lu w))
    as (_ & _ & _ & Hf).
  rewrite H in Hf. simpl in Hf. apply (Hf e eq_refl).
Qed.

(** X3.  A turn of the loop that finds a file runs the pass exactly when
    [last_mtime] is zero or differs from the file's modification time:
    then the globals are what the pass leaves, and [last_mtime] takes
    the file's time only if the pass has returned.  A file whose time
    is the one seen last, and not zero, starts no pass: globals and
    [last_mtime] stay. *)
Theorem pass_runs_when_mtime_differs {platform : Platform} :
  forall (BACKUP_FILE : string) (loc : location) (st : loop_state)
         (path : string) (n : node) (t : Z),
    fst (resolve_backup_file_path BACKUP_FILE loc st) = inr (path, n) ->
    node_stat n = Mtime t ->
    let st' := watcher_iteration BACKUP_FILE loc st in
    let out := parse_backup_and_send (node_content n) (globals st) in
    (last_mtime st = 0 \/ t <> last_mtime st ->
     globals st' = snd out /\
     (fst out = Ok tt -> last_mtime st' = t) /\
     (forall e, fst out = Err e -> last_mtime st' = last_mtime st)) /\
    (last_mtime st <> 0 -> t = last_mtime st ->
     globals st' = globals st /\ last_mtime st' = last_mtime st).
Proof.
  intros BACKUP_FILE loc st path n t Hres Hstat st' out.
  pose proof (watcher_iteration_found BACKUP_FILE loc st path n t Hres Hstat)
    as H. simpl in H. fold st' out in H.
  split.
  - intros Htrigger.
    assert (Hb : (last_mtime st =? 0) || negb (t =? last_mtime st) = true).
    { destruct Htrigger as [H0 | Hne].
      - rewrite H0. reflexivity.
      - apply Z.eqb_neq in Hne. rewrite Hne. apply orb_true_r. }
    rewrite Hb in H. destruct H as [Hg Hm]. split; [exact Hg|]. split.
    + intros Hok. now rewrite Hok in Hm.
    + intros e He. now rewrite He in Hm.
  - intros Hnz Heq.
    assert (Hb : (last_mtime st =? 0) || negb (t =? last_mtime st) = false).
    { apply Z.eqb_neq in Hnz. rewrite Hnz. simpl.
      apply Z.eqb_eq in Heq. now rewrite Heq. }
    now rewrite Hb in H.
Qed.

Lemma pass_runs_when_mtime_differs_witness :
  let loc := Directory [("a.json", mk_node (Mtime 100) [Some "pf_backup {}"])] in
  let st := mk_loop_state 100 [] fresh in
  globals (@watcher_iteration example_platform "/backups" loc st) = fresh /\
  last_mtime (@watcher_iteration example_platform "/backups" loc st) = 100.
Proof.
  intros loc st.
  apply (proj2 (@pass_runs_when_mtime_differs example_platform "/backups" loc st
                  "/backups/a.json"
                  (mk_node (Mtime 100) [Some "pf_backup {}"]) 100
                  eq_refl eq_refl)).
  - simpl. lia.
  - reflexivity.
Defined.

(** X4.  Once the pass over a file has returned -- also when it only
    reported that the file could not be read or held no record -- the
    file counts as seen: at the next turn over the same location, with
    a modification time that is not zero, no pass is run, and globals
    and [last_mtime] stay as the first turn left them. *)
Theorem returned_pass_is_not_repeated {platform : Platform} :
  forall (BACKUP_FILE : string) (loc : location) (st : loop_state)
         (path : string) (n : node) (t : Z),
    fst (resolve_backup_file_path BACKUP_FILE loc st) = inr (path, n) ->
    node_stat n = Mtime t ->
    t <> 0 ->
    fst (parse_backup_and_send (node_content n) (globals st)) = Ok tt ->
    let st1 := watcher_iteration BACKUP_FILE loc st in
    let st2 := watcher_iteration BACKUP_FILE loc st1 in
    last_mtime st1 = t /\
    globals st2 = globals st1 /\
    last_mtime st2 = t.
Proof.
  intros BACKUP_FILE loc st path n t Hres Hstat Hnz Hok st1 st2.
  assert (Hm1 : last_mtime st1 = t).
  { pose proof (watcher_iteration_found BACKUP_FILE loc st path n t Hres Hstat)
      as H. simpl in H. fold st1 in H.
    destruct ((last_mtime st =? 0) || negb (t =? last_mtime st)) eqn:Hb.
    - destruct H as [_ Hm]. now rewrite Hok in Hm.
    - destruct H as [_ Hm]. rewrite Hm.
      apply orb_false_elim in Hb as [_ Hb].
      apply negb_false_iff, Z.eqb_eq in Hb. now symmetry. }
  assert (Hres1 : fst (resolve_backup_file_path BACKUP_FILE loc st1)
                  = inr (path, n)).
  { destruct (resolve_frame BACKUP_FILE loc st) as (_ & _ & Hsame).
    now rewrite Hsame. }
  pose proof (watcher_iteration_found BACKUP_FILE loc st1 path n t Hres1 Hstat)
    as H. simpl in H. fold st2 in H.
  assert (Hb : (last_mtime st1 =? 0) || negb (t =? last_mtime st1) = false).
  { rewrite Hm1. apply Z.eqb_neq in Hnz. rewrite Hnz. simpl.
    now rewrite Z.eqb_refl. }
  rewrite Hb in H. destruct H as [Hg Hm].
  split; [exact Hm1|]. split; [exact Hg | congruence].
Qed.

Lemma returned_pass_is_not_repeated_witness :
  let loc := NotDirectory (mk_node (Mtime 100) [Some "not a backup"]) in
  let st := mk_loop_state 0 [] fresh in
  let st1 := @watcher_iteration example_platform "/tmp/backup.json" loc st in
  let st2 := @watcher_iteration example_platform "/tmp/backup.json" loc st1 in
  last_mtime st1 = 100 /\ globals st2 = globals st1 /\ last_mtime st2 = 100.
Proof.
  intros loc st.
  apply (@returned_pass_is_not_repeated example_platform "/tmp/backup.json"
           loc st "/tmp/backup.json"
           (mk_node (Mtime 100) [Some "not a backup"]) 100).
  - reflexivity.
  - reflexivity.
  - lia.
  - reflexivity.
Defined.

(** X5.  When the pass of a turn raises, the loop prints the error and
    leaves [last_mtime] as it was, so the next turn over the same
    location runs the pass again; that second pass adds no event to the
    bucket, and the cache file is still the one from before the failed
    pass. *)
Theorem raised_pass_is_run_again {platform : Platform} :
  forall (BACKUP_FILE : string) (loc : location) (st : loop_state)
         (path : string) (n : node) (t : Z) (e : exn) (w1 : world),
    fst (resolve_backup_file_path BACKUP_FILE loc st) = inr (path, n) ->
    node_stat n = Mtime t ->
    last_mtime st = 0 \/ t <> last_mtime st ->
    parse_backup_and_send (node_content n) (globals st) = (Err e, w1) ->
    let st1 := watcher_iteration BACKUP_FILE loc st in
    let st2 := watcher_iteration BACKUP_FILE loc st1 in
    globals st1 = w1 /\
    last_mtime st1 = last_mtime st /\
    globals st2 = snd (parse_backup_and_send (node_content n) w1) /\
    bucket (globals st2) = bucket w1 /\
    cache_file (globals st2) = cache_file (globals st).
Proof.
  intros BACKUP_FILE loc st path n t e w1 Hres Hstat Htrigger Hraise st1 st2.
  assert (Hb : forall m, m = 0 \/ t <> m ->
                         (m =? 0) || negb (t =? m) = true).
  { intros m [H0 | Hne].
    - rewrite H0. reflexivity.
    - apply Z.eqb_neq in Hne. rewrite Hne. apply orb_true_r. }
  pose proof (watcher_iteration_found BACKUP_FILE loc st path n t Hres Hstat)
    as H. simpl in H. fold st1 in H.
  rewrite (Hb _ Htrigger), Hraise in H. simpl in H. destruct H as [Hg1 Hm1].
  assert (Hres1 : fst (resolve_backup_file_path BACKUP_FILE loc st1)
                  = inr (path, n)).
  { destruct (resolve_frame BACKUP_FILE loc st) as (_ & _ & Hsame).
    now rewrite Hsame. }
  pose proof (watcher_iteration_found BACKUP_FILE loc st1 path n t Hres1 Hstat)
    as H. simpl in H. fold st2 in H.
  rewrite Hm1, (Hb _ Htrigger), Hg1 in H. destruct H as [Hg2 _].
  destruct (parse_backup_and_send_again (node_content n) (globals st))
    as (Hnone & _ & Hdisk & _).
  rewrite Hraise in Hnone, Hdisk. simpl in Hnone, Hdisk.
  split; [exact Hg1|]. split; [exact Hm1|]. split; [exact Hg2|]. split.
  - rewrite Hg2. unfold emitted in Hnone.
    pose proof (parse_backup_and_send_step (node_content n) w1)
      as (_ & _ & evs & Hbk & _).
    rewrite Hbk in Hnone |- *.
    rewrite skipn_app, skipn_all, Nat.sub_diag in Hnone. simpl in Hnone.
    now rewrite Hnone, app_nil_r.
  - rewrite Hg2, Hdisk.
    exact (parse_backup_and_send_raised _ _ _ _ Hraise).
Qed.

Lemma raised_pass_is_run_again_witness :
  let loc := NotDirectory (mk_node (Mtime 100) [Some "pf_backup {...}"]) in
  let st := mk_loop_state 0 [] fresh in
  let st1 := @watcher_iteration (replay_platform broken_snapshot)
                                "/tmp/backup.json" loc st in
  let st2 := @watcher_iteration (replay_platform broken_snapshot)
                                "/tmp/backup.json" loc st1 in
  last_mtime st1 = 0 /\
  bucket (globals st2) = bucket (globals st1) /\
  cache_file (globals st2) = NoFile.
Proof.
  intros loc st st1 st2.
  destruct (@raised_pass_is_run_again (replay_platform broken_snapshot)
              "/tmp/backup.json" loc st
              "/tmp/backup.json" (mk_node (Mtime 100) [Some "pf_backup {...}"])
              100 TypeError
              (snd (@parse_backup_and_send (replay_platform broken_snapshot)
                      [Some "pf_backup {...}"] fresh))
              eq_refl eq_refl (or_introl eq_refl) eq_refl)
    as (Hg & Hm & _ & Hb & Hf).
  fold st1 st2 in Hg, Hm, Hb, Hf.
  split; [exact Hm|]. split; [now rewrite Hg | exact Hf].
Defined.

(** X6.  Whatever the turns of the loop find -- files that resolve or
    not, passes that return or raise -- the driver never removes or
    reorders an event of the bucket and never lowers a mark: after any
    number of turns the bucket is the one before with events appended,
    each of them ending after the session mark the loop started from. *)
Theorem loop_only_appends_events {platform : Platform} :
  forall (BACKUP_FILE : string) (observations : list location)
         (st : loop_state),
    let w := globals st in
    let w' := globals (watcher_loop BACKUP_FILE observations st) in
    last_update_timestamp w <= last_update_timestamp w' /\
    last_session_end_ms w <= last_session_end_ms w' /\
    exists evs,
      bucket w' = bucket w ++ evs /\
      Forall (fun ev => (inject_Z (last_session_end_ms w) < event_end ev)%Q) evs.
Proof.
  intros BACKUP_FILE observations st. unfold watcher_loop.
  change (pass_step (globals (say InfoStarting st))
            (globals (fold_left
                        (fun st loc => watcher_iteration BACKUP_FILE loc st)
                        observations (say InfoStarting st)))).
  generalize (say InfoStarting st). clear st.
  induction observations as [|loc rest IH]; intros st; simpl.
  - apply pass_step_refl.
  - eapply pass_step_trans; [|apply IH].
    destruct (watcher_iteration_globals BACKUP_FILE loc st) as [-> | [f ->]].
    + apply pass_step_refl.
    + apply parse_backup_and_send_step.
Qed.

(** * Beyond the claims: the events of a pass *)

Lemma emits_refl (Q : Event -> Prop) (w : world) : emits Q w w.
Proof.
  exists []. split; [now rewrite app_nil_r | constructor].
Qed.

Lemma emits_trans (Q : Event -> Prop) (a b c : world) :
  emits Q a b -> emits Q b c -> emits Q a c.
Proof.
  intros (evs1 & Hb1 & He1) (evs2 & Hb2 & He2).
  exists (evs1 ++ evs2). split.
  - rewrite Hb2, Hb1. now rewrite app_assoc.
  - apply Forall_app. now split.
Qed.

Lemma emits_weaken (Q Q' : Event -> Prop) (w w' : world) :
  (forall ev, Q ev -> Q' ev) -> emits Q w w' -> emits Q' w w'.
Proof.
  intros H (evs & Hb & He). exists evs. split; [exact Hb|].
  eapply Forall_impl; [exact H | exact He].
Qed.

Lemma get_title (task v : json) :
  Py.get task "title" (JStr "Unnamed Task") = Ok v -> v = task_title task.
Proof.
  unfold Py.get, task_title. destruct task; try discriminate. simpl.
  destruct (Py.lookup kvs "title"); congruence.
Qed.

Lemma filter_res_In {A} (p : A -> res bool) (l l' : list A) (x : A) :
  filter_res p l = Ok l' -> In x l' -> In x l /\ p x = Ok true.
Proof.
  revert l'. induction l as [|y rest IH]; intros l' H Hin; simpl in H.
  - injection H as <-. contradiction.
  - unfold res_bind in H.
    destruct (p y) as [b|] eqn:Hy; [|discriminate].
    destruct (filter_res p rest) as [ys|]; [|discriminate].
    injection H as <-. destruct b.
    + destruct Hin as [<- | Hin].
      * split; [now left | exact Hy].
      * destruct (IH ys eq_refl Hin). split; [now right | assumption].
    + destruct (IH ys eq_refl Hin). split; [now right | assumption].
Qed.

Section Provenance.

Context {platform : Platform}.

Lemma send_task_emits (source_name : string) (project_name : json)
      (day : string) (t : Z) (d : Q) (task : json) :
  preserves (emits (fun ev => ev = session_event source_name project_name
                                                 t d task))
            (send_task source_name project_name day t d task).
Proof.
  intros w. unfold send_task, bind, lift, gets, modify, insert_event, print_sent, print.
  repeat break_match; simpl;
    first [ solve [exists []; split;
                   [simpl; now rewrite app_nil_r | constructor]]
          | exists [session_event source_name project_name t d task];
            split; [|repeat constructor];
            unfold session_event;
            match goal with H : Py.get task "title" _ = Ok _ |- _ =>
              apply get_title in H; subst end;
            reflexivity ].
Qed.

Lemma handle_session_emits (tasks : json) (source_name project_id : string)
      (project_name : json) (day : string) (session : json) :
  preserves (emits (event_of_session_task tasks source_name project_id
                                          project_name day session))
            (handle_session tasks source_name project_id project_name day
                            session).
Proof.
  intros w. unfold handle_session.
  unfold bind at 1, lift at 1.
  destruct (Py.get session "s" JNull) as [start_ms|] eqn:Hs; [|apply emits_refl].
  unfold bind at 1, lift at 1.
  destruct (Py.get session "e" JNull) as [end_ms|] eqn:He; [|apply emits_refl].
  unfold bind at 1, gets at 1.
  unfold bind at 1, lift at 1.
  destruct (session_is_new start_ms end_ms (last_session_end_ms w))
    as [[|]|] eqn:Hnew; try apply emits_refl.
  apply session_is_new_true in Hnew as (Hts & Hte & e & Hnum & Hlt).
  unfold bind at 1, lift at 1.
  destruct (Py.num start_ms) as [s|] eqn:Hsnum; [|apply emits_refl].
  unfold bind at 1, lift at 1.
  destruct (Py.fromtimestamp_utc s) as [t|] eqn:Ht; [|apply emits_refl].
  apply fromtimestamp_utc_value in Ht; subst t.
  unfold bind at 1, lift at 1. rewrite Hnum.
  unfold bind at 1, lift at 1.
  destruct (Py.div1000 (e - s)) as [d|] eqn:Hd; [|apply emits_refl].
  apply div1000_value in Hd; subst d.
  unfold bind at 1, lift at 1.
  destruct (associated_tasks tasks project_id day) as [associated|] eqn:Hassoc;
    [|apply emits_refl].
  unfold bind at 1.
  assert (Hloop : emits (event_of_session_task tasks source_name project_id
                                               project_name day session)
                        w (snd (for_each associated
                                         (send_task source_name project_name day
                                                    s ((e - s) # 1000)) w))).
  { apply (preserves_for_each _ (emits_refl _) (emits_trans _)).
    intros task Hin w0.
    eapply emits_weaken; [|apply send_task_emits].
    intros ev ->.
    unfold associated_tasks, res_bind in Hassoc.
    destruct (Py.values tasks) as [all_tasks|] eqn:Hvalues; [|discriminate].
    destruct (filter_res_In _ _ _ _ Hassoc Hin) as [Hall Hpred].
    destruct (Py.get task "projectId" JNull) as [p|] eqn:Hp; [|discriminate].
    simpl in Hpred.
    destruct (Py.eq_str p project_id) eqn:Heq; [|discriminate].
    destruct (Py.get task "timeSpentOnDay" (JObj [])) as [spent|] eqn:Hspent;
      [|discriminate].
    simpl in Hpred.
    exists start_ms, end_ms, s, e, all_tasks, task, p, spent.
    repeat split; assumption || reflexivity. }
  destruct (for_each associated _ w) as [[[]|ex] w1]; simpl in *.
  - unfold bind, gets, modify, ret.
    destruct (last_session_end_ms w1 <? e); exact Hloop.
  - exact Hloop.
Qed.

Lemma handle_entity_emits (tasks : json) (names : list (string * json))
      (source_name : string) (entry : string * json) :
  preserves (emits (fun ev =>
                      exists day session,
                        In (day, session) (items_of (snd entry)) /\
                        event_of_session_task
                          tasks source_name (fst entry)
                          (project_name_of names (fst entry)) day session ev))
            (handle_entity tasks names source_name entry).
Proof.
  destruct entry as [project_id days]. intros w. unfold handle_entity.
  unfold bind, lift.
  destruct (Py.items days) as [sessions|] eqn:Hitems; [|apply emits_refl].
  apply items_items_of in Hitems. subst sessions. simpl fst. simpl snd.
  apply (preserves_for_each _ (emits_refl _) (emits_trans _)).
  intros [day session] Hin w0.
  eapply emits_weaken; [|apply handle_session_emits].
  intros ev Hev. exists day, session. split; assumption.
Qed.

Lemma handle_source_emits (tasks : json) (names : list (string * json))
      (src : string * json) :
  preserves (emits (fun ev =>
                      exists project_id days day session,
                        In (project_id, days) (items_of (snd src)) /\
                        In (day, session) (items_of days) /\
                        event_of_session_task
                          tasks (fst src) project_id
                          (project_name_of names project_id) day session ev))
            (handle_source tasks names src).
Proof.
  destruct src as [source_name time_tracking]. intros w. unfold handle_source.
  unfold bind, lift.
  destruct (Py.items time_tracking) as [entities|] eqn:Hitems;
    [|apply emits_refl].
  apply items_items_of in Hitems. subst entities. simpl fst. simpl snd.
  apply (preserves_for_each _ (emits_refl _) (emits_trans _)).
  intros [project_id days] Hin w0.
  eapply emits_weaken; [|apply handle_entity_emits].
  intros ev (day & session & Hday & Hev).
  exists project_id, days, day, session. auto.
Qed.

Lemma walk_emits (json_data : json) (w : world) :
  emits (backed_by json_data) w (snd (walk json_data w)).
Proof.
  remember (walk json_data w) as result eqn:H.
  unfold walk in H.
  unfold bind at 1, lift at 1 in H.
  destruct (Py.get json_data "mainModelData" (JObj [])) as [mainData|] eqn:H1;
    [|subst; apply emits_refl].
  apply get_field in H1.
  unfold bind at 1, lift at 1 in H.
  destruct (Py.get mainData "task" (JObj [])) as [task|] eqn:H2;
    [|subst; apply emits_refl].
  apply get_field in H2.
  unfold bind at 1, lift at 1 in H.
  destruct (Py.get task "entities" (JObj [])) as [tasks|] eqn:H3;
    [|subst; apply emits_refl].
  apply get_field in H3.
  unfold bind at 1, lift at 1 in H.
  destruct (Py.get json_data "project" (JObj [])) as [project|] eqn:H4;
    [|subst; apply emits_refl].
  apply get_field in H4.
  unfold bind at 1, lift at 1 in H.
  destruct (Py.get project "entities" (JObj [])) as [projects|] eqn:H5;
    [|subst; apply emits_refl].
  apply get_field in H5.
  unfold bind at 1, lift at 1 in H.
  destruct (project_names projects) as [names|] eqn:Hnames;
    [|subst; apply emits_refl].
  unfold bind at 1, lift at 1 in H.
  destruct (Py.get mainData "timeTracking" (JObj [])) as [ttd|] eqn:H6;
    [|subst; apply emits_refl].
  apply get_field in H6.
  unfold bind at 1, lift at 1 in H.
  destruct (Py.get ttd "project" (JObj [])) as [by_project|] eqn:H7;
    [|subst; apply emits_refl].
  apply get_field in H7.
  unfold bind at 1, lift at 1 in H.
  destruct (Py.get ttd "tag" (JObj [])) as [by_tag|] eqn:H8;
    [|subst; apply emits_refl].
  apply get_field in H8.
  unfold bind at 1 in H.
  assert (Hloop : emits (backed_by json_data) w
                        (snd (for_each [("project", by_project); ("tag", by_tag)]
                                       (handle_source tasks names) w))).
  { apply (preserves_for_each _ (emits_refl _) (emits_trans _)).
    intros src Hin w0.
    eapply emits_weaken; [|apply handle_source_emits].
    intros ev (project_id & days & day & session & Hent & Hday & Hev).
    unfold backed_by.
    exists names, (fst src), (snd src), project_id, days, day, session.
    subst. destruct src as [source_name time_tracking]. simpl in *.
    repeat split; assumption. }
  destruct (for_each _ _ w) as [[[]|e] w1]; simpl in Hloop.
  - destruct Hloop as (evs & Hb & Hev).
    destruct (save_cache_effect w1) as (_ & _ & _ & _ & Hb').
    subst result. exists evs. split; [|exact Hev].
    now rewrite Hb', Hb.
  - subst result. exact Hloop.
Qed.

End Provenance.

(** X7.  A pass never emits an event that the snapshot does not back:
    whatever the snapshot and however the pass ends, each event it adds
    to the bucket is the event of a session record of the time-tracking
    table, under the "project" or the "tag" dimension, with a start and
    an end that are set and are numbers; its timestamp is that start,
    its duration is [(end - start) / 1000], its name is what the project
    table resolves the entity id to, and its title is that of a task of
    the snapshot whose [projectId] is the entity id and whose
    [timeSpentOnDay] holds the day of the record. *)
Theorem emitted_events_are_backed {platform : Platform} :
  forall (json_data : json) (w : world),
    Forall (backed_by json_data) (emitted (diff_pass json_data) w).
Proof.
  intros json_data w.
  assert (H : emits (backed_by json_data) w (snd (diff_pass json_data w))).
  { rewrite diff_pass_unfold.
    destruct (Py.get json_data "lastUpdate" (JInt 0)) as [v|];
      [|apply emits_refl].
    destruct (Py.num v) as [lu|]; [|apply emits_refl].
    destruct (lu <=? last_update_timestamp w).
    - exists []. split; [simpl; now rewrite app_nil_r | constructor].
    - apply (walk_emits json_data (with_last_update_timestamp lu w)). }
  destruct H as (evs & Hb & Hev).
  now rewrite (emitted_of_append _ _ _ Hb).
Qed.

(** * Beyond the claims: what every pass keeps *)

(** A relation that the handling of a task keeps, and that no assignment
    to a mark or to the cache file and no line other than [InfoSent]
    breaks, is kept by every statement of the pass. *)
Section Lifting.

Context {platform : Platform}.
Variable R : world -> world -> Prop.
Hypothesis R_refl : forall w, R w w.
Hypothesis R_trans : forall a b c, R a b -> R b c -> R a c.
Hypothesis R_send_task :
  forall source_name project_name day t d task,
    preserves R (send_task source_name project_name day t d task).
Hypothesis R_session_mark : forall e w, R w (with_last_session_end_ms e w).
Hypothesis R_update_mark : forall lu w, R w (with_last_update_timestamp lu w).
Hypothesis R_cache_file : forall f w, R w (with_cache_file f w).
Hypothesis R_print :
  forall l w, is_sent_line l = false -> R w (with_stdout (stdout w ++ [l]) w).

Lemma handle_session_keeps (tasks : json) (source_name project_id : string)
      (project_name : json) (day : string) (session : json) :
  preserves R (handle_session tasks source_name project_id project_name day
                              session).
Proof.
  intros w. unfold handle_session.
  unfold bind at 1, lift at 1.
  destruct (Py.get session "s" JNull) as [start_ms|]; [|apply R_refl].
  unfold bind at 1, lift at 1.
  destruct (Py.get session "e" JNull) as [end_ms|]; [|apply R_refl].
  unfold bind at 1, gets at 1.
  unfold bind at 1, lift at 1.
  destruct (session_is_new start_ms end_ms (last_session_end_ms w))
    as [[|]|]; try apply R_refl.
  unfold bind at 1, lift at 1.
  destruct (Py.num start_ms) as [s|]; [|apply R_refl].
  unfold bind at 1, lift at 1.
  destruct (Py.fromtimestamp_utc s) as [t|]; [|apply R_refl].
  unfold bind at 1, lift at 1.
  destruct (Py.num end_ms) as [e|]; [|apply R_refl].
  unfold bind at 1, lift at 1.
  destruct (Py.div1000 (e - s)) as [d|]; [|apply R_refl].
  unfold bind at 1, lift at 1.
  destruct (associated_tasks tasks project_id day) as [associated|];
    [|apply R_refl].
  unfold bind at 1.
  pose proof (preserves_for_each R R_refl R_trans associated
                (send_task source_name project_name day t d)
                (fun x _ => R_send_task _ _ _ _ _ x) w) as Hloop.
  destruct (for_each associated _ w) as [[[]|ex] w1]; simpl in Hloop.
  - unfold bind, gets, modify, ret.
    destruct (last_session_end_ms w1 <? e); simpl; eauto.
  - exact Hloop.
Qed.

Lemma handle_source_keeps (tasks : json) (names : list (string * json))
      (src : string * json) :
  preserves R (handle_source tasks names src).
Proof.
  destruct src as [source_name time_tracking]. unfold handle_source.
  apply (preserves_bind R R_trans); [apply preserves_lift, R_refl|].
  intros entities. apply (preserves_for_each R R_refl R_trans).
  intros [project_id days] _. unfold handle_entity.
  apply (preserves_bind R R_trans); [apply preserves_lift, R_refl|].
  intros sessions. apply (preserves_for_each R R_refl R_trans).
  intros [day session] _. apply handle_session_keeps.
Qed.

Lemma save_cache_keeps : preserves R save_cache.
Proof.
  intros w. unfold save_cache, bind, gets, modify, print, ret.
  destruct (dump_cache (cache_file w) (previous_time_spent_cache w))
    as [f' []].
  - apply R_cache_file.
  - apply (R_trans _ (with_cache_file f' w)); [apply R_cache_file|].
    apply (R_print WarnSaveCacheFailed (with_cache_file f' w)). reflexivity.
Qed.

Lemma walk_keeps (json_data : json) : preserves R (walk json_data).
Proof.
  unfold walk.
  repeat (apply (preserves_bind R R_trans);
          [apply preserves_lift, R_refl | intros ?]).
  apply (preserves_bind R R_trans).
  - apply (preserves_for_each R R_refl R_trans).
    intros src _. apply handle_source_keeps.
  - intros _. apply save_cache_keeps.
Qed.

Lemma parse_backup_and_send_keeps (f : backup_file) :
  preserves R (parse_backup_and_send f).
Proof.
  intros w. unfold parse_backup_and_send.
  destruct (read_backup f) as [json_data| |].
  - rewrite diff_pass_unfold.
    destruct (Py.get json_data "lastUpdate" (JInt 0)) as [v|]; [|apply R_refl].
    destruct (Py.num v) as [lu|]; [|apply R_refl].
    destruct (lu <=? last_update_timestamp w).
    + apply (R_print InfoNoNewUpdates). reflexivity.
    + eapply R_trans; [apply (R_update_mark lu)|]. apply walk_keeps.
  - apply (R_print ErrorNoValidJson). reflexivity.
  - apply (R_print ErrorReadFailed). reflexivity.
Qed.

End Lifting.

(** ** The log and the bucket *)

Lemma sent_events_app (l1 l2 : list log_line) :
  sent_events (l1 ++ l2) = sent_events l1 ++ sent_events l2.
Proof.
  unfold sent_events. apply flat_map_app.
Qed.

Lemma logged_together_refl (w : world) : logged_together w w.
Proof.
  exists [], []. now rewrite !app_nil_r.
Qed.

Lemma logged_together_trans (a b c : world) :
  logged_together a b -> logged_together b c -> logged_together a c.
Proof.
  intros (evs1 & l1 & Hb1 & Ho1 & Hs1) (evs2 & l2 & Hb2 & Ho2 & Hs2).
  exists (evs1 ++ evs2), (l1 ++ l2).
  rewrite Hb2, Hb1, Ho2, Ho1, sent_events_app, Hs1, Hs2.
  now rewrite !app_assoc.
Qed.

Lemma logged_together_frame (w w' : world) :
  bucket w' = bucket w -> stdout w' = stdout w -> logged_together w w'.
Proof.
  intros Hb Ho. exists [], []. now rewrite !app_nil_r.
Qed.

Lemma last_unlogged_after (a b c : world) :
  logged_together a b -> last_unlogged b c -> last_unlogged a c.
Proof.
  intros (evs & l1 & Hb1 & Ho1 & Hs1) (l2 & ev & Ho2 & Hb2).
  exists (l1 ++ l2), ev. subst evs.
  rewrite Ho2, Ho1, Hb2, Hb1, sent_events_app.
  now rewrite !app_assoc.
Qed.

(** *** Expressions do not raise [UnicodeEncodeError] *)

Lemma plain_ok {A} (a : A) : plain (Ok a).
Proof. discriminate. Qed.

Lemma plain_res_bind {A B} (r : res A) (k : A -> res B) :
  plain r -> (forall a, plain (k a)) -> plain (res_bind r k).
Proof.
  intros Hr Hk. destruct r as [a|e]; simpl; [apply Hk | ].
  intros H. apply Hr. now injection H as ->.
Qed.

Lemma plain_get (x : json) (k : string) (default : json) :
  plain (Py.get x k default).
Proof. unfold plain, Py.get. repeat break_match; discriminate. Qed.

Lemma plain_getitem (x : json) (k : string) : plain (Py.getitem x k).
Proof. unfold plain, Py.getitem. repeat break_match; discriminate. Qed.

Lemma plain_setitem (x : json) (k : string) (v : json) :
  plain (Py.setitem x k v).
Proof. unfold plain, Py.setitem. repeat break_match; discriminate. Qed.

Lemma plain_items (x : json) : plain (Py.items x).
Proof. unfold plain, Py.items. repeat break_match; discriminate. Qed.

Lemma plain_values (x : json) : plain (Py.values x).
Proof. unfold plain, Py.values. repeat break_match; discriminate. Qed.

Lemma plain_num (x : json) : plain (Py.num x).
Proof. unfold plain, Py.num. repeat break_match; discriminate. Qed.

Lemma plain_contains (s : string) (x : json) : plain (Py.contains s x).
Proof. unfold plain, Py.contains. destruct x; discriminate. Qed.

Lemma plain_div1000 (z : Z) : plain (Py.div1000 z).
Proof. unfold plain, Py.div1000. repeat break_match; discriminate. Qed.

Lemma plain_fromtimestamp_utc (ms : Z) : plain (Py.fromtimestamp_utc ms).
Proof.
  unfold Py.fromtimestamp_utc.
  apply plain_res_bind; [apply plain_div1000 | intros _].
  unfold plain. repeat break_match; discriminate.
Qed.

Lemma plain_map_res {A B} (f : A -> res B) (l : list A) :
  (forall x, plain (f x)) -> plain (map_res f l).
Proof.
  intros Hf. induction l as [|x rest IH]; simpl; [apply plain_ok|].
  apply plain_res_bind; [apply Hf | intros y].
  apply plain_res_bind; [exact IH | intros ys; apply plain_ok].
Qed.

Lemma plain_filter_res {A} (p : A -> res bool) (l : list A) :
  (forall x, plain (p x)) -> plain (filter_res p l).
Proof.
  intros Hp. induction l as [|x rest IH]; simpl; [apply plain_ok|].
  apply plain_res_bind; [apply Hp | intros b].
  apply plain_res_bind; [exact IH | intros ys; apply plain_ok].
Qed.

Lemma plain_project_names (projects : json) : plain (project_names projects).
Proof.
  unfold project_names.
  apply plain_res_bind; [apply plain_items | intros ps].
  apply plain_map_res. intros [p_id p_data].
  apply plain_res_bind; [apply plain_get | intros t; apply plain_ok].
Qed.

Lemma plain_associated_tasks (tasks : json) (project_id day : string) :
  plain (associated_tasks tasks project_id day).
Proof.
  unfold associated_tasks.
  apply plain_res_bind; [apply plain_values | intros ts].
  apply plain_filter_res. intros t.
  apply plain_res_bind; [apply plain_get | intros p].
  destruct (Py.eq_str p project_id); [|apply plain_ok].
  apply plain_res_bind; [apply plain_get | intros spent].
  apply plain_contains.
Qed.

Lemma plain_cached (cache : json) (task_id day : string) :
  plain (cached cache task_id day).
Proof.
  unfold cached.
  apply plain_res_bind; [apply plain_get | intros entry; apply plain_get].
Qed.

Lemma plain_cache_store (cache : json) (task_id day : string) (v : json) :
  plain (cache_store cache task_id day v).
Proof.
  unfold cache_store.
  apply plain_res_bind; [apply plain_contains | intros known].
  apply plain_res_bind.
  { destruct known; [apply plain_ok | apply plain_setitem]. }
  intros cache1.
  apply plain_res_bind; [apply plain_getitem | intros entry].
  apply plain_res_bind; [apply plain_setitem | intros entry'].
  apply plain_setitem.
Qed.

Lemma plain_session_is_new (start_ms end_ms : json) (last : Z) :
  plain (session_is_new start_ms end_ms last).
Proof.
  unfold session_is_new.
  destruct (Py.truthy start_ms); [|apply plain_ok].
  destruct (Py.truthy end_ms); [|apply plain_ok].
  apply plain_res_bind; [apply plain_num | intros e; apply plain_ok].
Qed.

(** *** Statements keep the log behind the bucket by one event at most *)

Lemma log_follows_ret {A} (a : A) : log_follows (ret a).
Proof. intros w. apply logged_together_refl. Qed.

Lemma log_follows_gets {A} (f : world -> A) : log_follows (gets f).
Proof. intros w. apply logged_together_refl. Qed.

Lemma log_follows_lift {A} (r : res A) : plain r -> log_follows (lift r).
Proof.
  intros Hr w. unfold lift. simpl.
  destruct r as [a|e]; [apply logged_together_refl|].
  destruct e; try apply logged_together_refl.
  now contradiction Hr.
Qed.

Lemma log_follows_modify (f : world -> world) :
  (forall w, bucket (f w) = bucket w) ->
  (forall w, stdout (f w) = stdout w) ->
  log_follows (modify f).
Proof.
  intros Hb Ho w. apply logged_together_frame; [apply Hb | apply Ho].
Qed.

Lemma log_follows_print (l : log_line) :
  is_sent_line l = false -> log_follows (print l).
Proof.
  intros Hl w. exists [], [l]. simpl. rewrite app_nil_r.
  repeat split. destruct l; try reflexivity; discriminate.
Qed.

Lemma log_follows_bind {A B} (m : M A) (k : A -> M B) :
  log_follows m -> (forall a, log_follows (k a)) -> log_follows (bind m k).
Proof.
  intros Hm Hk w. unfold bind. specialize (Hm w).
  destruct (m w) as [[a|e] w1]; simpl in Hm.
  - specialize (Hk a w1).
    destruct (k a w1) as [[b|e] w2]; simpl in *.
    + eapply logged_together_trans; eassumption.
    + destruct e; try (eapply logged_together_trans; eassumption).
      eapply last_unlogged_after; eassumption.
  - simpl. exact Hm.
Qed.

Lemma log_follows_for_each {A} (l : list A) (body : A -> M unit) :
  (forall x, log_follows (body x)) -> log_follows (for_each l body).
Proof.
  intros Hbody. induction l as [|x rest IH]; simpl.
  - apply log_follows_ret.
  - apply log_follows_bind; [apply Hbody | intros _; exact IH].
Qed.

(** Lines 150-153: the event is sent, then its line is printed. *)
Lemma send_and_print_log_follows {platform : Platform}
      (source_name : string) (project_name title : json) (day : string)
      (time_diff t : Z) (d : Q) :
  log_follows
    (bind (insert_event
             (mk_Event t d (mk_event_data source_name project_name title)))
          (fun _ => print_sent source_name project_name title day time_diff
                               t d)).
Proof.
  intros w. unfold bind, insert_event, print_sent, print, modify.
  destruct (sink_accepts _ _); [|apply logged_together_refl].
  destruct (stdout_encodes _ _ _ _); simpl.
  - exists [mk_Event t d (mk_event_data source_name project_name title)],
           [InfoSent source_name project_name title day time_diff t d].
    repeat split.
  - exists [], (mk_Event t d (mk_event_data source_name project_name title)).
    simpl. rewrite app_nil_r. split; reflexivity.
Qed.

Lemma send_task_log_follows {platform : Platform}
      (source_name : string) (project_name : json) (day : string)
      (t : Z) (d : Q) (task : json) :
  log_follows (send_task source_name project_name day t d task).
Proof.
  unfold send_task.
  apply log_follows_bind; [apply log_follows_lift, plain_get | intros id].
  cbv zeta.
  apply log_follows_bind; [apply log_follows_lift, plain_get | intros spent].
  apply log_follows_bind; [apply log_follows_lift, plain_get | intros today].
  apply log_follows_bind; [apply log_follows_gets | intros cache].
  apply log_follows_bind; [apply log_follows_lift, plain_cached | intros prev].
  apply log_follows_bind.
  { apply log_follows_lift.
    apply plain_res_bind; [apply plain_num | intros a].
    apply plain_res_bind; [apply plain_num | intros b; apply plain_ok]. }
  intros time_diff.
  apply log_follows_bind;
    [apply log_follows_lift, plain_cache_store | intros cache'].
  apply log_follows_bind.
  { apply log_follows_modify; reflexivity. }
  intros _.
  apply log_follows_bind; [apply log_follows_lift, plain_get | intros title].
  apply send_and_print_log_follows.
Qed.

Lemma handle_session_log_follows {platform : Platform}
      (tasks : json) (source_name project_id : string) (project_name : json)
      (day : string) (session : json) :
  log_follows (handle_session tasks source_name project_id project_name day
                              session).
Proof.
  unfold handle_session.
  apply log_follows_bind; [apply log_follows_lift, plain_get | intros start_ms].
  apply log_follows_bind; [apply log_follows_lift, plain_get | intros end_ms].
  apply log_follows_bind; [apply log_follows_gets | intros last].
  apply log_follows_bind;
    [apply log_follows_lift, plain_session_is_new | intros new].
  destruct new; [|apply log_follows_ret].
  apply log_follows_bind; [apply log_follows_lift, plain_num | intros s].
  apply log_follows_bind;
    [apply log_follows_lift, plain_fromtimestamp_utc | intros t].
  apply log_follows_bind; [apply log_follows_lift, plain_num | intros e].
  apply log_follows_bind; [apply log_follows_lift, plain_div1000 | intros d].
  apply log_follows_bind;
    [apply log_follows_lift, plain_associated_tasks | intros associated].
  apply log_follows_bind.
  { apply log_follows_for_each. intros task. apply send_task_log_follows. }
  intros _.
  apply log_follows_bind; [apply log_follows_gets | intros last'].
  destruct (last' <? e); [|apply log_follows_ret].
  apply log_follows_modify; reflexivity.
Qed.

Lemma handle_source_log_follows {platform : Platform}
      (tasks : json) (names : list (string * json)) (src : string * json) :
  log_follows (handle_source tasks names src).
Proof.
  destruct src as [source_name time_tracking]. unfold handle_source.
  apply log_follows_bind; [apply log_follows_lift, plain_items | intros es].
  apply log_follows_for_each. intros [project_id days]. unfold handle_entity.
  apply log_follows_bind; [apply log_follows_lift, plain_items | intros ss].
  apply log_follows_for_each. intros [day session].
  apply handle_session_log_follows.
Qed.

Lemma save_cache_log_follows {platform : Platform} : log_follows save_cache.
Proof.
  unfold save_cache.
  apply log_follows_bind; [apply log_follows_gets | intros f].
  apply log_follows_bind; [apply log_follows_gets | intros cache].
  destruct (dump_cache f cache) as [f' ok].
  apply log_follows_bind; [apply log_follows_modify; reflexivity | intros _].
  destruct ok; [apply log_follows_ret | now apply log_follows_print].
Qed.

Lemma walk_log_follows {platform : Platform} (json_data : json) :
  log_follows (walk json_data).
Proof.
  unfold walk.
  do 5 (apply log_follows_bind;
        [apply log_follows_lift, plain_get | intros ?]).
  apply log_follows_bind;
    [apply log_follows_lift, plain_project_names | intros names].
  do 3 (apply log_follows_bind;
        [apply log_follows_lift, plain_get | intros ?]).
  cbv zeta.
  apply log_follows_bind.
  - apply log_follows_for_each. intros src. apply handle_source_log_follows.
  - intros _. apply save_cache_log_follows.
Qed.

Lemma parse_backup_and_send_log_follows {platform : Platform}
      (f : backup_file) :
  log_follows (parse_backup_and_send f).
Proof.
  unfold parse_backup_and_send.
  destruct (read_backup f) as [json_data| |];
    [|now apply log_follows_print | now apply log_follows_print].
  unfold diff_pass.
  apply log_follows_bind; [apply log_follows_lift, plain_get | intros lu0].
  apply log_follows_bind; [apply log_follows_gets | intros seen].
  apply log_follows_bind; [apply log_follows_lift, plain_num | intros lu].
  destruct (lu <=? seen); [now apply log_follows_print|].
  apply log_follows_bind; [apply log_follows_modify; reflexivity | intros _].
  apply walk_log_follows.
Qed.

(** X8.  The log of a pass follows its bucket, and is behind by one
    event at most.  When the pass ends in anything but
    [UnicodeEncodeError], returning included, the lines it has printed
    report exactly the events it has added to the bucket, one [InfoSent]
    line for each event, with its dimension, name, title, start and
    duration, in the order of the events.  When the pass ends in
    [UnicodeEncodeError], which the [print] of line 153 raises after the
    event of line 151 is in the bucket, the lines report every event the
    pass has added but the last one, which has no line. *)
Theorem log_follows_bucket {platform : Platform} :
  forall (f : backup_file) (w : world),
    let out := parse_backup_and_send f w in
    exists lines,
      stdout (snd out) = stdout w ++ lines /\
      match fst out with
      | Err UnicodeEncodeError =>
          exists ev,
            emitted (parse_backup_and_send f) w = sent_events lines ++ [ev]
      | _ => emitted (parse_backup_and_send f) w = sent_events lines
      end.
Proof.
  intros f w out. subst out.
  pose proof (parse_backup_and_send_log_follows f w) as H.
  assert (Hagree :
            logged_together w (snd (parse_backup_and_send f w)) ->
            exists lines,
              stdout (snd (parse_backup_and_send f w)) = stdout w ++ lines /\
              emitted (parse_backup_and_send f) w = sent_events lines).
  { intros (evs & lines & Hb & Ho & Hs). exists lines. split; [exact Ho|].
    rewrite Hs. now apply emitted_of_append. }
  destruct (fst (parse_backup_and_send f w)) as [u|e]; [exact (Hagree H)|].
  destruct e; try exact (Hagree H).
  destruct H as (lines & ev & Ho & Hb).
  exists lines. split; [exact Ho|]. exists ev.
  now apply emitted_of_append.
Qed.

(** X19.  A title the standard output cannot encode leaves its event
    without a line: on a platform whose standard output encodes ASCII
    only, the pass over the scenario with the title "Caf\233" raises
    [UnicodeEncodeError] with the event in the bucket, nothing printed,
    the cache updated in memory and not saved, the session mark at zero
    and the update mark at the snapshot's [lastUpdate]; the next pass
    over the same snapshot stops at the freshness gate, so the line is
    not printed later either. *)
Theorem unprintable_title_leaves_event_unlogged :
  let snapshot := scenario_snapshot (Some accented_title) in
  let out := @diff_pass ascii_stdout_platform snapshot fresh in
  let again := @diff_pass ascii_stdout_platform snapshot (snd out) in
  fst out = Err UnicodeEncodeError /\
  bucket (snd out)
  = [mk_Event 1000 (60000 # 1000)
              (mk_event_data "project" (JStr "Work") accented_title)] /\
  stdout (snd out) = [] /\
  previous_time_spent_cache (snd out)
  = JObj [("t1", JObj [("day1", JInt 60)])] /\
  cache_file (snd out) = NoFile /\
  last_session_end_ms (snd out) = 0 /\
  last_update_timestamp (snd out) = 1000 /\
  fst again = Ok tt /\
  bucket (snd again) = bucket (snd out) /\
  stdout (snd again) = [InfoNoNewUpdates].
Proof.
  vm_compute. repeat split.
Qed.

(** ** The cache in memory *)

Lemma lookup_assign_other (kvs : list (string * json)) (k k' : string)
      (v : json) :
  k <> k' -> Py.lookup (Py.assign kvs k v) k' = Py.lookup kvs k'.
Proof.
  intros Hne.
  induction kvs as [|[k0 v0] rest IH]; simpl.
  - destruct (String.eqb_spec k k'); [contradiction | reflexivity].
  - destruct (String.eqb_spec k0 k) as [->|Hk]; simpl.
    + destruct (String.eqb_spec k k'); [contradiction | reflexivity].
    + destruct (String.eqb k0 k'); auto.
Qed.

Lemma num_is_number (v : json) (z : Z) : Py.num v = Ok z -> is_number v = true.
Proof.
  destruct v; simpl; congruence.
Qed.

(** The shape of [cache_store]'s result, once it has not raised. *)
Lemma cache_store_result (cache cache' : json) (task_id day : string) (v : json) :
  cache_store cache task_id day v = Ok cache' ->
  exists c e,
    cache = JObj c /\
    match Py.lookup c task_id with
    | Some entry => entry = JObj e
    | None => e = []
    end /\
    cache' = JObj (Py.assign
                     match Py.lookup c task_id with
                     | Some _ => c
                     | None => Py.assign c task_id (JObj [])
                     end
                     task_id (JObj (Py.assign e day v))).
Proof.
  unfold cache_store, Py.contains, res_bind.
  destruct cache as [| | | s |l|c]; try discriminate.
  - destruct (String.index 0 task_id s); simpl; discriminate.
  - destruct (existsb _ l); simpl; discriminate.
  - destruct (Py.lookup c task_id) as [entry|] eqn:Hentry; simpl.
    + rewrite Hentry.
      destruct entry as [| | | | |e]; simpl; try discriminate.
      intros H. injection H as <-. exists c, e. rewrite Hentry. auto.
    + rewrite lookup_assign_same. simpl.
      intros H. injection H as <-. exists c, []. rewrite Hentry. auto.
Qed.

(** X11.  Setting the cache entry of one task and day (lines 140-142)
    leaves what the cache answers for every other task and for every
    other day of the same task as it was. *)
Theorem cache_store_leaves_other_entries :
  forall (cache cache' : json) (task_id day : string) (v : json)
         (task_id' day' : string),
    cache_store cache task_id day v = Ok cache' ->
    task_id' <> task_id \/ day' <> day ->
    cached cache' task_id' day' = cached cache task_id' day'.
Proof.
  intros cache cache' task_id day v task_id' day' Hstore Hother.
  destruct (cache_store_result _ _ _ _ _ Hstore) as (c & e & -> & He & ->).
  unfold cached, Py.get, res_bind.
  destruct (String.eqb_spec task_id task_id') as [<-|Hne].
  - rewrite lookup_assign_same.
    destruct Hother as [Habs | Hday]; [contradiction|].
    assert (Hd : day <> day') by congruence.
    rewrite (lookup_assign_other e day day' v Hd).
    destruct (Py.lookup c task_id) as [entry|]; subst; reflexivity.
  - rewrite (lookup_assign_other _ task_id task_id' _ Hne).
    destruct (Py.lookup c task_id) as [entry|]; [reflexivity|].
    now rewrite (lookup_assign_other _ task_id task_id' _ Hne).
Qed.

Lemma cache_store_leaves_other_entries_witness :
  cached (JObj [("t1", JObj [("d1", JInt 150); ("d2", JInt 7)]);
                ("t2", JObj [("d1", JInt 9)])]) "t1" "d2"
  = cached (JObj [("t1", JObj [("d1", JInt 100); ("d2", JInt 7)]);
                  ("t2", JObj [("d1", JInt 9)])]) "t1" "d2".
Proof.
  apply (cache_store_leaves_other_entries
           (JObj [("t1", JObj [("d1", JInt 100); ("d2", JInt 7)]);
                  ("t2", JObj [("d1", JInt 9)])])
           _ "t1" "d1" (JInt 150) "t1" "d2").
  - reflexivity.
  - right. discriminate.
Defined.

Lemma cache_store_keeps_entry (cache cache' : json) (task_id day : string)
      (v : json) (task_id' day' : string) :
  cache_store cache task_id day v = Ok cache' ->
  has_entry cache task_id' day' = true ->
  has_entry cache' task_id' day' = true.
Proof.
  intros Hstore Hhas.
  destruct (cache_store_result _ _ _ _ _ Hstore) as (c & e & -> & He & ->).
  unfold has_entry in *.
  destruct (String.eqb_spec task_id task_id') as [<-|Hne].
  - rewrite lookup_assign_same.
    destruct (Py.lookup c task_id) as [entry|]; [|discriminate]. subst entry.
    destruct (String.eqb_spec day day') as [<-|Hd].
    + now rewrite lookup_assign_same.
    + now rewrite (lookup_assign_other e day day' v Hd).
  - rewrite (lookup_assign_other _ task_id task_id' _ Hne).
    destruct (Py.lookup c task_id) as [entry|]; [exact Hhas|].
    now rewrite (lookup_assign_other _ task_id task_id' _ Hne).
Qed.

Lemma send_task_keeps_entries {platform : Platform}
      (source_name : string) (project_name : json) (day : string)
      (t : Z) (d : Q) (task : json) :
  preserves keeps_entries (send_task source_name project_name day t d task).
Proof.
  intros w task_id' day'.
  unfold send_task, bind, lift, gets, modify, insert_event, print_sent, print.
  repeat break_match; simpl; auto;
    intros Hhas; eapply cache_store_keeps_entry; eauto.
Qed.

Lemma send_task_keeps_cache_shape {platform : Platform}
      (source_name : string) (project_name : json) (day : string)
      (t : Z) (d : Q) (task : json) :
  preserves keeps_cache_shape
            (send_task source_name project_name day t d task).
Proof.
  intros w. unfold keeps_cache_shape.
  unfold send_task, bind, lift, gets, modify, insert_event, print_sent, print.
  repeat break_match; simpl; auto;
    intros Hok;
    match goal with
    | H : res_bind (Py.num ?v) _ = Ok _,
      Hs : cache_store _ _ _ ?v = Ok _ |- _ =>
        unfold res_bind in H;
        destruct (Py.num v) as [z|] eqn:Hnum; [|discriminate];
        eapply cache_store_ok; [exact Hok | exact (num_is_number _ _ Hnum)
                                | exact Hs]
    end.
Qed.

(** What every pass keeps, the loop keeps. *)
Lemma watcher_loop_keeps {platform : Platform}
      (R : world -> world -> Prop) :
  (forall w, R w w) ->
  (forall a b c, R a b -> R b c -> R a c) ->
  (forall f, preserves R (parse_backup_and_send f)) ->
  forall (BACKUP_FILE : string) (observations : list location)
         (st : loop_state),
    R (globals st) (globals (watcher_loop BACKUP_FILE observations st)).
Proof.
  intros Hrefl Htrans Hpass BACKUP_FILE observations st. unfold watcher_loop.
  change (globals st) with (globals (say InfoStarting st)).
  generalize (say InfoStarting st). clear st.
  induction observations as [|loc rest IH]; intros st; simpl.
  - apply Hrefl.
  - eapply Htrans; [|apply IH].
    destruct (watcher_iteration_globals BACKUP_FILE loc st) as [-> | [f ->]].
    + apply Hrefl.
    + apply Hpass.
Qed.

Lemma parse_keeps_cache_shape {platform : Platform} (f : backup_file) :
  preserves keeps_cache_shape (parse_backup_and_send f).
Proof.
  apply parse_backup_and_send_keeps; unfold keeps_cache_shape; auto.
  apply send_task_keeps_cache_shape.
Qed.

Lemma parse_keeps_entries {platform : Platform} (f : backup_file) :
  preserves keeps_entries (parse_backup_and_send f).
Proof.
  apply parse_backup_and_send_keeps; unfold keeps_entries; auto.
  apply send_task_keeps_entries.
Qed.

(** X9.  A pass stores nothing but numbers in the cache: whatever the
    snapshot holds and however the pass ends, a cache that maps task ids
    to day-keys to numbers is still one afterwards, after one pass and
    after any number of turns of the loop.  The cache that [load_cache()]
    sets when there is no cache file, or none that can be read, is one. *)
Theorem cache_stays_well_shaped {platform : Platform} :
  forall (f : backup_file) (BACKUP_FILE : string)
         (observations : list location) (st : loop_state) (w : world),
    (cache_ok (previous_time_spent_cache w) = true ->
     cache_ok (previous_time_spent_cache (snd (parse_backup_and_send f w)))
     = true) /\
    (cache_ok (previous_time_spent_cache (globals st)) = true ->
     cache_ok (previous_time_spent_cache
                 (globals (watcher_loop BACKUP_FILE observations st)))
     = true) /\
    (forall b, cache_ok (previous_time_spent_cache
                           (snd (load_cache (module_state NoFile b)))) = true /\
               cache_ok (previous_time_spent_cache
                           (snd (load_cache (module_state Unreadable b))))
               = true).
Proof.
  intros f BACKUP_FILE observations st w. split; [|split].
  - apply (parse_keeps_cache_shape f w).
  - apply (watcher_loop_keeps keeps_cache_shape); unfold keeps_cache_shape; auto.
    apply parse_keeps_cache_shape.
  - intros b. split; reflexivity.
Qed.

Lemma cache_stays_well_shaped_witness :
  cache_ok (previous_time_spent_cache
              (snd (@parse_backup_and_send (replay_platform broken_snapshot)
                      [Some "pf_backup {...}"] fresh))) = true /\
  cache_ok (previous_time_spent_cache
              (globals (@watcher_loop (replay_platform later_first) "/backups"
                          [Directory [("a.json",
                                       mk_node (Mtime 100)
                                               [Some "pf_backup {...}"])]]
                          (mk_loop_state 0 [] fresh)))) = true.
Proof.
  split.
  - apply (proj1 (@cache_stays_well_shaped (replay_platform broken_snapshot)
                    [Some "pf_backup {...}"] "/backups" []
                    (mk_loop_state 0 [] fresh) fresh)).
    reflexivity.
  - apply (proj1 (proj2 (@cache_stays_well_shaped (replay_platform later_first)
                           [] "/backups"
                           [Directory [("a.json",
                                        mk_node (Mtime 100)
                                                [Some "pf_backup {...}"])]]
                           (mk_loop_state 0 [] fresh) fresh))).
    reflexivity.
Defined.

(** X10.  A pass never drops a cache entry: a task and a day for which
    the cache holds a value before the pass still have one after it,
    whatever the snapshot holds (also when the task or the day has gone
    from it) and however the pass ends; the same over any number of turns
    of the loop. *)
Theorem cache_entries_are_never_dropped {platform : Platform} :
  forall (f : backup_file) (BACKUP_FILE : string)
         (observations : list location) (st : loop_state) (w : world)
         (task_id day : string),
    (has_entry (previous_time_spent_cache w) task_id day = true ->
     has_entry (previous_time_spent_cache (snd (parse_backup_and_send f w)))
               task_id day = true) /\
    (has_entry (previous_time_spent_cache (globals st)) task_id day = true ->
     has_entry (previous_time_spent_cache
                  (globals (watcher_loop BACKUP_FILE observations st)))
               task_id day = true).
Proof.
  intros f BACKUP_FILE observations st w task_id day. split.
  - apply (parse_keeps_entries f w).
  - apply (watcher_loop_keeps keeps_entries); unfold keeps_entries; auto.
    apply parse_keeps_entries.
Qed.

Lemma cache_entries_are_never_dropped_witness :
  let w := with_cache (JObj [("gone", JObj [("day0", JInt 5)])]) fresh in
  has_entry (previous_time_spent_cache
               (snd (@parse_backup_and_send (replay_platform later_first)
                       [Some "pf_backup {...}"] w))) "gone" "day0" = true /\
  has_entry (previous_time_spent_cache
               (globals (@watcher_loop (replay_platform later_first) "/backups"
                           [Directory [("a.json",
                                        mk_node (Mtime 100)
                                                [Some "pf_backup {...}"])]]
                           (mk_loop_state 0 [] w)))) "gone" "day0" = true.
Proof.
  intros w. split.
  - apply (proj1 (@cache_entries_are_never_dropped (replay_platform later_first)
                    [Some "pf_backup {...}"] "/backups" []
                    (mk_loop_state 0 [] w) w "gone" "day0")).
    reflexivity.
  - apply (proj2 (@cache_entries_are_never_dropped (replay_platform later_first)
                    [] "/backups"
                    [Directory [("a.json",
                                 mk_node (Mtime 100) [Some "pf_backup {...}"])]]
                    (mk_loop_state 0 [] w) w "gone" "day0")).
    reflexivity.
Defined.

(** ** Sessions whose handling raises *)

(** X12.  When the handling of a session record raises -- a task of the
    wrong shape, a cache entry that is not a number, the sink refusing an
    event -- the session mark is left where it was, although the events
    sent for the tasks before the failure stay in the bucket: the mark
    moves to the end of a session only after the last of its tasks. *)
Theorem raised_session_leaves_mark {platform : Platform} :
  forall (tasks : json) (source_name project_id : string)
         (project_name : json) (day : string) (session : json)
         (w : world) (ex : exn),
    fst (handle_session tasks source_name project_id project_name day
                        session w) = Err ex ->
    last_session_end_ms
      (snd (handle_session tasks source_name project_id project_name day
                           session w))
    = last_session_end_ms w.
Proof.
  intros tasks source_name project_id project_name day session w ex.
  destruct (handle_session _ _ _ _ _ _ w) as [r w'] eqn:H.
  simpl. intros ->.
  unfold handle_session in H.
  unfold bind at 1, lift at 1 in H.
  destruct (Py.get session "s" JNull) as [start_ms|]; [|congruence].
  unfold bind at 1, lift at 1 in H.
  destruct (Py.get session "e" JNull) as [end_ms|]; [|congruence].
  unfold bind at 1, gets at 1 in H. unfold bind at 1, lift at 1 in H.
  destruct (session_is_new start_ms end_ms (last_session_end_ms w))
    as [[|]|]; [| discriminate | congruence].
  unfold bind at 1, lift at 1 in H.
  destruct (Py.num start_ms) as [s|]; [|congruence].
  unfold bind at 1, lift at 1 in H.
  destruct (Py.fromtimestamp_utc s) as [t|]; [|congruence].
  unfold bind at 1, lift at 1 in H.
  destruct (Py.num end_ms) as [e|]; [|congruence].
  unfold bind at 1, lift at 1 in H.
  destruct (Py.div1000 (e - s)) as [d|]; [|congruence].
  unfold bind at 1, lift at 1 in H.
  destruct (associated_tasks tasks project_id day) as [associated|];
    [|congruence].
  unfold bind at 1 in H.
  pose proof (preserves_for_each (tasks_step t d)
                (tasks_step_refl _ _) (tasks_step_trans _ _) associated
                (send_task source_name project_name day t d)
                (fun x _ => send_task_step _ _ _ _ _ x) w)
    as (_ & _ & Hm & _).
  destruct (for_each associated _ w) as [[[]|ex'] w1]; simpl in Hm.
  - unfold bind, gets, modify, ret in H.
    destruct (last_session_end_ms w1 <? e); discriminate.
  - injection H as _ <-. exact Hm.
Qed.

Lemma raised_session_leaves_mark_witness :
  let tasks := JObj [("t1", JObj [("id", JStr "t1"); ("projectId", JStr "p1");
                                  ("timeSpentOnDay", JObj [("day1", JInt 60)])]);
                     ("t2", JObj [("id", JStr "t2"); ("projectId", JStr "p1");
                                  ("timeSpentOnDay",
                                   JObj [("day1", JStr "an hour")])])] in
  last_session_end_ms
    (snd (@handle_session example_platform tasks "project" "p1" (JStr "Work")
                          "day1" (session (JInt 1000) (JInt 61000)) fresh))
  = 0.
Proof.
  intros tasks.
  apply (@raised_session_leaves_mark example_platform tasks "project" "p1"
           (JStr "Work") "day1" (session (JInt 1000) (JInt 61000)) fresh
           TypeError).
  reflexivity.
Defined.

(** X13.  The tasks of a session are collected before any of them is
    handled (lines 130-133), so a single task entity that the test of
    line 132 cannot read blocks the whole session: for a session that
    passes line 126, the statement raises what the test raised and the
    world is untouched -- no event for the well-formed tasks either, no
    cache update, no move of the mark. *)
Theorem unreadable_task_blocks_session {platform : Platform} :
  forall (tasks : json) (source_name project_id : string)
         (project_name : json) (day : string)
         (record : list (string * json)) (s e : Z) (w : world) (ex : exn),
    Py.lookup record "s" = Some (JInt s) ->
    Py.lookup record "e" = Some (JInt e) ->
    s <> 0 -> e <> 0 ->
    last_session_end_ms w < e ->
    Py.datetime_min_ms <= s <= Py.datetime_max_ms ->
    Z.abs (e - s) < 1000 * Py.float_overflow_bound ->
    associated_tasks tasks project_id day = Err ex ->
    handle_session tasks source_name project_id project_name day
                   (JObj record) w = (Err ex, w).
Proof.
  intros tasks source_name project_id project_name day record s e w ex
         Hs He Hs0 He0 Hlt Hrange Hdur Hassoc.
  unfold handle_session, bind, lift, gets, Py.get.
  rewrite Hs, He. unfold session_is_new. simpl.
  apply Z.eqb_neq in Hs0, He0. rewrite Hs0, He0. simpl.
  apply Z.ltb_lt in Hlt. rewrite Hlt.
  rewrite (datetime_range_divides s Hrange).
  unfold Py.div1000. apply Z.ltb_lt in Hdur. rewrite Hdur.
  now rewrite Hassoc.
Qed.

Lemma unreadable_task_blocks_session_witness :
  let tasks := JObj [("t1", JObj [("id", JStr "t1"); ("projectId", JStr "p1");
                                  ("timeSpentOnDay", JObj [("day1", JInt 60)])]);
                     ("t2", JObj [("id", JStr "t2"); ("projectId", JStr "p1");
                                  ("timeSpentOnDay", JInt 60)])] in
  @handle_session example_platform tasks "project" "p1" (JStr "Work") "day1"
                  (JObj [("s", JInt 1000); ("e", JInt 61000)]) fresh
  = (Err TypeError, fresh).
Proof.
  intros tasks.
  apply (@unreadable_task_blocks_session example_platform tasks "project" "p1"
           (JStr "Work") "day1" [("s", JInt 1000); ("e", JInt 61000)]
           1000 61000 fresh TypeError).
  - reflexivity.
  - reflexivity.
  - discriminate.
  - discriminate.
  - simpl. lia.
  - unfold Py.datetime_min_ms, Py.datetime_max_ms. lia.
  - vm_compute. reflexivity.
  - reflexivity.
Defined.

(** ** The cache file and a restart *)

(** X14.  A pass that is past the freshness gate and returns hands the
    cache to [save_cache()] exactly once, after the walk: the cache file
    is then what the write made of the file from before the pass and of
    the cache in memory after it.  When that write has stored the cache
    as it is, a process started afterwards loads the same cache, while
    both of its marks are back at zero. *)
Theorem completed_pass_saves_final_cache {platform : Platform} :
  forall (json_data last_update : json) (lu : Z) (w : world)
         (b : list Event),
    Py.get json_data "lastUpdate" (JInt 0) = Ok last_update ->
    Py.num last_update = Ok lu ->
    last_update_timestamp w < lu ->
    fst (diff_pass json_data w) = Ok tt ->
    let w' := snd (diff_pass json_data w) in
    cache_file w'
    = fst (dump_cache (cache_file w) (previous_time_spent_cache w')) /\
    (cache_file w' = Stored (previous_time_spent_cache w') ->
     let restarted := snd (load_cache (module_state (cache_file w') b)) in
     previous_time_spent_cache restarted = previous_time_spent_cache w' /\
     last_update_timestamp restarted = 0 /\
     last_session_end_ms restarted = 0).
Proof.
  intros json_data last_update lu w b Hv Hlu Hlt Hok w'. subst w'.
  rewrite diff_pass_unfold, Hv, Hlu in *.
  apply Z.leb_gt in Hlt. rewrite Hlt in *.
  destruct (walk_cases json_data (with_last_update_timestamp lu w))
    as (w1 & (_ & Hf & _) & [[e He] | Hs]).
  - rewrite He in Hok. discriminate.
  - rewrite Hs. split.
    + unfold save_cache, bind, gets, modify, print, ret.
      simpl in Hf. rewrite Hf.
      destruct (dump_cache (cache_file w) (previous_time_spent_cache w1))
        as [f' []] eqn:Hdump; simpl; now rewrite Hdump.
    + intros Hstored. rewrite Hstored. simpl. auto.
Qed.

Lemma completed_pass_saves_final_cache_witness :
  let w' := snd (@diff_pass example_platform (scenario_snapshot None) fresh) in
  cache_file w' = Stored (JObj [("t1", JObj [("day1", JInt 60)])]) /\
  previous_time_spent_cache
    (snd (load_cache (module_state (cache_file w') [])))
  = previous_time_spent_cache w'.
Proof.
  intros w'.
  destruct (@completed_pass_saves_final_cache example_platform
              (scenario_snapshot None) (JInt 1000) 1000 fresh []
              eq_refl eq_refl eq_refl eq_refl) as [Hfile Hrestart].
  split; [exact Hfile|].
  apply (Hrestart eq_refl).
Defined.

(** ** The reader, from its result *)

Lemma read_backup_found {platform : Platform} (f : backup_file) (d : json) :
  read_backup f = Found d ->
  exists before line i rest,
    f = before ++ Some line :: rest /\
    forallb passed_over before = true /\
    Py.startswith line "pf_" = true /\
    Py.find line "{" = Some i /\
    json_loads (Py.slice_from line i) = Some d.
Proof.
  induction f as [|[line|] rest IH]; simpl; try discriminate.
  destruct (Py.startswith line "pf_") eqn:Hpf.
  - destruct (Py.find line "{") as [i|] eqn:Hbrace.
    + destruct (json_loads (Py.slice_from line i)) as [d'|] eqn:Hd;
        [|discriminate].
      intros H. injection H as <-.
      exists [], line, i, rest. auto.
    + intros H. destruct (IH H) as (before & l & i & r & -> & Hb & Hrest).
      exists (Some line :: before), l, i, r. simpl.
      unfold is_record_line. rewrite Hpf, Hbrace. simpl. auto.
  - intros H. destruct (IH H) as (before & l & i & r & -> & Hb & Hrest).
    exists (Some line :: before), l, i, r. simpl.
    unfold is_record_line. rewrite Hpf. simpl. auto.
Qed.

Lemma read_backup_not_found {platform : Platform} (f : backup_file) :
  read_backup f = NotFound -> forallb passed_over f = true.
Proof.
  induction f as [|[line|] rest IH]; simpl; try discriminate; auto.
  unfold is_record_line.
  destruct (Py.startswith line "pf_"); simpl; auto.
  destruct (Py.find line "{") as [i|]; simpl; auto.
  destruct (json_loads (Py.slice_from line i)); discriminate.
Qed.

(** X15.  The reader returns a document exactly when the file holds a
    record line reached without a read error whose text from the first
    brace decodes, and the document is the decoding of the first such
    line; it reports that no record was found exactly when every line
    could be read and none is a record line. *)
Theorem reader_result_characterised {platform : Platform} :
  forall (f : backup_file) (d : json),
    (read_backup f = Found d <->
     exists before line i rest,
       f = before ++ Some line :: rest /\
       forallb passed_over before = true /\
       Py.startswith line "pf_" = true /\
       Py.find line "{" = Some i /\
       json_loads (Py.slice_from line i) = Some d) /\
    (read_backup f = NotFound <-> forallb passed_over f = true).
Proof.
  intros f d. split; split.
  - apply read_backup_found.
  - intros (before & line & i & rest & -> & Hb & Hpf & Hbrace & Hd).
    rewrite read_backup_passed_over by exact Hb.
    simpl. now rewrite Hpf, Hbrace, Hd.
  - apply read_backup_not_found.
  - intros H. rewrite <- (app_nil_r f).
    now rewrite read_backup_passed_over.
Qed.

(** ** The order of the two dimensions *)

Lemma event_of_session_task_source (tasks : json)
      (source_name project_id : string) (project_name : json) (day : string)
      (session : json) (ev : Event) :
  event_of_session_task tasks source_name project_id project_name day session ev ->
  source (data ev) = source_name.
Proof.
  intros (start_ms & end_ms & s & e & all_tasks & task & p & spent & H).
  decompose [and] H. subst ev. reflexivity.
Qed.

Lemma handle_source_emits_source {platform : Platform}
      (tasks : json) (names : list (string * json)) (src : string * json) :
  preserves (emits (fun ev => source (data ev) = fst src))
            (handle_source tasks names src).
Proof.
  intros w. eapply emits_weaken; [|apply handle_source_emits].
  intros ev (project_id & days & day & session & _ & _ & Hev).
  eapply event_of_session_task_source; exact Hev.
Qed.

(** X16.  The events of a pass come dimension by dimension: first all
    the events of the "project" dimension, then all the events of the
    "tag" dimension; no "project" event follows a "tag" event, and no
    event has another dimension. *)
Theorem project_events_precede_tag_events {platform : Platform} :
  forall (json_data : json) (w : world),
    exists by_project by_tag,
      emitted (diff_pass json_data) w = by_project ++ by_tag /\
      Forall (fun ev => source (data ev) = "project") by_project /\
      Forall (fun ev => source (data ev) = "tag") by_tag.
Proof.
  intros json_data w.
  assert (Hnone : forall w', bucket w' = bucket w ->
            exists by_project by_tag,
              bucket w' = bucket w ++ by_project ++ by_tag /\
              Forall (fun ev => source (data ev) = "project") by_project /\
              Forall (fun ev => source (data ev) = "tag") by_tag).
  { intros w' Hb. exists [], []. rewrite Hb, !app_nil_r. auto. }
  assert (H : exists by_project by_tag,
            bucket (snd (diff_pass json_data w))
            = bucket w ++ by_project ++ by_tag /\
            Forall (fun ev => source (data ev) = "project") by_project /\
            Forall (fun ev => source (data ev) = "tag") by_tag).
  { rewrite diff_pass_unfold.
    destruct (Py.get json_data "lastUpdate" (JInt 0)) as [v|];
      [|now apply Hnone].
    destruct (Py.num v) as [lu|]; [|now apply Hnone].
    destruct (lu <=? last_update_timestamp w); [now apply Hnone|].
    remember (walk json_data (with_last_update_timestamp lu w)) as result eqn:Hw.
    unfold walk in Hw.
    repeat (unfold bind at 1, lift at 1 in Hw;
            match type of Hw with
            | context [match ?r with Ok _ => _ | Err _ => _ end] =>
                destruct r; [| subst result; now apply Hnone]
            end).
    unfold bind at 1 in Hw. cbn [for_each] in Hw.
    match type of Hw with
    | context [handle_source ?tasks ?names ("project", ?bp)] =>
        pose proof (handle_source_emits_source tasks names ("project", bp)
                      (with_last_update_timestamp lu w)) as (P & HbP & HP);
        unfold bind at 1 in Hw;
        destruct (handle_source tasks names ("project", bp)
                                (with_last_update_timestamp lu w))
          as [[[]|e1] wp]
    end; simpl in HbP, HP.
    2:{ subst result. exists P, []. rewrite app_nil_r. auto. }
    match type of Hw with
    | context [handle_source ?tasks ?names ("tag", ?bt)] =>
        pose proof (handle_source_emits_source tasks names ("tag", bt) wp)
          as (T & HbT & HT);
        unfold bind at 1 in Hw;
        destruct (handle_source tasks names ("tag", bt) wp) as [[[]|e2] wt]
    end; simpl in HbT, HT.
    - unfold ret in Hw.
      destruct (save_cache_effect wt) as (_ & _ & _ & _ & Hbs).
      subst result. exists P, T. rewrite Hbs, HbT, HbP.
      now rewrite app_assoc.
    - subst result. exists P, T. simpl. rewrite HbT, HbP.
      now rewrite app_assoc. }
  destruct H as (P & T & Hb & HP & HT).
  exists P, T. split; [|auto].
  now apply emitted_of_append.
Qed.

(** * Beyond the claims: the cache does not decide what is emitted *)

Section Alike.

Context {platform : Platform}.
Variables b1 b2 : list Event.
Hypothesis sink_up : forall b ev, sink_accepts b ev = true.

Lemma runs_alike_ret {A} (a : A) : runs_alike b1 b2 (ret a).
Proof. intros w1 w2 H. split; [reflexivity | exact H]. Qed.

Lemma runs_alike_lift {A} (r : res A) : runs_alike b1 b2 (lift r).
Proof. intros w1 w2 H. split; [reflexivity | exact H]. Qed.

Lemma runs_alike_bind {A B} (m : M A) (k : A -> M B) :
  runs_alike b1 b2 m -> (forall a, runs_alike b1 b2 (k a)) ->
  runs_alike b1 b2 (bind m k).
Proof.
  intros Hm Hk w1 w2 H. unfold bind.
  destruct (Hm w1 w2 H) as [Hfst Hsnd].
  destruct (m w1) as [[a1|e1] w1'], (m w2) as [[a2|e2] w2'];
    simpl in *; try discriminate.
  - injection Hfst as <-. apply Hk, Hsnd.
  - injection Hfst as <-. split; [reflexivity | assumption].
Qed.

Lemma runs_alike_for_each {A} (l : list A) (body : A -> M unit) :
  (forall x, runs_alike b1 b2 (body x)) -> runs_alike b1 b2 (for_each l body).
Proof.
  intros Hbody. induction l as [|x rest IH]; simpl.
  - apply runs_alike_ret.
  - apply runs_alike_bind; [apply Hbody | intros _; exact IH].
Qed.

Lemma runs_alike_session_mark {B} (k : Z -> M B) :
  (forall a, runs_alike b1 b2 (k a)) ->
  runs_alike b1 b2 (bind (gets last_session_end_ms) k).
Proof.
  intros Hk w1 w2 H. unfold bind, gets.
  destruct H as (Hm & Hrest). rewrite Hm. apply Hk. split; assumption.
Qed.

Lemma runs_alike_update_mark {B} (k : Z -> M B) :
  (forall a, runs_alike b1 b2 (k a)) ->
  runs_alike b1 b2 (bind (gets last_update_timestamp) k).
Proof.
  intros Hk w1 w2 H. unfold bind, gets.
  destruct H as (Hm & Hu & Hrest). rewrite Hu. apply Hk.
  split; [|split]; assumption.
Qed.

Lemma runs_alike_print (l : log_line) : runs_alike b1 b2 (print l).
Proof. intros w1 w2 H. split; [reflexivity | exact H]. Qed.

Lemma runs_alike_save_cache : runs_alike b1 b2 save_cache.
Proof.
  intros w1 w2 H. unfold save_cache, bind, gets, modify, print, ret.
  destruct (dump_cache (cache_file w1) (previous_time_spent_cache w1))
    as [f1 []];
    destruct (dump_cache (cache_file w2) (previous_time_spent_cache w2))
    as [f2 []]; simpl; split; try reflexivity; exact H.
Qed.

Lemma send_task_runs_alike (source_name : string) (project_name : json)
      (day : string) (t : Z) (d : Q) (task : json) :
  runs_alike b1 b2 (send_task source_name project_name day t d task).
Proof.
  intros w1 w2 H.
  pose proof H as (Hm & Hu & Hc1 & Hc2 & evs & Hb1 & Hb2).
  unfold send_task, bind, lift, gets, modify, insert_event, print_sent, print.
  destruct (Py.get task "id" JNull) as [id|]; [|now split].
  destruct (Py.get task "timeSpentOnDay" (JObj [])) as [spent|]; [|now split].
  destruct (Py.get spent day (JInt 0)) as [current|]; [|now split].
  destruct (cached_ok _ (str id) day Hc1) as (p1 & Hp1 & Hn1).
  destruct (cached_ok _ (str id) day Hc2) as (p2 & Hp2 & Hn2).
  rewrite Hp1, Hp2.
  destruct (is_number_num _ Hn1) as [z1 Hz1].
  destruct (is_number_num _ Hn2) as [z2 Hz2].
  unfold res_bind at 1 3. rewrite Hz1, Hz2.
  destruct (Py.num current) as [cur|] eqn:Hcur; simpl; [|now split].
  destruct (cache_store_cached _ _ _ _ current Hp1) as (c1' & Hs1 & _).
  destruct (cache_store_cached _ _ _ _ current Hp2) as (c2' & Hs2 & _).
  rewrite Hs1, Hs2.
  pose proof (cache_store_ok _ _ _ _ _ Hc1 (num_is_number _ _ Hcur) Hs1) as Hc1'.
  pose proof (cache_store_ok _ _ _ _ _ Hc2 (num_is_number _ _ Hcur) Hs2) as Hc2'.
  destruct (Py.get task "title" (JStr "Unnamed Task")) as [ttl|]; simpl.
  - rewrite !sink_up.
    destruct (stdout_encodes source_name project_name ttl day); simpl;
      (split; [reflexivity|]);
      (split; [|split; [|split; [|split]]]; try assumption);
      eexists; rewrite Hb1, Hb2, <- !app_assoc; split; reflexivity.
  - split; [reflexivity|].
    split; [|split; [|split; [|split]]]; try assumption.
    exists evs. split; assumption.
Qed.

Lemma handle_session_runs_alike (tasks : json)
      (source_name project_id : string) (project_name : json) (day : string)
      (session : json) :
  runs_alike b1 b2 (handle_session tasks source_name project_id project_name
                                   day session).
Proof.
  unfold handle_session.
  apply runs_alike_bind; [apply runs_alike_lift | intros start_ms].
  apply runs_alike_bind; [apply runs_alike_lift | intros end_ms].
  apply runs_alike_session_mark. intros last.
  apply runs_alike_bind; [apply runs_alike_lift | intros new].
  destruct new; [|apply runs_alike_ret].
  apply runs_alike_bind; [apply runs_alike_lift | intros s].
  apply runs_alike_bind; [apply runs_alike_lift | intros ts].
  apply runs_alike_bind; [apply runs_alike_lift | intros e].
  apply runs_alike_bind; [apply runs_alike_lift | intros dur].
  apply runs_alike_bind; [apply runs_alike_lift | intros associated].
  apply runs_alike_bind.
  - apply runs_alike_for_each. intros task. apply send_task_runs_alike.
  - intros _. apply runs_alike_session_mark. intros last'.
    destruct (last' <? e); [|apply runs_alike_ret].
    intros w1 w2 (Hm & Hu & Hrest). split; [reflexivity|].
    split; [reflexivity | split; assumption].
Qed.

Lemma walk_runs_alike (json_data : json) : runs_alike b1 b2 (walk json_data).
Proof.
  unfold walk.
  repeat (apply runs_alike_bind; [apply runs_alike_lift | intros ?]).
  apply runs_alike_bind; [|intros _; apply runs_alike_save_cache].
  apply runs_alike_for_each. intros [source_name time_tracking].
  unfold handle_source.
  apply runs_alike_bind; [apply runs_alike_lift | intros entities].
  apply runs_alike_for_each. intros [project_id days].
  unfold handle_entity.
  apply runs_alike_bind; [apply runs_alike_lift | intros sessions].
  apply runs_alike_for_each. intros [day session].
  apply handle_session_runs_alike.
Qed.

Lemma diff_pass_runs_alike (json_data : json) :
  runs_alike b1 b2 (diff_pass json_data).
Proof.
  unfold diff_pass.
  apply runs_alike_bind; [apply runs_alike_lift | intros last_update].
  apply runs_alike_update_mark. intros seen.
  apply runs_alike_bind; [apply runs_alike_lift | intros lu].
  destruct (lu <=? seen); [apply runs_alike_print|].
  apply runs_alike_bind; [|intros _; apply walk_runs_alike].
  intros w1 w2 (Hm & Hu & Hrest). split; [reflexivity|].
  split; [exact Hm | split; [reflexivity | exact Hrest]].
Qed.

End Alike.

Lemma diff_pass_emits_alike {platform : Platform}
      (json_data : json) (w1 w2 : world) :
  (forall b ev, sink_accepts b ev = true) ->
  last_session_end_ms w1 = last_session_end_ms w2 ->
  last_update_timestamp w1 = last_update_timestamp w2 ->
  cache_ok (previous_time_spent_cache w1) = true ->
  cache_ok (previous_time_spent_cache w2) = true ->
  fst (diff_pass json_data w1) = fst (diff_pass json_data w2) /\
  emitted (diff_pass json_data) w1 = emitted (diff_pass json_data) w2 /\
  last_session_end_ms (snd (diff_pass json_data w1))
  = last_session_end_ms (snd (diff_pass json_data w2)).
Proof.
  intros Hsink Hm Hu Hc1 Hc2.
  destruct (diff_pass_runs_alike (bucket w1) (bucket w2) Hsink json_data w1 w2)
    as (Hfst & Hm' & _ & _ & _ & evs & Hb1 & Hb2).
  - split; [exact Hm|]. split; [exact Hu|]. split; [exact Hc1|].
    split; [exact Hc2|]. exists []. now rewrite !app_nil_r.
  - split; [exact Hfst|]. split; [|exact Hm'].
    now rewrite (emitted_of_append _ _ _ Hb1), (emitted_of_append _ _ _ Hb2).
Qed.

(** X17.  The cache does not decide what is emitted.  With a sink that
    accepts, two runs of a pass over the same snapshot from the same
    marks emit the same events, end the same way and leave the same
    session mark, whatever their caches hold, as long as each cache maps
    task ids to day-keys to numbers: the cached seconds only change the
    difference that is printed. *)
Theorem cache_does_not_filter {platform : Platform} :
  (forall b ev, sink_accepts b ev = true) ->
  forall (json_data : json) (w1 w2 : world),
    last_session_end_ms w1 = last_session_end_ms w2 ->
    last_update_timestamp w1 = last_update_timestamp w2 ->
    cache_ok (previous_time_spent_cache w1) = true ->
    cache_ok (previous_time_spent_cache w2) = true ->
    fst (diff_pass json_data w1) = fst (diff_pass json_data w2) /\
    emitted (diff_pass json_data) w1 = emitted (diff_pass json_data) w2 /\
    last_session_end_ms (snd (diff_pass json_data w1))
    = last_session_end_ms (snd (diff_pass json_data w2)).
Proof.
  intros Hsink json_data w1 w2. now apply diff_pass_emits_alike.
Qed.

Lemma cache_does_not_filter_witness :
  let w2 := with_cache (JObj [("t1", JObj [("day1", JInt 999)])]) fresh in
  fst (@diff_pass example_platform earlier_first fresh)
  = fst (@diff_pass example_platform earlier_first w2) /\
  emitted (@diff_pass example_platform earlier_first) fresh
  = emitted (@diff_pass example_platform earlier_first) w2 /\
  last_session_end_ms (snd (@diff_pass example_platform earlier_first fresh))
  = last_session_end_ms (snd (@diff_pass example_platform earlier_first w2)).
Proof.
  intros w2.
  apply (@cache_does_not_filter example_platform (fun _ _ => eq_refl)
                                earlier_first fresh w2); reflexivity.
Defined.

Lemma load_cache_marks (disk : cache_file_state) (b : list Event) :
  last_session_end_ms (snd (load_cache (module_state disk b))) = 0 /\
  last_update_timestamp (snd (load_cache (module_state disk b))) = 0.
Proof.
  destruct disk; split; reflexivity.
Qed.

(** X18.  A restart repeats the events of a snapshot.  The marks live in
    memory only, so a process started after a pass -- on the cache file
    that pass left, with the bucket it filled -- emits for the same
    snapshot the very events that the first process emitted from its
    start: with a sink that accepts and caches of the documented shape,
    the cache that survived the restart prevents none of them. *)
Theorem restart_repeats_events {platform : Platform} :
  (forall b ev, sink_accepts b ev = true) ->
  forall (json_data : json) (disk : cache_file_state) (b : list Event),
    let started := snd (load_cache (module_state disk b)) in
    let w1 := snd (diff_pass json_data started) in
    let restarted := snd (load_cache (module_state (cache_file w1) (bucket w1))) in
    cache_ok (previous_time_spent_cache started) = true ->
    cache_ok (previous_time_spent_cache restarted) = true ->
    emitted (diff_pass json_data) restarted
    = emitted (diff_pass json_data) started /\
    bucket (snd (diff_pass json_data restarted))
    = (b ++ emitted (diff_pass json_data) started)
        ++ emitted (diff_pass json_data) started.
Proof.
  intros Hsink json_data disk b started w1 restarted Hc Hc'.
  destruct (load_cache_marks disk b) as [Hm Hu].
  destruct (load_cache_marks (cache_file w1) (bucket w1)) as [Hm' Hu'].
  fold started in Hm, Hu. fold restarted in Hm', Hu'.
  destruct (diff_pass_emits_alike json_data restarted started Hsink)
    as (_ & Hsame & _); try congruence.
  split; [exact Hsame|].
  assert (Hb : bucket started = b) by (unfold started; destruct disk; reflexivity).
  assert (Hb' : bucket restarted = bucket w1)
    by (unfold restarted; destruct (cache_file w1); reflexivity).
  destruct (diff_pass_step json_data started) as (_ & _ & evs & Hev & _).
  destruct (diff_pass_step json_data restarted) as (_ & _ & evs' & Hev' & _).
  rewrite (emitted_of_append _ _ _ Hev) in *.
  rewrite (emitted_of_append _ _ _ Hev') in Hsame. subst evs'.
  rewrite Hev', Hb'. unfold w1. now rewrite Hev, Hb.
Qed.

Lemma restart_repeats_events_witness :
  let started := snd (load_cache (module_state NoFile [])) in
  let w1 := snd (@diff_pass example_platform earlier_first started) in
  let restarted := snd (load_cache (module_state (cache_file w1) (bucket w1))) in
  emitted (@diff_pass example_platform earlier_first) restarted
  = emitted (@diff_pass example_platform earlier_first) started /\
  bucket (snd (@diff_pass example_platform earlier_first restarted))
  = ([] ++ emitted (@diff_pass example_platform earlier_first) started)
      ++ emitted (@diff_pass example_platform earlier_first) started.
Proof.
  intros started w1 restarted.
  apply (@restart_repeats_events example_platform (fun _ _ => eq_refl)
                                 earlier_first NoFile []); reflexivity.
Defined.
